(** * server-klinik: the drug predictor and its request layer

    A shallow embedding of [src/models/drug_predictor.py],
    [src/services/api_service.py], [src/config.py] and [create_app] of
    [src/main.py].

    Python values are modelled as follows.
    - [str] is [string]; a character is its code point in 0..255.
    - [float] is the kernel's binary64 [float], so that the comparisons
      of the source are the comparisons evaluated here.
    - [int] is [Z].
    - [time.time()] readings are rationals (seconds).
    - An exception is a class together with its [str(e)].
    - [self.initialization_status], a dict with six fixed keys, is a record.
    - The libraries the source calls (numpy, sklearn, pandas,
      sentence-transformers, huggingface_hub) are not part of the
      repository: their calls are parameters of the model, and what is
      assumed of them is stated where it is used. *)

From Stdlib Require Import List String Ascii Bool Arith ZArith QArith Qminmax.
From Stdlib Require Import Lia Lqa Floats Permutation Sorted DecimalString.
Import ListNotations.

Set Warnings "-inexact-float,-register-all".
Close Scope Q_scope.
Open Scope list_scope.
Open Scope string_scope.

(** ** Python strings *)

Module PyStr.

(** [str.isspace] on the code points below 256. *)
Definition isspace (c : ascii) : bool :=
  let n := nat_of_ascii c in
  (((9 <=? n) && (n <=? 13)) || ((28 <=? n) && (n <=? 32))
   || (n =? 133) || (n =? 160))%nat.

Fixpoint lstrip (s : string) : string :=
  match s with
  | EmptyString => EmptyString
  | String c t => if isspace c then lstrip t else s
  end.

Fixpoint rstrip (s : string) : string :=
  match s with
  | EmptyString => EmptyString
  | String c t =>
      match rstrip t with
      | EmptyString => if isspace c then EmptyString else String c EmptyString
      | t' => String c t'
      end
  end.

(** [s.strip()] *)
Definition strip (s : string) : string := lstrip (rstrip s).

(** Truth value of a string: [not s] holds for the empty string only. *)
Definition truthy (s : string) : bool :=
  match s with EmptyString => false | _ => true end.

Fixpoint all_space (s : string) : bool :=
  match s with
  | EmptyString => true
  | String c t => isspace c && all_space t
  end.

Fixpoint join (sep : string) (l : list string) : string :=
  match l with
  | [] => ""
  | [x] => x
  | x :: t => x ++ sep ++ join sep t
  end.

(** [repr] of a list of strings holding no quote or escape:
    ['a', 'b']. *)
Definition repr_list (l : list string) : string :=
  "[" ++ join ", " (map (fun s => "'" ++ s ++ "'") l) ++ "]".

End PyStr.

(** ** Exceptions *)

Inductive ExcClass :=
| FileNotFoundError | ValueError | RuntimeError | KeyError | TypeError
| AttributeError | IndexError | OtherError.

Record Exception := mkExc { exc_class : ExcClass; exc_str : string }.

(** The outcome of a call: it returns or it raises. *)
Inductive Outcome (A : Type) :=
| Return (a : A)
| Raise (e : Exception).
Arguments Return {A} a.
Arguments Raise {A} e.

(** ** src/config.py *)

Record Config := {
  HOST : string;
  PORT : Z;
  DEBUG : bool;
  HUGGINGFACE_TOKEN : option string;
  MODEL_NAME : string;
  CSV_PATH : string;
  MAX_TOP_K : Z;
  DEFAULT_TOP_K : Z;
  AUTO_INITIALIZE : bool;
  STARTUP_TIMEOUT : Z;
  LOG_LEVEL : string
}.

(** The values [Config()] takes when no environment variable is set. *)
Definition default_config : Config := {|
  HOST := "0.0.0.0";
  PORT := 8000;
  DEBUG := false;
  HUGGINGFACE_TOKEN := None;
  MODEL_NAME := "your-username/your-model-name";
  CSV_PATH := "data/df_obat.csv";
  MAX_TOP_K := 20;
  DEFAULT_TOP_K := 5;
  AUTO_INITIALIZE := true;
  STARTUP_TIMEOUT := 600;
  LOG_LEVEL := "INFO"
|}.

(** ** Confidence levels: [DrugPredictor._get_confidence_level] *)

Inductive Confidence := high | medium | low | very_low.

Definition _get_confidence_level (score : float) : Confidence :=
  if (0.8 <=? score)%float then high
  else if (0.6 <=? score)%float then medium
  else if (0.4 <=? score)%float then low
  else very_low.

(** ** pandas: the part of [DataFrame] the source uses

    A frame is its column labels and its rows; a cell is modelled by the
    text [astype(str)] renders it to. *)

Module pd.

Record DataFrame := mkDataFrame {
  columns : list string;
  rows : list (list string)
}.

(** [len(df)] *)
Definition len (df : DataFrame) : nat := List.length (rows df).

(** [col in df.columns] *)
Definition has_column (df : DataFrame) (col : string) : bool :=
  existsb (String.eqb col) (columns df).

Fixpoint index_of (col : string) (cols : list string) : option nat :=
  match cols with
  | [] => None
  | c :: t => if String.eqb col c then Some 0%nat
              else option_map S (index_of col t)
  end.

(** [df[col]]: the column as a list, [None] for a [KeyError]. *)
Definition getitem (df : DataFrame) (col : string) : option (list string) :=
  match index_of col (columns df) with
  | Some i => Some (map (fun r => nth i r "") (rows df))
  | None => None
  end.

Fixpoint replace_nth {A} (i : nat) (x : A) (l : list A) : list A :=
  match l, i with
  | [], _ => []
  | _ :: t, O => x :: t
  | a :: t, S j => a :: replace_nth j x t
  end.

Fixpoint zip_rows (f : list string -> string -> list string)
    (rs : list (list string)) (vs : list string) : list (list string) :=
  match rs, vs with
  | r :: rs', v :: vs' => f r v :: zip_rows f rs' vs'
  | _, _ => []
  end.

(** [df[col] = values], for [values] of the frame's length: an existing
    column is overwritten in place, a new one is appended. *)
Definition setitem (df : DataFrame) (col : string) (values : list string)
  : DataFrame :=
  match index_of col (columns df) with
  | Some i =>
      mkDataFrame (columns df)
        (zip_rows (fun r v => replace_nth i v r) (rows df) values)
  | None =>
      mkDataFrame (columns df ++ [col])%list
        (zip_rows (fun r v => r ++ [v])%list (rows df) values)
  end.

(** Element-wise [a + sep + b] of two string columns. *)
Fixpoint series_concat (a : list string) (sep : string) (b : list string)
  : list string :=
  match a, b with
  | x :: a', y :: b' => (x ++ sep ++ y) :: series_concat a' sep b'
  | _, _ => []
  end.

Fixpoint dedup_rows (i : nat) (seen : list string) (rs : list (list string))
  : list (list string) :=
  match rs with
  | [] => []
  | r :: t =>
      let k := nth i r "" in
      if existsb (String.eqb k) seen then dedup_rows i seen t
      else r :: dedup_rows i (k :: seen) t
  end.

(** [df.drop_duplicates(subset=[col]).reset_index(drop=True)]: the first
    row of each value of [col] is kept, in order; [None] for a
    [KeyError]. *)
Definition drop_duplicates (df : DataFrame) (col : string)
  : option DataFrame :=
  match index_of col (columns df) with
  | Some i => Some (mkDataFrame (columns df) (dedup_rows i [] (rows df)))
  | None => None
  end.

(** [df.iloc[idx][col]] *)
Definition iloc (df : DataFrame) (idx : nat) (col : string) : option string :=
  match nth_error (rows df) idx, index_of col (columns df) with
  | Some r, Some i => Some (nth i r "")
  | _, _ => None
  end.

End pd.

(** ** numpy arrays and the encoder *)

(** A two-dimensional array of floats, as a list of rows. *)
Definition ndarray := list (list float).

(** [a.shape]: [(n, d)], and [(0,)] for the empty array. *)
Definition shape (a : ndarray) : list nat :=
  match a with
  | [] => [0%nat]
  | v :: _ => [List.length a; List.length v]
  end.

(** A loaded [SentenceTransformer]: what [encode] does on a list of
    texts. *)
Record SentenceTransformer := {
  encode : list string -> Outcome ndarray
}.

(** ** The state of a [DrugPredictor] *)

Inductive Status := not_started | in_progress | completed | failed.

Definition Status_eqb (a b : Status) : bool :=
  match a, b with
  | not_started, not_started | in_progress, in_progress
  | completed, completed | failed, failed => true
  | _, _ => false
  end.

Lemma Status_eqb_eq (a b : Status) : Status_eqb a b = true <-> a = b.
Proof. destruct a, b; simpl; split; congruence. Qed.

(** [self.initialization_status] *)
Record InitializationStatus := {
  status : Status;
  error : option string;
  progress : Z;
  message : string;
  start_time : option Q;
  end_time : option Q
}.

Record DrugPredictor := {
  config : Config;
  model : option SentenceTransformer;
  drug_embeddings : option ndarray;
  df_drugs : option pd.DataFrame;
  initialization_status : InitializationStatus
}.

(** [DrugPredictor.__init__] *)
Definition __init__ (cfg : Config) : DrugPredictor := {|
  config := cfg;
  model := None;
  drug_embeddings := None;
  df_drugs := None;
  initialization_status := {|
    status := not_started;
    error := None;
    progress := 0;
    message := "";
    start_time := None;
    end_time := None
  |}
|}.

(** Assignments to one attribute or one key. *)
Definition set_initialization_status
    (f : InitializationStatus -> InitializationStatus) (p : DrugPredictor)
  : DrugPredictor :=
  {| config := config p; model := model p;
     drug_embeddings := drug_embeddings p; df_drugs := df_drugs p;
     initialization_status := f (initialization_status p) |}.

Definition set_status (v : Status) : DrugPredictor -> DrugPredictor :=
  set_initialization_status (fun i =>
    {| status := v; error := error i; progress := progress i;
       message := message i; start_time := start_time i;
       end_time := end_time i |}).

Definition set_error (v : option string) : DrugPredictor -> DrugPredictor :=
  set_initialization_status (fun i =>
    {| status := status i; error := v; progress := progress i;
       message := message i; start_time := start_time i;
       end_time := end_time i |}).

Definition set_progress (v : Z) : DrugPredictor -> DrugPredictor :=
  set_initialization_status (fun i =>
    {| status := status i; error := error i; progress := v;
       message := message i; start_time := start_time i;
       end_time := end_time i |}).

Definition set_message (v : string) : DrugPredictor -> DrugPredictor :=
  set_initialization_status (fun i =>
    {| status := status i; error := error i; progress := progress i;
       message := v; start_time := start_time i;
       end_time := end_time i |}).

Definition set_start_time (v : option Q) : DrugPredictor -> DrugPredictor :=
  set_initialization_status (fun i =>
    {| status := status i; error := error i; progress := progress i;
       message := message i; start_time := v;
       end_time := end_time i |}).

Definition set_end_time (v : option Q) : DrugPredictor -> DrugPredictor :=
  set_initialization_status (fun i =>
    {| status := status i; error := error i; progress := progress i;
       message := message i; start_time := start_time i;
       end_time := v |}).

Definition set_model (v : option SentenceTransformer) (p : DrugPredictor)
  : DrugPredictor :=
  {| config := config p; model := v;
     drug_embeddings := drug_embeddings p; df_drugs := df_drugs p;
     initialization_status := initialization_status p |}.

Definition set_drug_embeddings (v : option ndarray) (p : DrugPredictor)
  : DrugPredictor :=
  {| config := config p; model := model p;
     drug_embeddings := v; df_drugs := df_drugs p;
     initialization_status := initialization_status p |}.

Definition set_df_drugs (v : option pd.DataFrame) (p : DrugPredictor)
  : DrugPredictor :=
  {| config := config p; model := model p;
     drug_embeddings := drug_embeddings p; df_drugs := v;
     initialization_status := initialization_status p |}.

(** [self.initialization_status["status"]] *)
Definition status_of (p : DrugPredictor) : Status :=
  status (initialization_status p).

(** ** What a build run meets outside the process

    One [World] fixes what the external calls of one run of
    [_initialize_sync] do: a call returns or raises. *)
Record World := {
  (** [huggingface_hub.login(token=...)] *)
  login : string -> Outcome unit;
  (** [SentenceTransformer(name, trust_remote_code=True)] *)
  load_model : string -> Outcome SentenceTransformer;
  (** [os.path.exists(path)] *)
  os_path_exists : string -> bool;
  (** [pd.read_csv(path)] *)
  read_csv : string -> Outcome pd.DataFrame;
  (** [time.time()]: reading 0 is the one at the start of the run,
      reading 1 the one at its end. *)
  time_time : nat -> Q
}.

(** The external calls a run makes, as a log. *)
Inductive Call :=
| call_login (token : string)
| call_SentenceTransformer (name : string)
| call_exists (path : string)
| call_read_csv (path : string)
| call_encode (texts : list string).

(** ** The monad of a method body

    A method body runs on the object [self]; every assignment to an
    attribute is one write, and the states the object goes through are
    recorded ([seen], newest first): these are the states a reader
    that does not take the lock can see. External calls are logged
    ([calls], newest first). A body returns or raises. *)

Record Mem := mkMem {
  self : DrugPredictor;
  seen : list DrugPredictor;
  calls : list Call
}.

Definition Body (A : Type) : Type := Mem -> Outcome A * Mem.

Definition ret {A} (a : A) : Body A := fun m => (Return a, m).

Definition bind {A B} (c : Body A) (k : A -> Body B) : Body B :=
  fun m =>
    match c m with
    | (Return a, m') => k a m'
    | (Raise e, m') => (Raise e, m')
    end.

Notation "x <- c1 ;; c2" := (bind c1 (fun x => c2))
  (at level 61, c1 at next level, right associativity).
Notation "c1 ;; c2" := (bind c1 (fun _ => c2))
  (at level 61, right associativity).

(** [raise e] *)
Definition raise {A} (e : Exception) : Body A := fun m => (Raise e, m).

(** Reading an attribute. *)
Definition read {A} (f : DrugPredictor -> A) : Body A :=
  fun m => (Return (f (self m)), m).

(** One assignment. *)
Definition assign (f : DrugPredictor -> DrugPredictor) : Body unit :=
  fun m =>
    let s := f (self m) in
    (Return tt, mkMem s (s :: seen m) (calls m)).

(** One external call and its outcome. *)
Definition extern {A} (c : Call) (r : Outcome A) : Body A :=
  fun m => (r, mkMem (self m) (seen m) (c :: calls m)).

(** [try: body  except Exception as e: handler(e)] *)
Definition try_except {A} (body : Body A) (handler : Exception -> Body A)
  : Body A :=
  fun m =>
    match body m with
    | (Return a, m') => (Return a, m')
    | (Raise e, m') => handler e m'
    end.

(** Running a body on an object. *)
Definition run {A} (c : Body A) (p : DrugPredictor) : Outcome A * Mem :=
  c (mkMem p [] []).

(** ** The build: [_load_drug_database], [_generate_embeddings],
    [_initialize_sync] *)

Definition required_columns : list string := ["Nama"; "DeskripsiObat"].

(** [self.df_drugs[...]] when the attribute may still be [None]. *)
Definition the_frame : Body pd.DataFrame :=
  d <- read df_drugs ;;
  match d with
  | Some df => ret df
  | None => raise (mkExc TypeError "'NoneType' object is not subscriptable")
  end.

(** A column of a frame, or [KeyError]. *)
Definition the_column (df : pd.DataFrame) (col : string)
  : Body (list string) :=
  match pd.getitem df col with
  | Some c => ret c
  | None => raise (mkExc KeyError ("'" ++ col ++ "'"))
  end.

Definition _load_drug_database (w : World) : Body bool :=
  try_except
    (cfg <- read config ;;
     ex <- extern (call_exists (CSV_PATH cfg))
             (Return (os_path_exists w (CSV_PATH cfg))) ;;
     if negb ex then
       raise (mkExc FileNotFoundError
                ("CSV file not found: " ++ CSV_PATH cfg))
     else
       df <- extern (call_read_csv (CSV_PATH cfg))
               (read_csv w (CSV_PATH cfg)) ;;
       assign (set_df_drugs (Some df)) ;;
       (* Validate required columns *)
       df <- the_frame ;;
       let missing_columns :=
         filter (fun col => negb (pd.has_column df col)) required_columns in
       match missing_columns with
       | _ :: _ =>
           raise (mkExc ValueError
                    ("Missing columns: " ++ PyStr.repr_list missing_columns
                     ++ ". Available: " ++ PyStr.repr_list (pd.columns df)))
       | [] =>
           (* Process data *)
           nama <- the_column df "Nama" ;;
           deskripsi <- the_column df "DeskripsiObat" ;;
           assign (set_df_drugs
                     (Some (pd.setitem df "ObatLengkap"
                              (pd.series_concat nama " - " deskripsi)))) ;;
           df <- the_frame ;;
           match pd.drop_duplicates df "ObatLengkap" with
           | None => raise (mkExc KeyError "'ObatLengkap'")
           | Some df' =>
               assign (set_df_drugs (Some df')) ;;
               ret true
           end
       end)
    (fun e =>
       let error_msg := "Error loading drug database: " ++ exc_str e in
       assign (set_status failed) ;;
       assign (set_error (Some error_msg)) ;;
       ret false).

Definition _generate_embeddings : Body bool :=
  try_except
    (df <- the_frame ;;
     drug_texts <- the_column df "ObatLengkap" ;;
     m <- read model ;;
     match m with
     | None =>
         raise (mkExc AttributeError
                  "'NoneType' object has no attribute 'encode'")
     | Some m =>
         embeddings <- extern (call_encode drug_texts)
                         (encode m drug_texts) ;;
         assign (set_drug_embeddings (Some embeddings)) ;;
         ret true
     end)
    (fun e =>
       let error_msg := "Error generating embeddings: " ++ exc_str e in
       assign (set_status failed) ;;
       assign (set_error (Some error_msg)) ;;
       ret false).

(** [if self.config.HUGGINGFACE_TOKEN:] *)
Definition token_of (cfg : Config) : option string :=
  match HUGGINGFACE_TOKEN cfg with
  | Some t => if PyStr.truthy t then Some t else None
  | None => None
  end.

(** The body of [_initialize_sync], run while [self._lock] is held. *)
Definition _initialize_sync (w : World) : Body bool :=
  st <- read status_of ;;
  if Status_eqb st completed then ret true
  else if Status_eqb st in_progress then ret false
  else
    assign (set_status in_progress) ;;
    assign (set_progress 0) ;;
    assign (set_message "Starting initialization...") ;;
    assign (set_start_time (Some (time_time w 0))) ;;
    assign (set_error None) ;;
    try_except
      (cfg <- read config ;;
       (* Step 1: Login to Hugging Face if token provided *)
       match token_of cfg with
       | Some token =>
           extern (call_login token) (login w token) ;;
           assign (set_progress 10) ;;
           assign (set_message "Logged in to Hugging Face")
       | None => ret tt
       end ;;
       (* Step 2: Load model *)
       assign (set_progress 20) ;;
       assign (set_message "Loading model from Hugging Face...") ;;
       m <- extern (call_SentenceTransformer (MODEL_NAME cfg))
              (load_model w (MODEL_NAME cfg)) ;;
       assign (set_model (Some m)) ;;
       assign (set_progress 50) ;;
       assign (set_message "Model loaded successfully") ;;
       (* Step 3: Load drug database *)
       assign (set_progress 60) ;;
       assign (set_message "Loading drug database...") ;;
       loaded <- _load_drug_database w ;;
       if negb loaded then ret false
       else
         (* Step 4: Generate embeddings *)
         assign (set_progress 80) ;;
         assign (set_message "Generating embeddings...") ;;
         generated <- _generate_embeddings ;;
         if negb generated then ret false
         else
           (* Completion *)
           assign (set_status completed) ;;
           assign (set_progress 100) ;;
           assign (set_message "Initialization completed successfully") ;;
           assign (set_error None) ;;
           assign (set_end_time (Some (time_time w 1))) ;;
           ret true)
      (fun e =>
         let error_msg := "Initialization failed: " ++ exc_str e in
         assign (set_status failed) ;;
         assign (set_error (Some error_msg)) ;;
         assign (set_message error_msg) ;;
         assign (set_end_time (Some (time_time w 1))) ;;
         ret false).

(** ** Readers: [is_ready], [get_status], [get_stats] *)

Definition is_ready (p : DrugPredictor) : bool :=
  Status_eqb (status_of p) completed.

(** The dict [get_status] returns: a copy of the six keys, [duration]
    when present, and the three component flags. *)
Record StatusReport := {
  r_status : Status;
  r_error : option string;
  r_progress : Z;
  r_message : string;
  r_start_time : option Q;
  r_end_time : option Q;
  r_duration : option Q;
  model_loaded : bool;
  embeddings_loaded : bool;
  database_loaded : bool
}.

(** Truth value of a time reading held under a key: [None] and [0.0]
    are false. *)
Definition time_truthy (t : option Q) : option Q :=
  match t with
  | Some q => if Qeq_bool q 0 then None else Some q
  | None => None
  end.

Definition is_some {A} (o : option A) : bool :=
  match o with Some _ => true | None => false end.

(** [get_status], with [now] the reading of [time.time()]. *)
Definition get_status (now : Q) (p : DrugPredictor) : StatusReport :=
  let i := initialization_status p in
  {| r_status := status i;
     r_error := error i;
     r_progress := progress i;
     r_message := message i;
     r_start_time := start_time i;
     r_end_time := end_time i;
     r_duration :=
       match time_truthy (start_time i) with
       | Some t0 =>
           match time_truthy (end_time i) with
           | Some t1 => Some (t1 - t0)%Q
           | None => Some (now - t0)%Q
           end
       | None => None
       end;
     model_loaded := is_some (model p);
     embeddings_loaded := is_some (drug_embeddings p);
     database_loaded := is_some (df_drugs p) |}.

(** The dict [get_stats] returns. *)
Inductive Stats :=
| stats_error (msg : string)
| stats (total_drugs : nat) (cols : list string)
    (embedding_shape : option (list nat)) (model_name csv_path : string).

Definition get_stats (p : DrugPredictor) : Stats :=
  match df_drugs p with
  | None => stats_error "Database not loaded"
  | Some df =>
      stats (pd.len df) (pd.columns df)
        (option_map shape (drug_embeddings p))
        (MODEL_NAME (config p)) (CSV_PATH (config p))
  end.

(** ** numpy: [argsort], slices, and the order numpy sorts floats by *)

Module np.

(** The [less] numpy sorts floats with: [a < b || (b != b && a == a)],
    so that NaNs sort to the end. *)
Definition less (a b : float) : bool :=
  ((a <? b) || (negb (b =? b) && (a =? a)))%float.

(** Insertion of index [vi] into the sorted run [l], held last element
    first: the scan moves left past every entry [k] for which
    [past (v vi) (v k)] holds. *)
Fixpoint insert (past : float -> float -> bool) (v : nat -> float)
    (vi : nat) (l : list nat) : list nat :=
  match l with
  | [] => [vi]
  | k :: t => if past (v vi) (v k) then k :: insert past v vi t else vi :: l
  end.

(** The sorted run after the indices [idxs] were inserted in turn, last
    element first. *)
Definition insert_all (past : float -> float -> bool) (v : nat -> float)
    (idxs : list nat) : list nat :=
  fold_left (fun acc vi => insert past v vi acc) idxs [].

(** Two sorts that meet what numpy promises of [np.argsort(a)]. The
    source passes no [kind], and the default kind of numpy is not
    stable: where two values are equal, the order of their indices is
    not part of what numpy promises. [argsort_stable] moves an index
    left past the strictly greater values only, and so leaves equal
    values in the order of their indices, as a stable kind does;
    [argsort_unstable] moves it past equal values as well, and so
    leaves equal values in the reverse order. Neither is taken to be
    the sort of numpy: the model takes [np.argsort] as a parameter, and
    these two are run in the scenarios. *)
Definition argsort_stable (a : list float) : list nat :=
  rev (insert_all less (fun i => nth i a 0%float) (seq 0 (List.length a))).


(** [l[:k]] *)
Definition slice_to {A} (k : Z) (l : list A) : list A :=
  if (0 <=? k)%Z then firstn (Z.to_nat k) l
  else firstn (List.length l - Z.to_nat (- k)) l.

(** [a[idxs]] for an index array; [None] for an [IndexError]. *)
Fixpoint take {A} (a : list A) (idxs : list nat) : option (list A) :=
  match idxs with
  | [] => Some []
  | i :: t =>
      match nth_error a i, take a t with
      | Some x, Some r => Some (x :: r)
      | _, _ => None
      end
  end.

End np.

(** What numpy promises of [np.argsort(a)], and all that is assumed of
    it ([is_argsort]): the indices of [a], each once, in an order in
    which no index is followed by one of a value that numpy sorts below
    its own (NaNs sort last). *)
Definition returns_permutation (argsort : list float -> list nat) : Prop :=
  forall a, Permutation (argsort a) (seq 0 (List.length a)).

(** An [argsort] sorts in the order of numpy when no index is
    followed by one of a value numpy sorts below its own. *)
Definition sorts_ascending (argsort : list float -> list nat) : Prop :=
  forall a,
    StronglySorted
      (fun i j => np.less (nth j a 0%float) (nth i a 0%float) = false)
      (argsort a).

Definition is_argsort (argsort : list float -> list nat) : Prop :=
  returns_permutation argsort /\ sorts_ascending argsort.

(** ** The query engine: [DrugPredictor.predict] *)

Record Prediction := {
  rank : nat;
  nama_obat : string;
  deskripsi_obat : string;
  similarity_score : float;
  confidence : Confidence
}.

Section Predict.

(** [np.argsort], of which [is_argsort] is assumed where a property
    needs it, and sklearn's [cosine_similarity(X, Y)]. The latter
    returns one row per row of [X] and one column per row of [Y], or
    raises: a [ValueError] on an array that is not two-dimensional (the
    empty one, of shape [(0,)], among them), on vectors of different
    lengths and on a NaN. *)
Variable argsort : list float -> list nat.
Variable cosine_similarity : ndarray -> ndarray -> Outcome ndarray.

(** [np.argsort(similarities)[::-1][:top_k]] *)
Definition top_indices (similarities : list float) (top_k : Z) : list nat :=
  np.slice_to top_k (rev (argsort similarities)).

(** The loop that formats the results, from position [i]. *)
Fixpoint format_results (df : pd.DataFrame) (i : nat)
    (pairs : list (nat * float)) : Outcome (list Prediction) :=
  match pairs with
  | [] => Return []
  | (idx, score) :: t =>
      match pd.iloc df idx "Nama", pd.iloc df idx "DeskripsiObat" with
      | Some nama, Some deskripsi =>
          match format_results df (S i) t with
          | Return r =>
              Return ({| rank := i + 1;
                         nama_obat := nama;
                         deskripsi_obat := deskripsi;
                         similarity_score := score;
                         confidence := _get_confidence_level score |} :: r)
          | Raise e => Raise e
          end
      | _, _ =>
          Raise (mkExc IndexError
                   "single positional indexer is out-of-bounds")
      end
  end.

Definition predict (p : DrugPredictor) (keluhan anamnesa : string)
    (top_k : Z) : Outcome (list Prediction) :=
  if negb (Status_eqb (status_of p) completed) then
    Raise (mkExc RuntimeError "Model not initialized")
  else
    (* Combine and clean query *)
    let query := PyStr.strip (keluhan ++ " " ++ anamnesa) in
    if negb (PyStr.truthy query) then
      Raise (mkExc ValueError "Query cannot be empty")
    else
      match model p with
      | None =>
          Raise (mkExc AttributeError
                   "'NoneType' object has no attribute 'encode'")
      | Some m =>
          (* Generate query embedding *)
          match encode m [query] with
          | Raise e => Raise e
          | Return query_embedding =>
              (* Calculate similarities; sklearn takes Y=None as Y=X *)
              let Y := match drug_embeddings p with
                       | Some e => e
                       | None => query_embedding
                       end in
              match cosine_similarity query_embedding Y with
              | Raise e => Raise e
              | Return [] =>
                  Raise (mkExc IndexError "index 0 is out of bounds")
              | Return (similarities :: _) =>
                  (* Get top-k results *)
                  let top_indices := top_indices similarities top_k in
                  match np.take similarities top_indices with
                  | None => Raise (mkExc IndexError "index out of bounds")
                  | Some top_scores =>
                      match df_drugs p with
                      | None =>
                          Raise (mkExc AttributeError
                                   "'NoneType' object has no attribute 'iloc'")
                      | Some df =>
                          format_results df 0 (combine top_indices top_scores)
                      end
                  end
              end
          end
      end.

End Predict.

(** * The request layer: [src/services/api_service.py] *)

(** ** JSON values, as [request.get_json()] returns them *)

Inductive JSON :=
| JNull
| JBool (b : bool)
| JInt (n : Z)
| JFloat (x : float)
| JStr (s : string)
| JList (l : list JSON)
| JDict (items : list (string * JSON)).

Module Py.

(** Truth value: [not v] holds of [None], [False], zero, and the empty
    string, list and dict. *)
Definition truthy (v : JSON) : bool :=
  match v with
  | JNull => false
  | JBool b => b
  | JInt n => negb (n =? 0)%Z
  | JFloat x => negb (x =? 0)%float
  | JStr s => PyStr.truthy s
  | JList l => match l with [] => false | _ => true end
  | JDict items => match items with [] => false | _ => true end
  end.

(** [isinstance(v, int)]: [bool] is a subclass of [int]. *)
Definition isinstance_int (v : JSON) : bool :=
  match v with
  | JInt _ | JBool _ => true
  | _ => false
  end.

(** The integer an [int] is; [True] is 1 and [False] is 0. *)
Definition int_value (v : JSON) : Z :=
  match v with
  | JInt n => n
  | JBool true => 1
  | _ => 0
  end.

(** [d.get(key, default)] on the items of a dict, each key held once. *)
Fixpoint get (items : list (string * JSON)) (key : string) (default : JSON)
  : JSON :=
  match items with
  | [] => default
  | (k, v) :: t => if String.eqb k key then v else get t key default
  end.

(** [v.strip()]: only a [str] has the method. *)
Definition strip (v : JSON) : Outcome string :=
  match v with
  | JStr s => Return (PyStr.strip s)
  | _ => Raise (mkExc AttributeError "object has no attribute 'strip'")
  end.

End Py.

(** ** The [/predict] route *)

(** The JSON bodies the route answers with, by their [status] and the
    keys the properties below read. *)
Inductive Payload :=
| error_payload (message : string)
| info_payload (message : string)
| success_payload (keluhan anamnesa : string) (top_k : JSON)
    (predictions : list Prediction) (total_results : nat).

Record Response := { payload : Payload; code : Z }.

(** The check on [top_k]:
    [if not isinstance(top_k, int) or top_k < 1 or top_k > MAX_TOP_K:
         top_k = DEFAULT_TOP_K] *)
Definition checked_top_k (cfg : Config) (top_k : JSON) : JSON :=
  if negb (Py.isinstance_int top_k)
     || (Py.int_value top_k <? 1)%Z
     || (Py.int_value top_k >? MAX_TOP_K cfg)%Z
  then JInt (DEFAULT_TOP_K cfg)
  else top_k.

(** Decimal rendering of an [int] inside an f-string. *)
Definition str_of_Z (n : Z) : string :=
  NilZero.string_of_int (Z.to_int n).

Section Route.

Variable argsort : list float -> list nat.
Variable cosine_similarity : ndarray -> ndarray -> Outcome ndarray.
Variable cfg : Config.

(** The answers given before the model is ready. *)
Definition not_ready_response (p : DrugPredictor) : option Response :=
  if negb (is_ready p) then
    match status_of p with
    | not_started =>
        Some {| payload :=
                  error_payload
                    ("Model not initialized. Please wait for "
                     ++ "auto-initialization or call POST /initialize.");
                code := 503 |}
    | in_progress =>
        Some {| payload :=
                  info_payload
                    ("Model initialization in progress ("
                     ++ str_of_Z (progress (initialization_status p))
                     ++ "%). Please wait...");
                code := 202 |}
    | failed =>
        Some {| payload := error_payload "Model initialization failed";
                code := 503 |}
    | completed => None
    end
  else None.

(** The handlers of the route's [try]. *)
Definition handle (e : Exception) : Response :=
  match exc_class e with
  | ValueError => {| payload := error_payload (exc_str e); code := 400 |}
  | RuntimeError => {| payload := error_payload (exc_str e); code := 503 |}
  | _ => {| payload := error_payload "An internal error occurred";
            code := 500 |}
  end.

(** The route, on the parsed body [data] and the predictor as the
    request finds it. *)
Definition predict_route (p : DrugPredictor) (data : JSON) : Response :=
  match not_ready_response p with
  | Some r => r
  | None =>
      (* Validate request *)
      if negb (Py.truthy data) then
        {| payload := error_payload "No JSON data provided"; code := 400 |}
      else
        match data with
        | JDict items =>
            (* Extract and validate parameters *)
            match Py.strip (Py.get items "keluhan" (JStr "")) with
            | Raise e => handle e
            | Return keluhan =>
                match Py.strip (Py.get items "anamnesa" (JStr "")) with
                | Raise e => handle e
                | Return anamnesa =>
                    let top_k :=
                      Py.get items "top_k" (JInt (DEFAULT_TOP_K cfg)) in
                    if negb (PyStr.truthy keluhan)
                       && negb (PyStr.truthy anamnesa)
                    then
                      {| payload :=
                           error_payload
                             "Either keluhan or anamnesa must be provided";
                         code := 400 |}
                    else
                      let top_k := checked_top_k cfg top_k in
                      (* Make prediction *)
                      match predict argsort cosine_similarity p
                              keluhan anamnesa (Py.int_value top_k) with
                      | Raise e => handle e
                      | Return predictions =>
                          {| payload :=
                               success_payload keluhan anamnesa top_k
                                 predictions (List.length predictions);
                             code := 200 |}
                      end
                end
            end
        | _ =>
            handle (mkExc AttributeError "object has no attribute 'get'")
        end
  end.

End Route.

(** * Threads: [initialize], [self._lock] and [wait_for_initialization]

    The threads that run [_initialize_sync] interleave. A thread waits
    at [with self._lock:] until the lock is free; it then holds the
    lock for the whole body, making the writes of the body one at a
    time, and releases it when the body returns. What the body does is
    fixed once the lock is taken: bodies are the only writers of the
    predictor and they exclude one another. Readers ([is_ready],
    [get_status], [get_stats], [predict]) take no lock and read the
    predictor as it is. *)

Inductive Thread :=
| Waiting (w : World)
| Running (pending : list DrugPredictor) (result : Outcome bool)
    (made : list Call)
| Finished (result : Outcome bool).

Record System := {
  predictor : DrugPredictor;
  (** [self._lock]: the thread that holds it *)
  _lock : option nat;
  (** [self._initialization_thread] *)
  _initialization_thread : option nat;
  (** every thread ever started to run [_initialize_sync], by number *)
  threads : list Thread;
  (** the external calls of the runs that have returned, newest first *)
  log : list Call
}.

(** A process that has just built its predictor. *)
Definition start (cfg : Config) : System := {|
  predictor := __init__ cfg;
  _lock := None;
  _initialization_thread := None;
  threads := [];
  log := []
|}.

(** [thread.is_alive()] *)
Definition is_alive (t : Thread) : bool :=
  match t with Finished _ => false | _ => true end.

(** [self._initialization_thread and
     self._initialization_thread.is_alive()] *)
Definition thread_is_alive (sys : System) : bool :=
  match _initialization_thread sys with
  | Some i =>
      match nth_error (threads sys) i with
      | Some t => is_alive t
      | None => false
      end
  | None => false
  end.

(** [initialize(background)]. With [background] it returns [True] at
    once, having started a thread unless one is alive. Without, the
    caller runs [_initialize_sync] itself: what [initialize] returns
    is what that run returns, and the caller is entered among the
    threads ([None] stands for "when its run returns"). *)
Definition initialize (background : bool) (w : World) (sys : System)
  : option bool * System :=
  if background then
    if thread_is_alive sys then (Some true, sys)
    else
      (Some true,
       {| predictor := predictor sys;
          _lock := _lock sys;
          _initialization_thread := Some (List.length (threads sys));
          threads := (threads sys ++ [Waiting w])%list;
          log := log sys |})
  else
    (None,
     {| predictor := predictor sys;
        _lock := _lock sys;
        _initialization_thread := _initialization_thread sys;
        threads := (threads sys ++ [Waiting w])%list;
        log := log sys |}).

(** One step of thread [i], when it can take one. *)
Definition thread_step (i : nat) (sys : System) : option System :=
  match nth_error (threads sys) i with
  | Some (Waiting w) =>
      match _lock sys with
      | Some _ => None
      | None =>
          let r := run (_initialize_sync w) (predictor sys) in
          Some {| predictor := predictor sys;
                  _lock := Some i;
                  _initialization_thread := _initialization_thread sys;
                  threads :=
                    pd.replace_nth i
                      (Running (rev (seen (snd r))) (fst r) (calls (snd r)))
                      (threads sys);
                  log := log sys |}
      end
  | Some (Running (s :: rest) result made) =>
      Some {| predictor := s;
              _lock := _lock sys;
              _initialization_thread := _initialization_thread sys;
              threads :=
                pd.replace_nth i (Running rest result made) (threads sys);
              log := log sys |}
  | Some (Running [] result made) =>
      Some {| predictor := predictor sys;
              _lock := None;
              _initialization_thread := _initialization_thread sys;
              threads := pd.replace_nth i (Finished result) (threads sys);
              log := (made ++ log sys)%list |}
  | Some (Finished _) | None => None
  end.

(** What can happen next: some caller calls [initialize], or a thread
    takes a step. *)
Inductive Action :=
| do_initialize (background : bool) (w : World)
| do_step (i : nat).

Definition act (a : Action) (sys : System) : System :=
  match a with
  | do_initialize background w => snd (initialize background w sys)
  | do_step i =>
      match thread_step i sys with
      | Some sys' => sys'
      | None => sys
      end
  end.

Definition run_actions (acts : list Action) (sys : System) : System :=
  fold_left (fun s a => act a s) acts sys.

(** ** [wait_for_initialization] *)

(** One sleep: how long the caller was away and what the other threads
    did meanwhile. *)
Record Nap := { elapsed : Q; meanwhile : list Action }.

(** [time.sleep(seconds)] lasts [seconds] at least: the time it takes. *)
Definition time_sleep (seconds : Q) (nap : Nap) : Q :=
  Qmax seconds (elapsed nap).

(** The loop, with [now] the reading of [time.time()] at its test and
    [naps] the sleeps to come. It returns what the method returns,
    with the time and the system at the return; [None]: the sleeps
    given ran out before the loop ended. *)
Fixpoint wait_loop (naps : list Nap) (w : World) (timeout start_time now : Q)
    (sys : System) : option (bool * Q * System) :=
  if Qlt_le_dec (now - start_time) timeout then
    match status_of (predictor sys) with
    | completed => Some (true, now, sys)
    | failed => Some (false, now, sys)
    | st =>
        let sys :=
          match st with
          | not_started => snd (initialize true w sys)
          | _ => sys
          end in
        match naps with
        | [] => None
        | nap :: naps' =>
            (* time.sleep(1)  # Check every second *)
            wait_loop naps' w timeout start_time (now + time_sleep 1 nap)%Q
              (run_actions (meanwhile nap) sys)
        end
    end
  else Some (false, now, sys).

(** [timeout = timeout or self.config.STARTUP_TIMEOUT] *)
Definition timeout_or_default (cfg : Config) (timeout : option Q) : Q :=
  match timeout with
  | Some t => if Qeq_bool t 0 then inject_Z (STARTUP_TIMEOUT cfg) else t
  | None => inject_Z (STARTUP_TIMEOUT cfg)
  end.

Definition wait_for_initialization (timeout : option Q) (naps : list Nap)
    (w : World) (now : Q) (sys : System) : option (bool * Q * System) :=
  wait_loop naps w (timeout_or_default (config (predictor sys)) timeout)
    now now sys.

(** ** The routes [/ready], [/stats] and [/initialize] *)

(** What a route hands to [jsonify], with the status code of the
    answer; a route that names no code answers 200. *)
Record Answer := { json : JSON; status_code : Z }.

(** The value an answer holds under a key. *)
Definition answer_field (a : Answer) (key : string) : JSON :=
  match json a with
  | JDict items => Py.get items key JNull
  | _ => JNull
  end.

Section OtherRoutes.

(** The reading of [time.time()] inside [get_status]. *)
Variable now : Q.

Definition readiness_check (p : DrugPredictor) : Answer :=
  if is_ready p then
    {| json := JDict [("status", JStr "ready");
                      ("message", JStr "API is ready to serve requests")];
       status_code := 200 |}
  else
    let status := get_status now p in
    {| json := JDict [("status", JStr "not_ready");
                      ("message",
                       JStr ("Initialization in progress: "
                             ++ r_message status));
                      ("progress", JInt (r_progress status))];
       status_code := 503 |}.

(** The route [get_stats]; [get_stats] of the predictor raises
    nothing, so the handler of the route is never entered. *)
Definition get_stats_route (p : DrugPredictor) : Answer :=
  match get_stats p with
  | stats_error msg =>
      (* 'error' in stats *)
      {| json := JDict [("status", JStr "error"); ("message", JStr msg)];
         status_code := 503 |}
  | stats total_drugs cols embedding_shape model_name csv_path =>
      {| json :=
           JDict [("status", JStr "success");
                  ("data",
                   JDict [("total_drugs", JInt (Z.of_nat total_drugs));
                          ("columns", JList (map JStr cols));
                          ("embedding_shape",
                           match embedding_shape with
                           | Some l =>
                               JList (map (fun n => JInt (Z.of_nat n)) l)
                           | None => JNull
                           end);
                          ("model_name", JStr model_name);
                          ("csv_path", JStr csv_path)])];
         status_code := 200 |}
  end.

(** The route [initialize], on the process as the request finds it;
    [w] is what the thread it may start will meet. *)
Definition initialize_route (w : World) (sys : System) : Answer * System :=
  let status := get_status now (predictor sys) in
  match r_status status with
  | in_progress =>
      ({| json := JDict [("status", JStr "info");
                         ("message",
                          JStr "Initialization already in progress");
                         ("progress", JInt (r_progress status))];
          status_code := 200 |},
       sys)
  | completed =>
      ({| json := JDict [("status", JStr "success");
                         ("message", JStr "Model already initialized")];
          status_code := 200 |},
       sys)
  | _ =>
      (* Start initialization *)
      ({| json := JDict [("status", JStr "success");
                         ("message", JStr "Initialization started");
                         ("estimated_time", JStr "2-5 minutes")];
          status_code := 200 |},
       snd (initialize true w sys))
  end.

End OtherRoutes.

(** * Start-up: [APIService.__init__], [APIService.run] and
    [create_app] in [src/main.py] *)

(** Start-up configures logging twice, in [create_app] and in
    [_setup_flask], by the statement
    [logging.basicConfig(level=getattr(logging, config.LOG_LEVEL), ...)].
    It is a call of a library on the name [LOG_LEVEL]: the parameter
    [basicConfig] below tells whether it returns or raises. It raises
    an [AttributeError] when the module [logging] has no attribute of
    that name, and the error of [logging] when the attribute is no
    level. *)

(** [APIService.__init__], on the process that holds the predictor it
    is given. [Flask(__name__)], [CORS(self.app)] and the registration
    of the routes are taken to return; [_setup_flask] configures
    logging; then, with [AUTO_INITIALIZE], the constructor calls
    [initialize(background=True)]. *)
Definition APIService__init__ (cfg : Config)
    (basicConfig : string -> Outcome unit) (w : World) (sys : System)
  : Outcome System :=
  match basicConfig (LOG_LEVEL cfg) with
  | Raise e => Raise e
  | Return _ =>
      Return (if AUTO_INITIALIZE cfg then snd (initialize true w sys)
              else sys)
  end.

(** [APIService.run], up to the call of [app.run]: what the wait
    returned, if the service waited, and the time and the process at
    which the server starts. Neither [create_app] nor [main] calls this
    method: both start the server by [app.run] of Flask. *)
Definition APIService_run (cfg : Config) (naps : list Nap) (w : World)
    (now : Q) (sys : System) : option (option bool * Q * System) :=
  if AUTO_INITIALIZE cfg && negb (DEBUG cfg) then
    match wait_for_initialization None naps w now sys with
    | Some (b, t, sys') => Some (Some b, t, sys')
    | None => None
    end
  else Some (None, now, sys).

(** The Flask application [api_service.app] that [create_app]
    returns: its routes, which read and act on the process [serves].
    The [APIService] that built it is not returned. *)
Record Flask := { serves : System }.

(** [create_app], with [cfg] the value of [Config()] and [path_exists]
    what [os.path.exists] answers at start-up. *)
Definition create_app (cfg : Config) (basicConfig : string -> Outcome unit)
    (path_exists : string -> bool) (w : World) : Outcome Flask :=
  (* Setup logging *)
  match basicConfig (LOG_LEVEL cfg) with
  | Raise e => Raise e
  | Return _ =>
      (* Validate configuration *)
      if negb (path_exists (CSV_PATH cfg)) then
        Raise (mkExc FileNotFoundError
                 ("Required file missing: " ++ CSV_PATH cfg))
      else
        (* Initialize components *)
        match APIService__init__ cfg basicConfig w (start cfg) with
        | Raise e => Raise e
        | Return sys => Return {| serves := sys |}
        end
  end.

(** * [Config()] from the environment: [src/config.py] *)

(** [str.lower()] on the code points below 256: the letters A to Z
    and the capitals of Latin-1 move up by 32. *)
Definition lower_char (c : ascii) : ascii :=
  let n := nat_of_ascii c in
  if (((65 <=? n) && (n <=? 90))
      || ((192 <=? n) && (n <=? 222) && negb (n =? 215)))%nat
  then ascii_of_nat (n + 32)
  else c.

Fixpoint lower (s : string) : string :=
  match s with
  | EmptyString => EmptyString
  | String c t => String (lower_char c) (lower t)
  end.

Section Environment.

(** [os.environ], and [int] applied to a [str]. *)
Variable environ : string -> option string.
Variable int : string -> Outcome Z.

(** [os.getenv(key, default)] *)
Definition getenv (key default : string) : string :=
  match environ key with
  | Some v => v
  | None => default
  end.

(** [int(os.getenv(key, default))], the default being an [int]. *)
Definition getenv_int (key : string) (default : Z) : Outcome Z :=
  match environ key with
  | Some v => int v
  | None => Return default
  end.

(** [os.getenv(key, default).lower() == 'true'] *)
Definition getenv_flag (key default : string) : bool :=
  String.eqb (lower (getenv key default)) "true".

(** The defaults of the fields of [Config], evaluated in the order of
    the class body. *)
Definition Config_from_environment : Outcome Config :=
  match getenv_int "PORT" 8000 with
  | Raise e => Raise e
  | Return port =>
      match getenv_int "MAX_TOP_K" 20 with
      | Raise e => Raise e
      | Return max_top_k =>
          match getenv_int "DEFAULT_TOP_K" 5 with
          | Raise e => Raise e
          | Return default_top_k =>
              match getenv_int "STARTUP_TIMEOUT" 600 with
              | Raise e => Raise e
              | Return startup_timeout =>
                  Return
                    {| HOST := getenv "HOST" "0.0.0.0";
                       PORT := port;
                       DEBUG := getenv_flag "DEBUG" "False";
                       HUGGINGFACE_TOKEN := environ "HUGGINGFACE_TOKEN";
                       MODEL_NAME :=
                         getenv "MODEL_NAME" "your-username/your-model-name";
                       CSV_PATH := getenv "CSV_PATH" "data/df_obat.csv";
                       MAX_TOP_K := max_top_k;
                       DEFAULT_TOP_K := default_top_k;
                       AUTO_INITIALIZE := getenv_flag "AUTO_INITIALIZE" "True";
                       STARTUP_TIMEOUT := startup_timeout;
                       LOG_LEVEL := getenv "LOG_LEVEL" "INFO" |}
              end
          end
      end
  end.

End Environment.

(** * Scenarios

    Concrete catalogs, encoders, worlds and processes, on which the
    model is run below. *)

(** ** The three-record scenario

    A catalog of the records A, B, C in this order, a query whose
    similarities to them are 0.9, 0.9 and 0.5, and [top_k = 2]. *)


Definition abc_csv : pd.DataFrame :=
  pd.mkDataFrame ["Nama"; "DeskripsiObat"]
    [["A"; "a"]; ["B"; "b"]; ["C"; "c"]].

(** An encoder of the scenario: one-dimensional vectors, chosen so that
    the similarities below come out as 0.9, 0.9 and 0.5. *)
Definition abc_vector (text : string) : list float :=
  if String.eqb text "A - a" then [0.9%float]
  else if String.eqb text "B - b" then [0.9%float]
  else if String.eqb text "C - c" then [0.5%float]
  else [1.0%float].

Definition abc_encoder : SentenceTransformer :=
  {| encode := fun texts => Return (map abc_vector texts) |}.

Definition abc_world : World := {|
  login := fun _ => Return tt;
  load_model := fun _ => Return abc_encoder;
  os_path_exists := fun _ => true;
  read_csv := fun _ => Return abc_csv;
  time_time := fun n => inject_Z (Z.of_nat n)
|}.

(** The predictor after one successful build over that catalog. *)
Definition abc_predictor : DrugPredictor :=
  self (snd (run (_initialize_sync abc_world) (__init__ default_config))).

(** A stand-in for [cosine_similarity]: the matrix of dot products,
    one row per row of [X], one column per row of [Y]; on an array
    without rows it raises a [ValueError], as sklearn does on the shape
    [(0,)] (the text of the exception is abridged). On the vectors of
    the scenario, which the query [[1.0]] is compared with, it yields
    0.9, 0.9 and 0.5. *)
Definition dot (x y : list float) : float :=
  fold_left (fun acc xy => (acc + fst xy * snd xy)%float) (combine x y)
    0%float.

Definition abc_similarity (X Y : ndarray) : Outcome ndarray :=
  match X, Y with
  | [], _ | _, [] =>
      Raise (mkExc ValueError "Expected 2D array, got 1D array instead")
  | _, _ => Return (map (fun x => map (dot x) Y) X)
  end.

(** ** Runs that fail *)

(** A catalog file that lacks the required columns. *)
Definition no_columns_csv : pd.DataFrame :=
  pd.mkDataFrame ["Name"; "Description"] [["A"; "a"]].

Definition missing_columns_world : World := {|
  login := login abc_world;
  load_model := load_model abc_world;
  os_path_exists := os_path_exists abc_world;
  read_csv := fun _ => Return no_columns_csv;
  time_time := time_time abc_world
|}.

(** An encoder whose [encode] raises. *)
Definition failing_encoder : SentenceTransformer :=
  {| encode := fun _ => Raise (mkExc RuntimeError "out of memory") |}.

Definition failing_encoder_world : World := {|
  login := login abc_world;
  load_model := fun _ => Return failing_encoder;
  os_path_exists := os_path_exists abc_world;
  read_csv := read_csv abc_world;
  time_time := time_time abc_world
|}.

(** A model that cannot be loaded. *)
Definition no_model_world : World := {|
  login := login abc_world;
  load_model := fun _ => Raise (mkExc OtherError "model not found");
  os_path_exists := os_path_exists abc_world;
  read_csv := read_csv abc_world;
  time_time := time_time abc_world
|}.

Definition first_run (w : World) : Outcome bool * Mem :=
  run (_initialize_sync w) (__init__ default_config).

(** A run whose model fails to load, complete (the lock is taken,
    eleven writes are made, the lock is released), then the start of a
    second run, up to its first write. *)
Definition failed_then_retrying : System :=
  run_actions
    ([do_initialize true no_model_world]
     ++ repeat (do_step 0) 13
     ++ [do_initialize true abc_world; do_step 1; do_step 1])%list
    (start default_config).

(** The process after one [initialize(background=True)] over the
    catalog of the scenario has run to its end. *)
Definition abc_system : System :=
  run_actions (do_initialize true abc_world :: repeat (do_step 0) 25)
    (start default_config).

(** ** Further scenarios *)

(** A file in which one record comes twice. *)
Definition aba_csv : pd.DataFrame :=
  pd.mkDataFrame ["Nama"; "DeskripsiObat"]
    [["A"; "a"]; ["B"; "b"]; ["A"; "a"]].

Definition aba_world : World := {|
  login := login abc_world;
  load_model := load_model abc_world;
  os_path_exists := os_path_exists abc_world;
  read_csv := fun _ => Return aba_csv;
  time_time := time_time abc_world
|}.

(** A world in which the file is missing. *)
Definition no_file_world : World := {|
  login := login abc_world;
  load_model := load_model abc_world;
  os_path_exists := fun _ => false;
  read_csv := read_csv abc_world;
  time_time := time_time abc_world
|}.

(** A file with its header and no record, and the predictor after one
    build over it. *)
Definition header_only_csv : pd.DataFrame :=
  pd.mkDataFrame ["Nama"; "DeskripsiObat"] [].

Definition header_only_world : World := {|
  login := login abc_world;
  load_model := load_model abc_world;
  os_path_exists := os_path_exists abc_world;
  read_csv := fun _ => Return header_only_csv;
  time_time := time_time abc_world
|}.

Definition header_only_predictor : DrugPredictor :=
  self (snd (run (_initialize_sync header_only_world)
               (__init__ default_config))).

(** An encoder that embeds short texts and runs out of memory on a
    text of more than sixteen characters, and the predictor after one
    build with it over the catalog of the scenario. *)
Definition limited_encoder : SentenceTransformer :=
  {| encode := fun texts =>
       if existsb (fun t => (16 <? String.length t)%nat) texts
       then Raise (mkExc RuntimeError "out of memory")
       else Return (map abc_vector texts) |}.

Definition limited_world : World := {|
  login := login abc_world;
  load_model := fun _ => Return limited_encoder;
  os_path_exists := os_path_exists abc_world;
  read_csv := read_csv abc_world;
  time_time := time_time abc_world
|}.

Definition limited_predictor : DrugPredictor :=
  self (snd (run (_initialize_sync limited_world) (__init__ default_config))).

(** A stand-in for the logging statement of start-up: it accepts the
    names of the levels of [logging] and raises as [getattr] does on a
    name the module lacks. *)
Definition abc_basicConfig (name : string) : Outcome unit :=
  if existsb (String.eqb name)
       ["CRITICAL"; "FATAL"; "ERROR"; "WARNING"; "WARN"; "INFO"; "DEBUG";
        "NOTSET"]
  then Return tt
  else Raise (mkExc AttributeError
                ("module 'logging' has no attribute '" ++ name ++ "'")).

(** A ready predictor whose encoder refuses every query. *)
Definition refusing_predictor : DrugPredictor :=
  set_model
    (Some {| encode := fun _ => Raise (mkExc ValueError "input too long") |})
    abc_predictor.

(** A process whose first build failed: the model could not be
    loaded. *)
Definition failed_system : System :=
  run_actions (do_initialize true no_model_world :: repeat (do_step 0) 13)
    (start default_config).

(** * Properties *)

(** ** The scenarios run as intended *)

Example abc_predictor_completed :
  status_of abc_predictor = completed
  /\ option_map pd.rows (df_drugs abc_predictor)
     = Some [["A"; "a"; "A - a"]; ["B"; "b"; "B - b"]; ["C"; "c"; "C - c"]]
  /\ option_map (abc_similarity [[1.0%float]]) (drug_embeddings abc_predictor)
     = Some (Return [[0.9; 0.9; 0.5]%float]).
Proof. vm_compute. repeat split; reflexivity. Qed.

Example abc_system_completed :
  status_of (predictor abc_system) = completed
  /\ _lock abc_system = None
  /\ List.length (threads abc_system) = 1%nat
  /\ map is_alive (threads abc_system) = [false]
  /\ List.length (log abc_system) = 4%nat.
Proof. vm_compute. repeat split; reflexivity. Qed.

(** ** Order facts on binary64 floats

    The comparisons of [PrimFloat] are specified by [SFcompare] on
    [spec_float]; the facts below are read off that definition. *)

Section FloatOrder.

Lemma SFcompare_antisym (x y : spec_float) :
  SFcompare y x = option_map CompOpp (SFcompare x y).
Proof.
  destruct x as [sx|sx| |sx mx ex], y as [sy|sy| |sy my ey]; simpl;
    try reflexivity;
    try (destruct sx; reflexivity); try (destruct sy; reflexivity);
    try (destruct sx, sy; reflexivity).
  destruct sx, sy; simpl; try reflexivity; f_equal;
    rewrite (Z.compare_antisym ey ex);
    destruct (ey ?= ex)%Z eqn:E; simpl; try reflexivity;
    change (Pos.compare_cont Eq my mx) with (my ?= mx)%positive;
    change (Pos.compare_cont Eq mx my) with (mx ?= my)%positive;
    rewrite (Pos.compare_antisym my mx);
    destruct (my ?= mx)%positive; reflexivity.
Qed.

Lemma SFcompare_Lt_trans (x y z : spec_float) :
  SFcompare x y = Some Lt -> SFcompare y z = Some Lt ->
  SFcompare x z = Some Lt.
Proof.
  destruct x as [sx|sx| |sx mx ex], y as [sy|sy| |sy my ey],
      z as [sz|sz| |sz mz ez]; simpl;
    try discriminate; try reflexivity;
    repeat match goal with b : bool |- _ => destruct b end; simpl;
    try discriminate; try reflexivity;
    change (Pos.compare_cont Eq) with Pos.compare;
    intros H1 H2; injection H1 as H1; injection H2 as H2; f_equal;
    destruct (Z.compare_spec ex ey), (Z.compare_spec ey ez),
      (Z.compare_spec ex ez);
    subst; try discriminate; try reflexivity; try lia;
    destruct (Pos.compare_spec mx my), (Pos.compare_spec my mz),
      (Pos.compare_spec mx mz);
    subst; simpl in *; try discriminate; try reflexivity; try lia.
Qed.

Lemma ltb_asym (x y : float) :
  (x <? y)%float = true -> (y <? x)%float = false.
Proof.
  rewrite !ltb_spec. unfold SFltb.
  rewrite (SFcompare_antisym (Prim2SF x) (Prim2SF y)).
  destruct (SFcompare (Prim2SF x) (Prim2SF y)) as [[]|]; simpl;
    congruence.
Qed.

Lemma ltb_trans (x y z : float) :
  (x <? y)%float = true -> (y <? z)%float = true -> (x <? z)%float = true.
Proof.
  rewrite !ltb_spec. unfold SFltb.
  destruct (SFcompare (Prim2SF x) (Prim2SF y)) as [[]|] eqn:E1;
    try discriminate.
  destruct (SFcompare (Prim2SF y) (Prim2SF z)) as [[]|] eqn:E2;
    try discriminate.
  now rewrite (SFcompare_Lt_trans _ _ _ E1 E2).
Qed.

Lemma ltb_not_leb (x y : float) :
  (x <? y)%float = true -> (y <=? x)%float = false.
Proof.
  rewrite ltb_spec, leb_spec. unfold SFltb, SFleb.
  rewrite (SFcompare_antisym (Prim2SF x) (Prim2SF y)).
  destruct (SFcompare (Prim2SF x) (Prim2SF y)) as [[]|]; simpl;
    congruence.
Qed.

Lemma leb_not_ltb (x y : float) :
  (x <=? y)%float = true -> (y <? x)%float = false.
Proof.
  rewrite ltb_spec, leb_spec. unfold SFltb, SFleb.
  rewrite (SFcompare_antisym (Prim2SF x) (Prim2SF y)).
  destruct (SFcompare (Prim2SF x) (Prim2SF y)) as [[]|]; simpl;
    congruence.
Qed.

(** A float is comparable when it is not a NaN: it compares with itself. *)
Definition comparable (x : float) : bool := (x <=? x)%float.

Lemma comparable_spec (x : float) :
  comparable x = true <-> Prim2SF x <> S754_nan.
Proof.
  unfold comparable. rewrite leb_spec. unfold SFleb.
  destruct (Prim2SF x) as [s|s| |s m e]; simpl.
  - split; [discriminate | reflexivity].
  - destruct s; split; try discriminate; reflexivity.
  - split; [discriminate | congruence].
  - destruct s; rewrite Z.compare_refl;
      change (Pos.compare_cont Eq m m) with (m ?= m)%positive;
      rewrite Pos.compare_refl; simpl; split; try discriminate; reflexivity.
Qed.

Lemma SFcompare_None (x y : spec_float) :
  SFcompare x y = None <-> x = S754_nan \/ y = S754_nan.
Proof.
  destruct x as [sx|sx| |sx mx ex], y as [sy|sy| |sy my ey]; simpl;
    split; intros H; try discriminate; try reflexivity; auto;
    try (destruct H; discriminate).
Qed.

Lemma leb_comparable_l (x y : float) :
  (x <=? y)%float = true -> comparable x = true.
Proof.
  intros H. apply comparable_spec. intros N.
  rewrite leb_spec in H. unfold SFleb in H. rewrite N in H. discriminate.
Qed.

Lemma leb_comparable_r (x y : float) :
  (x <=? y)%float = true -> comparable y = true.
Proof.
  intros H. apply comparable_spec. intros N.
  rewrite leb_spec in H. unfold SFleb in H. rewrite N in H.
  destruct (Prim2SF x); discriminate.
Qed.

Lemma ltb_comparable_l (x y : float) :
  (x <? y)%float = true -> comparable x = true.
Proof.
  intros H. apply comparable_spec. intros N.
  rewrite ltb_spec in H. unfold SFltb in H. rewrite N in H. discriminate.
Qed.

(** On comparable floats the order is total. *)
Lemma leb_false_ltb (x y : float) :
  comparable x = true -> comparable y = true ->
  (x <=? y)%float = false -> (y <? x)%float = true.
Proof.
  intros Hx Hy. apply comparable_spec in Hx, Hy.
  rewrite ltb_spec, leb_spec. unfold SFltb, SFleb.
  rewrite (SFcompare_antisym (Prim2SF x) (Prim2SF y)).
  destruct (SFcompare (Prim2SF x) (Prim2SF y)) as [[]|] eqn:E; simpl;
    try congruence.
  apply SFcompare_None in E. tauto.
Qed.

Lemma not_comparable_leb (x y : float) :
  comparable y = false -> (x <=? y)%float = false.
Proof.
  intros H. destruct (x <=? y)%float eqn:E; [|reflexivity].
  apply leb_comparable_r in E. congruence.
Qed.

End FloatOrder.

(** ** C2 *)

(** C2. For every score the label is [high] exactly when [0.8 <= s],
    [medium] exactly when [0.6 <= s < 0.8], [low] exactly when
    [0.4 <= s < 0.6], and [very_low] exactly when [s < 0.4] (or [s] is a
    NaN, which compares false with every threshold and is not a
    similarity score); the six boundary scores of the specification get
    the labels it lists. *)
Theorem confidence_level_exact (s : float) :
  (_get_confidence_level s = high <-> (0.8 <=? s)%float = true)
  /\ (_get_confidence_level s = medium
      <-> (0.6 <=? s)%float = true /\ (s <? 0.8)%float = true)
  /\ (_get_confidence_level s = low
      <-> (0.4 <=? s)%float = true /\ (s <? 0.6)%float = true)
  /\ (_get_confidence_level s = very_low
      <-> (s <? 0.4)%float = true \/ comparable s = false)
  /\ _get_confidence_level 0.8 = high
  /\ _get_confidence_level 0.79999 = medium
  /\ _get_confidence_level 0.6 = medium
  /\ _get_confidence_level 0.4 = low
  /\ _get_confidence_level 0.39999 = very_low
  /\ _get_confidence_level 0.0 = very_low.
Proof.
  assert (T68 : (0.6 <? 0.8)%float = true) by reflexivity.
  assert (T46 : (0.4 <? 0.6)%float = true) by reflexivity.
  assert (C8 : comparable 0.8 = true) by reflexivity.
  assert (C6 : comparable 0.6 = true) by reflexivity.
  assert (C4 : comparable 0.4 = true) by reflexivity.
  unfold _get_confidence_level.
  split; [|split; [|split; [|split; [|repeat split]]]].
  - split; [|now intros ->].
    destruct (0.8 <=? s)%float; [reflexivity|].
    destruct (0.6 <=? s)%float; [discriminate|].
    destruct (0.4 <=? s)%float; discriminate.
  - split.
    + destruct (0.8 <=? s)%float eqn:E8; [discriminate|].
      destruct (0.6 <=? s)%float eqn:E6.
      * intros _. split; [reflexivity|].
        apply leb_false_ltb; auto. eapply leb_comparable_r; eauto.
      * destruct (0.4 <=? s)%float; discriminate.
    + intros [H6 H8]. rewrite (ltb_not_leb _ _ H8), H6. reflexivity.
  - split.
    + destruct (0.8 <=? s)%float eqn:E8; [discriminate|].
      destruct (0.6 <=? s)%float eqn:E6; [discriminate|].
      destruct (0.4 <=? s)%float eqn:E4; [|discriminate].
      intros _. split; [reflexivity|].
      apply leb_false_ltb; auto. eapply leb_comparable_r; eauto.
    + intros [H4 H6].
      pose proof (ltb_trans s 0.6 0.8 H6 T68) as H8.
      rewrite (ltb_not_leb _ _ H8), (ltb_not_leb _ _ H6), H4. reflexivity.
  - split.
    + destruct (0.8 <=? s)%float eqn:E8; [discriminate|].
      destruct (0.6 <=? s)%float eqn:E6; [discriminate|].
      destruct (0.4 <=? s)%float eqn:E4; [discriminate|].
      intros _. destruct (comparable s) eqn:Cs; [left | now right].
      apply leb_false_ltb; auto.
    + intros [H4 | N].
      * pose proof (ltb_trans s 0.4 0.6 H4 T46) as H6.
        pose proof (ltb_trans s 0.6 0.8 H6 T68) as H8.
        rewrite (ltb_not_leb _ _ H8), (ltb_not_leb _ _ H6),
          (ltb_not_leb _ _ H4). reflexivity.
      * rewrite !(not_comparable_leb _ _ N). reflexivity.
Qed.

(** ** The order numpy sorts by *)

Section NumpyOrder.

Definition SFless (a b : spec_float) : bool :=
  SFltb a b || (negb (SFeqb b b) && SFeqb a a).

Lemma less_spec (a b : float) :
  np.less a b = SFless (Prim2SF a) (Prim2SF b).
Proof. unfold np.less, SFless. now rewrite ltb_spec, !eqb_spec. Qed.

Lemma SFless_asym (x y : spec_float) :
  SFless x y = true -> SFless y x = false.
Proof.
  unfold SFless, SFltb, SFeqb.
  destruct x as [[]|[]| |[] mx ex], y as [[]|[]| |[] my ey]; simpl;
    rewrite ?Z.compare_refl, ?Pos.compare_cont_refl; simpl;
    try discriminate; try reflexivity;
    change (Pos.compare_cont Eq) with Pos.compare;
    destruct (Z.compare_spec ex ey), (Z.compare_spec ey ex); subst; simpl;
    try discriminate; try reflexivity; try lia;
    destruct (Pos.compare_spec mx my), (Pos.compare_spec my mx); subst;
    simpl; try discriminate; try reflexivity; try lia.
Qed.

(** [fun a b => less b a = false] is transitive: numpy's order is a
    total preorder on all floats, NaNs last. *)
Lemma SFless_le_trans (x y z : spec_float) :
  SFless y x = false -> SFless z y = false -> SFless z x = false.
Proof.
  unfold SFless, SFltb, SFeqb.
  destruct x as [[]|[]| |[] mx ex], y as [[]|[]| |[] my ey],
      z as [[]|[]| |[] mz ez]; simpl;
    rewrite ?Z.compare_refl, ?Pos.compare_cont_refl; simpl;
    try discriminate; try reflexivity;
    change (Pos.compare_cont Eq) with Pos.compare;
    destruct (Z.compare_spec ex ey), (Z.compare_spec ey ez),
      (Z.compare_spec ex ez), (Z.compare_spec ey ex),
      (Z.compare_spec ez ey), (Z.compare_spec ez ex);
    subst; simpl; try discriminate; try reflexivity; try lia;
    destruct (Pos.compare_spec mx my), (Pos.compare_spec my mz),
      (Pos.compare_spec mx mz), (Pos.compare_spec my mx),
      (Pos.compare_spec mz my), (Pos.compare_spec mz mx);
    subst; simpl; try discriminate; try reflexivity; try lia.
Qed.

Lemma less_asym (a b : float) : np.less a b = true -> np.less b a = false.
Proof. rewrite !less_spec. apply SFless_asym. Qed.

Lemma less_le_trans (a b c : float) :
  np.less b a = false -> np.less c b = false -> np.less c a = false.
Proof. rewrite !less_spec. apply SFless_le_trans. Qed.


End NumpyOrder.

(** ** Two sorts that meet the contract of [np.argsort] *)

Section InsertionSort.

(** The test by which an index moves left past an entry: it moves
    only past entries that are not below it, and stops only at entries
    that are not above it. *)
Variable past : float -> float -> bool.
Hypothesis past_true :
  forall x k, past x k = true -> np.less k x = false.
Hypothesis past_false :
  forall x k, past x k = false -> np.less x k = false.

Variable v : nat -> float.

(** In a run held last element first, no entry is smaller than one that
    follows it. *)
Definition descending : list nat -> Prop :=
  StronglySorted (fun i j => np.less (v i) (v j) = false).

Lemma insert_In (vi : nat) (l : list nat) (x : nat) :
  In x (np.insert past v vi l) <-> x = vi \/ In x l.
Proof.
  induction l as [|k t IH]; simpl.
  - intuition.
  - destruct (past (v vi) (v k)); simpl; rewrite ?IH; intuition.
Qed.

Lemma insert_Permutation (vi : nat) (l : list nat) :
  Permutation (np.insert past v vi l) (vi :: l).
Proof.
  induction l as [|k t IH]; simpl; [reflexivity|].
  destruct (past (v vi) (v k)); [|reflexivity].
  rewrite IH. apply perm_swap.
Qed.

Lemma insert_descending (vi : nat) (l : list nat) :
  descending l -> descending (np.insert past v vi l).
Proof.
  unfold descending.
  induction l as [|k t IH]; simpl; intros Hs.
  - repeat constructor.
  - apply StronglySorted_inv in Hs. destruct Hs as [Ht Hk].
    destruct (past (v vi) (v k)) eqn:E.
    + constructor; [now apply IH|].
      apply Forall_forall. intros x Hx. apply insert_In in Hx.
      destruct Hx as [->|Hx].
      * now apply past_true.
      * rewrite Forall_forall in Hk. now apply Hk.
    + apply past_false in E.
      constructor; [now constructor|].
      constructor; [exact E|].
      rewrite Forall_forall in Hk |- *. intros x Hx.
      apply less_le_trans with (b := v k); auto.
Qed.

Lemma insert_all_S (n : nat) :
  np.insert_all past v (seq 0 (S n))
  = np.insert past v n (np.insert_all past v (seq 0 n)).
Proof.
  unfold np.insert_all. rewrite seq_S, fold_left_app. reflexivity.
Qed.

Lemma insert_all_Permutation (n : nat) :
  Permutation (np.insert_all past v (seq 0 n)) (seq 0 n).
Proof.
  induction n as [|n IH]; [reflexivity|].
  rewrite insert_all_S, insert_Permutation, seq_S, IH.
  simpl. apply Permutation_cons_append.
Qed.

Lemma insert_all_descending (n : nat) :
  descending (np.insert_all past v (seq 0 n)).
Proof.
  induction n as [|n IH]; [constructor|].
  rewrite insert_all_S. now apply insert_descending.
Qed.

End InsertionSort.

Section StableInsertion.

Variable v : nat -> float.

(** Whenever an entry precedes one of a greater index, its value is
    strictly greater: equal values keep their order of insertion. *)
Definition stable_run : list nat -> Prop :=
  StronglySorted (fun i j => (j < i)%nat \/ np.less (v j) (v i) = true).

Lemma insert_stable (vi : nat) (l : list nat) :
  Forall (fun j => (j < vi)%nat) l -> stable_run l ->
  stable_run (np.insert np.less v vi l).
Proof.
  unfold stable_run.
  induction l as [|k t IH]; simpl; intros Hlt Hs.
  - repeat constructor.
  - apply StronglySorted_inv in Hs. destruct Hs as [Ht Hk].
    inversion Hlt as [|? ? Hkv Htv]; subst.
    destruct (np.less (v vi) (v k)) eqn:E.
    + constructor; [now apply IH|].
      apply Forall_forall. intros x Hx. apply insert_In in Hx.
      destruct Hx as [->|Hx].
      * now right.
      * rewrite Forall_forall in Hk. now apply Hk.
    + constructor; [now constructor|].
      constructor; [now left|].
      rewrite Forall_forall in Htv |- *. intros x Hx. left. now apply Htv.
Qed.

Lemma insert_all_stable (n : nat) :
  stable_run (np.insert_all np.less v (seq 0 n)).
Proof.
  induction n as [|n IH]; [constructor|].
  rewrite insert_all_S. apply insert_stable; [|exact IH].
  apply Forall_forall. intros j Hj.
  apply (Permutation_in _ (insert_all_Permutation np.less v n)) in Hj.
  apply in_seq in Hj. lia.
Qed.

End StableInsertion.

Lemma StronglySorted_app {A} (R : A -> A -> Prop) (l1 l2 : list A) :
  StronglySorted R l1 -> StronglySorted R l2 ->
  (forall x y, In x l1 -> In y l2 -> R x y) ->
  StronglySorted R (l1 ++ l2).
Proof.
  induction l1 as [|a l1 IH]; simpl; intros H1 H2 H12; [exact H2|].
  apply StronglySorted_inv in H1. destruct H1 as [H1 Ha].
  constructor.
  - apply IH; auto.
  - apply Forall_app. split; [exact Ha|].
    apply Forall_forall. intros y Hy. apply H12; auto.
Qed.

Lemma StronglySorted_rev {A} (R : A -> A -> Prop) (l : list A) :
  StronglySorted R l -> StronglySorted (fun x y => R y x) (rev l).
Proof.
  induction 1 as [|a l Hs IH Ha]; simpl; [constructor|].
  apply StronglySorted_app; [exact IH | repeat constructor |].
  intros x y Hx [<-|[]]. rewrite Forall_forall in Ha.
  apply Ha. now apply in_rev.
Qed.

(** Both sorts meet the contract. *)
Lemma argsort_stable_is_argsort : is_argsort np.argsort_stable.
Proof.
  split; intros a; unfold np.argsort_stable.
  - rewrite <- Permutation_rev. apply insert_all_Permutation.
  - apply (StronglySorted_rev
             (fun i j => np.less (nth i a 0%float) (nth j a 0%float) = false)).
    apply insert_all_descending.
    + intros x k. apply less_asym.
    + auto.
Qed.


(** ** Slices of sorted lists *)

Section Slices.

Context {A : Type}.

Lemma firstn_In (n : nat) (l : list A) (x : A) :
  In x (firstn n l) -> In x l.
Proof.
  revert n. induction l as [|a l IH]; intros [|n]; simpl; try tauto.
  intros [->|H]; [now left | right; eauto].
Qed.

Lemma StronglySorted_firstn (R : A -> A -> Prop) (n : nat) (l : list A) :
  StronglySorted R l -> StronglySorted R (firstn n l).
Proof.
  revert n. induction l as [|a l IH]; intros [|n] Hs; simpl;
    try constructor.
  - apply IH. now apply StronglySorted_inv in Hs.
  - apply StronglySorted_inv in Hs. destruct Hs as [_ Ha].
    rewrite Forall_forall in Ha |- *. intros x Hx.
    apply Ha. eapply firstn_In; eauto.
Qed.

Lemma slice_to_prefix (k : Z) (l : list A) :
  exists n, np.slice_to k l = firstn n l.
Proof. unfold np.slice_to. destruct (0 <=? k)%Z; eauto. Qed.

Lemma StronglySorted_slice_to (R : A -> A -> Prop) (k : Z) (l : list A) :
  StronglySorted R l -> StronglySorted R (np.slice_to k l).
Proof.
  destruct (slice_to_prefix k l) as [n ->]. apply StronglySorted_firstn.
Qed.

Lemma slice_to_In (k : Z) (l : list A) (x : A) :
  In x (np.slice_to k l) -> In x l.
Proof.
  destruct (slice_to_prefix k l) as [n ->]. apply firstn_In.
Qed.



Lemma slice_to_length (k : Z) (l : list A) :
  (0 <= k)%Z ->
  List.length (np.slice_to k l) = Nat.min (Z.to_nat k) (List.length l).
Proof.
  intros Hk. unfold np.slice_to.
  destruct (0 <=? k)%Z eqn:E; [apply length_firstn | lia].
Qed.

End Slices.

(** ** Ranking: [np.argsort(similarities)[::-1][:top_k]] *)

Section FloatTies.

Lemma SFless_not_eqb (x y : spec_float) :
  SFless x y = true -> SFeqb y x = false.
Proof.
  unfold SFless, SFltb, SFeqb.
  destruct x as [[]|[]| |[] mx ex], y as [[]|[]| |[] my ey]; simpl;
    rewrite ?Z.compare_refl, ?Pos.compare_cont_refl; simpl;
    try discriminate; try reflexivity;
    change (Pos.compare_cont Eq) with Pos.compare;
    destruct (Z.compare_spec ex ey), (Z.compare_spec ey ex); subst; simpl;
    try discriminate; try reflexivity; try lia;
    destruct (Pos.compare_spec mx my), (Pos.compare_spec my mx); subst;
    simpl; try discriminate; try reflexivity; try lia.
Qed.

Lemma less_not_eqb (a b : float) :
  np.less a b = true -> (b =? a)%float = false.
Proof. rewrite less_spec, eqb_spec. apply SFless_not_eqb. Qed.

End FloatTies.

(** What holds of the ranking with any sort that meets the contract of
    [np.argsort], on a catalog of any size. *)
Section Ranking.

Variable argsort : list float -> list nat.
Hypothesis argsort_ok : is_argsort argsort.

Variable similarities : list float.

Let score (i : nat) : float := nth i similarities 0%float.

Lemma argsort_Permutation :
  Permutation (argsort similarities) (seq 0 (List.length similarities)).
Proof. apply argsort_ok. Qed.



Lemma top_indices_bound (top_k : Z) :
  Forall (fun i => (i < List.length similarities)%nat)
    (top_indices argsort similarities top_k).
Proof.
  apply Forall_forall. intros i Hi. unfold top_indices in Hi.
  apply slice_to_In, in_rev in Hi.
  apply (Permutation_in _ argsort_Permutation), in_seq in Hi. lia.
Qed.



End Ranking.

(** With the stable sort, of two results of equal score the one LATER
    in the catalog comes first: the slice reads the ascending stable
    order from its end. *)
Lemma stable_ties_reversed (similarities : list float) (top_k : Z) :
  StronglySorted
    (fun i j =>
       (nth i similarities 0 =? nth j similarities 0)%float = true ->
       (j < i)%nat)
    (top_indices np.argsort_stable similarities top_k).
Proof.
  unfold top_indices. apply StronglySorted_slice_to.
  unfold np.argsort_stable. rewrite rev_involutive.
  pose proof (insert_all_stable (fun i => nth i similarities 0%float)
                (List.length similarities)) as H.
  unfold stable_run in H. induction H as [|a l Hs IH Ha]; constructor; auto.
  rewrite Forall_forall in Ha |- *. intros x Hx E.
  destruct (Ha x Hx) as [Hlt|Hless]; [exact Hlt|].
  apply less_not_eqb in Hless. congruence.
Qed.

(** ** The three-record scenario under any sort *)

Section ScenarioRanking.

Variable argsort : list float -> list nat.
Hypothesis argsort_ok : is_argsort argsort.



End ScenarioRanking.

(** ** C1 *)




(** ** Reasoning about a method body

    [wpi I c s Q]: run on an object in state [s], whatever was seen and
    logged before, the body [c] writes only states that satisfy [I], the
    object is left in the last state written, and the outcome and the
    final state satisfy [Q]. *)

Section BodyLogic.

Variable I : DrugPredictor -> Prop.

Definition wpi {A} (c : Body A) (s : DrugPredictor)
    (Q : Outcome A -> DrugPredictor -> Prop) : Prop :=
  forall l cs, Forall I l ->
    exists new,
      seen (snd (c (mkMem s l cs))) = (new ++ l)%list
      /\ Forall I new
      /\ self (snd (c (mkMem s l cs))) = hd s new
      /\ Q (fst (c (mkMem s l cs))) (self (snd (c (mkMem s l cs)))).

Lemma wpi_ret {A} (a : A) s Q : Q (Return a) s -> wpi (ret a) s Q.
Proof. intros H l cs Hl. exists []. simpl. auto. Qed.

Lemma wpi_raise {A} (e : Exception) s (Q : Outcome A -> _) :
  Q (Raise e) s -> wpi (raise e) s Q.
Proof. intros H l cs Hl. exists []. simpl. auto. Qed.

Lemma wpi_read {A} (f : DrugPredictor -> A) s Q :
  Q (Return (f s)) s -> wpi (read f) s Q.
Proof. intros H l cs Hl. exists []. simpl. auto. Qed.

Lemma wpi_assign (f : DrugPredictor -> DrugPredictor) s Q :
  I (f s) -> Q (Return tt) (f s) -> wpi (assign f) s Q.
Proof. intros Hi H l cs Hl. exists [f s]. simpl. auto. Qed.

Lemma wpi_extern {A} (c : Call) (r : Outcome A) s Q :
  Q r s -> wpi (extern c r) s Q.
Proof. intros H l cs Hl. exists []. simpl. auto. Qed.

Lemma hd_app_hd {A} (d : A) (l1 l2 : list A) :
  hd (hd d l2) l1 = hd d (l1 ++ l2).
Proof. destruct l1; reflexivity. Qed.

Lemma wpi_bind {A B} (c : Body A) (k : A -> Body B) s Q :
  wpi c s (fun o s' =>
             match o with
             | Return a => wpi (k a) s' Q
             | Raise e => Q (Raise e) s'
             end) ->
  wpi (bind c k) s Q.
Proof.
  intros H l cs Hl. unfold bind.
  destruct (H l cs Hl) as (n1 & Hs1 & Hn1 & Hh1 & HQ1).
  destruct (c (mkMem s l cs)) as [[a|e] [s' l' cs']]; simpl in *.
  - subst l'. assert (Hl' : Forall I (n1 ++ l)) by (apply Forall_app; auto).
    destruct (HQ1 _ cs' Hl') as (n2 & Hs2 & Hn2 & Hh2 & HQ2).
    exists (n2 ++ n1)%list. rewrite Hs2, Hh2, app_assoc. subst s'.
    repeat split; auto.
    + apply Forall_app; auto.
    + apply hd_app_hd.
    + rewrite <- Hh2. exact HQ2.
  - exists n1. auto.
Qed.

Lemma wpi_try {A} (body : Body A) (handler : Exception -> Body A) s Q :
  wpi body s (fun o s' =>
                match o with
                | Return a => Q (Return a) s'
                | Raise e => wpi (handler e) s' Q
                end) ->
  wpi (try_except body handler) s Q.
Proof.
  intros H l cs Hl. unfold try_except.
  destruct (H l cs Hl) as (n1 & Hs1 & Hn1 & Hh1 & HQ1).
  destruct (body (mkMem s l cs)) as [[a|e] [s' l' cs']]; simpl in *.
  - exists n1. auto.
  - subst l'. assert (Hl' : Forall I (n1 ++ l)) by (apply Forall_app; auto).
    destruct (HQ1 _ cs' Hl') as (n2 & Hs2 & Hn2 & Hh2 & HQ2).
    exists (n2 ++ n1)%list. rewrite Hs2, Hh2, app_assoc. subst s'.
    repeat split; auto.
    + apply Forall_app; auto.
    + apply hd_app_hd.
    + rewrite <- Hh2. exact HQ2.
Qed.

Lemma wpi_run {A} (c : Body A) s Q :
  wpi c s Q ->
  Forall I (seen (snd (run c s)))
  /\ self (snd (run c s)) = hd s (seen (snd (run c s)))
  /\ Q (fst (run c s)) (self (snd (run c s))).
Proof.
  intros H. destruct (H [] [] (Forall_nil _)) as (n & Hs & Hn & Hh & HQ).
  unfold run. rewrite Hs, app_nil_r. auto.
Qed.

End BodyLogic.

(** Getters applied to setters. *)
Ltac state_simpl :=
  cbn [config model drug_embeddings df_drugs initialization_status
       status error progress message start_time end_time status_of
       set_initialization_status set_status set_error set_progress
       set_message set_start_time set_end_time set_model
       set_drug_embeddings set_df_drugs negb] in *.

(** One step of a body, with [inv] to show that a written state
    satisfies the invariant. *)
Ltac wpi_step inv :=
  lazymatch goal with
  | |- wpi _ (bind _ _) _ _ => apply wpi_bind
  | |- wpi _ (ret _) _ _ => apply wpi_ret
  | |- wpi _ (raise _) _ _ => apply wpi_raise
  | |- wpi _ (read _) _ _ => apply wpi_read
  | |- wpi _ (assign _) _ _ => apply wpi_assign; [solve [inv] |]
  | |- wpi _ (extern _ _) _ _ => apply wpi_extern
  | |- wpi _ (try_except _ _) _ _ => apply wpi_try
  | |- wpi _ (if ?b then _ else _) _ _ => destruct b eqn:?
  | |- wpi _ (match ?x with _ => _ end) _ _ => destruct x eqn:?
  | |- wpi _ (_load_drug_database _) _ _ => unfold _load_drug_database
  | |- wpi _ _generate_embeddings _ _ => unfold _generate_embeddings
  | |- wpi _ the_frame _ _ => unfold the_frame
  | |- wpi _ (the_column _ _) _ _ => unfold the_column
  | |- match ?o with Return _ => _ | Raise _ => _ end => destruct o eqn:?
  end; cbv beta iota; state_simpl.

Ltac wpi_steps inv := repeat wpi_step inv.

(** ** Facts about frames *)

Section Frames.

Lemma getitem_length (df : pd.DataFrame) (col : string) (c : list string) :
  pd.getitem df col = Some c -> List.length c = pd.len df.
Proof.
  unfold pd.getitem, pd.len. destruct (pd.index_of col (pd.columns df));
    [|discriminate].
  intros [= <-]. apply length_map.
Qed.

Lemma has_column_index_of (df : pd.DataFrame) (col : string) :
  pd.has_column df col = true ->
  exists i, pd.index_of col (pd.columns df) = Some i.
Proof.
  unfold pd.has_column. induction (pd.columns df) as [|c t IH]; simpl;
    [discriminate|].
  destruct (String.eqb col c); simpl; [eauto|].
  intros H. destruct (IH H) as [i ->]. simpl. eauto.
Qed.

Lemma drop_duplicates_columns (df df' : pd.DataFrame) (col : string) :
  pd.drop_duplicates df col = Some df' -> pd.columns df' = pd.columns df.
Proof.
  unfold pd.drop_duplicates.
  destruct (pd.index_of col (pd.columns df)); [|discriminate].
  now intros [= <-].
Qed.

Lemma setitem_has_column (df : pd.DataFrame) (col x : string)
    (values : list string) :
  pd.has_column df x = true ->
  pd.has_column (pd.setitem df col values) x = true.
Proof.
  unfold pd.setitem, pd.has_column.
  destruct (pd.index_of col (pd.columns df)); simpl; [auto|].
  rewrite existsb_app. intros ->. reflexivity.
Qed.

Lemma required_columns_present (df : pd.DataFrame) :
  filter (fun col => negb (pd.has_column df col)) required_columns = [] ->
  pd.has_column df "Nama" = true /\ pd.has_column df "DeskripsiObat" = true.
Proof.
  unfold required_columns. simpl.
  destruct (pd.has_column df "Nama"), (pd.has_column df "DeskripsiObat");
    simpl; intros H; try discriminate; auto.
Qed.

Lemma iloc_Some (df : pd.DataFrame) (idx : nat) (col : string) :
  (idx < pd.len df)%nat -> pd.has_column df col = true ->
  exists x, pd.iloc df idx col = Some x.
Proof.
  intros Hlt Hc. unfold pd.iloc, pd.len in *.
  destruct (nth_error (pd.rows df) idx) eqn:E.
  - destruct (has_column_index_of _ _ Hc) as [i ->]. eauto.
  - apply nth_error_None in E. lia.
Qed.

End Frames.

(** ** What is assumed of the encoder

    [encode] returns one vector per text. *)

Definition encoder_ok (m : SentenceTransformer) : Prop :=
  forall texts e, encode m texts = Return e ->
    List.length e = List.length texts.

Definition world_ok (w : World) : Prop :=
  forall name m, load_model w name = Return m -> encoder_ok m.

(** ** The published index *)

(** A consistent index: the encoder, the catalog and one vector per
    catalog record. *)
Definition published (p : DrugPredictor) : Prop :=
  exists m df e,
    model p = Some m /\ encoder_ok m
    /\ df_drugs p = Some df /\ drug_embeddings p = Some e
    /\ pd.len df = List.length e
    /\ pd.has_column df "Nama" = true
    /\ pd.has_column df "DeskripsiObat" = true.

Definition ready_ok (p : DrugPredictor) : Prop :=
  status_of p = completed -> published p.

(** The states a predictor is in between two runs of
    [_initialize_sync], which [self._lock] serialises. *)
Inductive reachable : DrugPredictor -> Prop :=
| reach_init (cfg : Config) : reachable (__init__ cfg)
| reach_build (w : World) (p : DrugPredictor) :
    reachable p -> world_ok w ->
    reachable (self (snd (run (_initialize_sync w) p))).

(** The states a reader that does not take the lock can find: those
    between two runs and those a run goes through. *)
Inductive observable : DrugPredictor -> Prop :=
| obs_between (p : DrugPredictor) : reachable p -> observable p
| obs_during (w : World) (p s : DrugPredictor) :
    reachable p -> world_ok w ->
    In s (seen (snd (run (_initialize_sync w) p))) -> observable s.

Section BuildInvariant.

Variable w : World.
Hypothesis Hw : world_ok w.

Ltac published_tac :=
  unfold published; state_simpl;
  do 3 eexists;
  repeat match goal with
         | |- _ /\ _ => split
         | |- Some _ = Some _ => reflexivity
         end;
  match goal with
  | |- encoder_ok _ => eapply Hw; eassumption
  | |- pd.len _ = List.length _ =>
      match goal with
      | Hc : pd.getitem _ _ = Some ?c, He : encode _ ?c = Return _,
        Hm : load_model _ _ = Return ?m |- _ =>
          rewrite (Hw _ _ Hm _ _ He); symmetry; eapply getitem_length;
          exact Hc
      end
  | |- pd.has_column ?df' ?x = true =>
      match goal with
      | Hd : pd.drop_duplicates _ _ = Some df',
        Hf : filter _ required_columns = [] |- _ =>
          unfold pd.has_column;
          rewrite (drop_duplicates_columns _ _ _ Hd);
          apply setitem_has_column;
          apply (required_columns_present _ Hf)
      end
  end.

Ltac ready_tac :=
  unfold ready_ok; state_simpl; intros Hc;
  first [ discriminate Hc | published_tac ].

Lemma _initialize_sync_ready (p : DrugPredictor) :
  ready_ok p ->
  wpi ready_ok (_initialize_sync w) p (fun _ s => ready_ok s).
Proof.
  intros Hp. unfold _initialize_sync.
  wpi_steps ready_tac; try exact Hp; try solve [ready_tac].
Qed.

End BuildInvariant.

(** ** What a run returns *)

(** [_initialize_sync] never raises. When it returns [True] the status
    is [completed]; when it returns [False], and was not turned away by
    a run in progress, the status is [failed] and an error is recorded. *)
Lemma _initialize_sync_returns (w : World) (p : DrugPredictor) :
  wpi (fun _ => True) (_initialize_sync w) p
    (fun o s =>
       exists b, o = Return b
         /\ (b = true -> status_of s = completed)
         /\ (b = false -> status_of p <> in_progress ->
             status_of s = failed
             /\ exists msg, error (initialization_status s) = Some msg)).
Proof.
  unfold _initialize_sync.
  wpi_steps ltac:(exact Logic.I);
    (eexists; split; [reflexivity|]; split; intros Hb Hs || intros Hb;
     try discriminate; state_simpl; eauto).
  all: repeat match goal with
              | H : Status_eqb _ _ = true |- _ => apply Status_eqb_eq in H
              end; congruence.
Qed.

Lemma _initialize_sync_total (w : World) (p : DrugPredictor) :
  exists b, fst (run (_initialize_sync w) p) = Return b.
Proof.
  destruct (wpi_run _ _ _ _ (_initialize_sync_returns w p))
    as (_ & _ & b & Hb & _).
  eauto.
Qed.

(** Once the login and the model load have gone through, no failure
    reaches the handler of [_initialize_sync]: a run that returns
    [False] has left [end_time] as it found it, and only a run that
    returns [True] has set it. *)
Lemma inner_failure_keeps_end_time (w : World) (p : DrugPredictor)
    (m : SentenceTransformer) :
  (forall token, login w token = Return tt) ->
  load_model w (MODEL_NAME (config p)) = Return m ->
  status_of p <> in_progress ->
  wpi (fun _ => True) (_initialize_sync w) p
    (fun o s =>
       (o = Return false ->
        end_time (initialization_status s)
        = end_time (initialization_status p))
       /\ (o = Return true -> status_of p <> completed ->
           end_time (initialization_status s) = Some (time_time w 1))).
Proof.
  intros Hlogin Hmodel Hp. unfold _initialize_sync.
  wpi_steps ltac:(exact Logic.I);
    try match goal with
        | H : login _ _ = Raise _ |- _ =>
            rewrite Hlogin in H; discriminate H
        | H : load_model _ _ = Raise _ |- _ =>
            rewrite Hmodel in H; discriminate H
        end;
    (split; [intros Ho | intros Ho Hs]); try discriminate;
    state_simpl; try reflexivity.
  all: repeat match goal with
              | H : Status_eqb _ _ = true |- _ => apply Status_eqb_eq in H
              end; congruence.
Qed.

(** A run on a completed predictor is no run: it returns [True], writes
    nothing and calls nothing outside. A run that finds a run in
    progress returns [False] likewise. *)
Lemma _initialize_sync_completed (w : World) (m : Mem) :
  status_of (self m) = completed ->
  _initialize_sync w m = (Return true, m).
Proof.
  intros H. unfold _initialize_sync, bind, read. simpl. rewrite H. reflexivity.
Qed.

Lemma _initialize_sync_in_progress (w : World) (m : Mem) :
  status_of (self m) = in_progress ->
  _initialize_sync w m = (Return false, m).
Proof.
  intros H. unfold _initialize_sync, bind, read. simpl. rewrite H. reflexivity.
Qed.

(** ** The invariant of the published index *)

Lemma reachable_ready_ok (p : DrugPredictor) : reachable p -> ready_ok p.
Proof.
  induction 1 as [cfg|w p Hr IH Hw].
  - intros H. discriminate H.
  - apply (wpi_run _ _ _ _ (_initialize_sync_ready w Hw p IH)).
Qed.

Lemma observable_ready_ok (p : DrugPredictor) : observable p -> ready_ok p.
Proof.
  intros [p' Hr|w p' s Hr Hw Hin].
  - now apply reachable_ready_ok.
  - pose proof (wpi_run _ _ _ _
                  (_initialize_sync_ready w Hw p' (reachable_ready_ok _ Hr)))
      as (Hall & _).
    rewrite Forall_forall in Hall. now apply Hall.
Qed.

Lemma abc_encoder_ok : encoder_ok abc_encoder.
Proof. intros texts e [= <-]. apply length_map. Qed.

Lemma abc_world_ok : world_ok abc_world.
Proof. intros name m [= <-]. apply abc_encoder_ok. Qed.

Lemma abc_predictor_reachable : reachable abc_predictor.
Proof.
  exact (reach_build abc_world _ (reach_init default_config) abc_world_ok).
Qed.

(** In every state a reader can find the predictor in, a status of
    [completed] comes with a catalog and an array of embeddings of the
    same length. *)
Lemma observable_index_consistent (p : DrugPredictor) :
  observable p -> status_of p = completed ->
  exists df e,
    df_drugs p = Some df /\ drug_embeddings p = Some e
    /\ pd.len df = List.length e.
Proof.
  intros Ho Hc.
  destruct (observable_ready_ok p Ho Hc)
    as (m & df & e & _ & _ & Hdf & He & Hlen & _).
  eauto.
Qed.

(** ** C3 *)

(** C3 fails on the code for two of the four steps. A first run over a
    catalog that lacks the required columns returns [False] with status
    [failed] and the error recorded, but [end_time] is still [None]; so
    does a run whose [encode] raises. The handlers of
    [_load_drug_database] and [_generate_embeddings] set the status and
    the error only. A run whose model fails to load goes through the
    handler of [_initialize_sync], which sets [end_time] as well. *)
Theorem inner_failures_leave_end_time_unset :
  (let r := first_run missing_columns_world in
   let i := initialization_status (self (snd r)) in
   fst r = Return false /\ status i = failed
   /\ error i
      = Some ("Error loading drug database: Missing columns: "
              ++ "['Nama', 'DeskripsiObat']. Available: "
              ++ "['Name', 'Description']")
   /\ end_time i = None)
  /\ (let r := first_run failing_encoder_world in
      let i := initialization_status (self (snd r)) in
      fst r = Return false /\ status i = failed
      /\ error i = Some "Error generating embeddings: out of memory"
      /\ end_time i = None)
  /\ (let r := first_run no_model_world in
      let i := initialization_status (self (snd r)) in
      fst r = Return false /\ status i = failed
      /\ error i = Some "Initialization failed: model not found"
      /\ end_time i = Some (time_time no_model_world 1)).
Proof. vm_compute. repeat split; reflexivity. Qed.

(** ** C10 *)

(** C10. [get_stats] returns the "Database not loaded" marker exactly
    when [df_drugs] is [None], and the statistics of the frame
    otherwise, whatever the status. After a run that failed on the
    required columns it reports the catalog that was read; in the
    middle of a run, with the status still [in_progress], it reports
    the catalog as soon as it has been read. *)
Theorem get_stats_gates_on_frame_only :
  (forall p, get_stats p = stats_error "Database not loaded"
             <-> df_drugs p = None)
  /\ (forall p df,
        get_stats (set_df_drugs (Some df) p)
        = stats (pd.len df) (pd.columns df)
            (option_map shape (drug_embeddings p))
            (MODEL_NAME (config p)) (CSV_PATH (config p)))
  /\ (let p := self (snd (first_run missing_columns_world)) in
      status_of p = failed
      /\ get_stats p
         = stats 1 ["Name"; "Description"] None
             (MODEL_NAME default_config) (CSV_PATH default_config))
  /\ (exists s,
        In s (seen (snd (first_run abc_world)))
        /\ status_of s = in_progress
        /\ drug_embeddings s = None
        /\ get_stats s
           = stats 3 ["Nama"; "DeskripsiObat"] None
               (MODEL_NAME default_config) (CSV_PATH default_config)).
Proof.
  split; [|split; [|split]].
  - intros p. unfold get_stats. destruct (df_drugs p); split; congruence.
  - intros p df. reflexivity.
  - vm_compute. split; reflexivity.
  - set (l := seen (snd (first_run abc_world))).
    exists (nth 10 l (__init__ default_config)).
    split.
    + apply nth_In. vm_compute. lia.
    + vm_compute. repeat split; reflexivity.
Qed.

(** ** Stripped strings *)

Section Strip.

Lemma lstrip_empty (s : string) :
  PyStr.lstrip s = "" <-> PyStr.all_space s = true.
Proof.
  induction s as [|c t IH]; simpl; [tauto|].
  destruct (PyStr.isspace c); simpl; [exact IH|].
  split; discriminate.
Qed.

Lemma all_space_rstrip (s : string) :
  PyStr.all_space (PyStr.rstrip s) = PyStr.all_space s.
Proof.
  induction s as [|c t IH]; simpl; [reflexivity|].
  destruct (PyStr.rstrip t) as [|c' t'] eqn:E.
  - rewrite <- IH. simpl.
    destruct (PyStr.isspace c) eqn:Ec; simpl; [reflexivity|].
    now rewrite Ec.
  - rewrite <- IH. reflexivity.
Qed.

Lemma strip_empty (s : string) :
  PyStr.strip s = "" <-> PyStr.all_space s = true.
Proof.
  unfold PyStr.strip. rewrite lstrip_empty. now rewrite all_space_rstrip.
Qed.

Lemma all_space_append (a b : string) :
  PyStr.all_space (a ++ b) = PyStr.all_space a && PyStr.all_space b.
Proof.
  induction a as [|c t IH]; simpl; [reflexivity|].
  now rewrite IH, andb_assoc.
Qed.

(** The query is empty exactly when both texts are empty once
    stripped. *)
Lemma query_empty (keluhan anamnesa : string) :
  PyStr.strip (keluhan ++ " " ++ anamnesa) = ""
  <-> PyStr.strip keluhan = "" /\ PyStr.strip anamnesa = "".
Proof.
  rewrite !strip_empty, !all_space_append. simpl.
  rewrite andb_true_iff. reflexivity.
Qed.

Lemma truthy_false (s : string) : PyStr.truthy s = false <-> s = "".
Proof. destruct s; simpl; split; congruence. Qed.

End Strip.

(** ** When [predict] returns *)

Section PredictReturns.

Variable argsort : list float -> list nat.
Hypothesis argsort_ok : is_argsort argsort.
Variable cosine_similarity : ndarray -> ndarray -> Outcome ndarray.

(** What is assumed of sklearn's [cosine_similarity] where a property
    needs [predict] to return: on the embedding of a query by [m] and
    the embeddings [e] of the catalog, the call returns, with one row
    per row of the first and one column per row of the second. It is
    assumed of the arrays at hand only: sklearn raises where [e] has no
    row, as after a build over a file without records. *)
Definition similarity_shape (m : SentenceTransformer) (e : ndarray)
  : Prop :=
  forall q v,
    encode m [q] = Return v ->
    exists S,
      cosine_similarity v e = Return S
      /\ List.length S = List.length v
      /\ Forall (fun row => List.length row = List.length e) S.

Lemma take_Some {A} (a : list A) (idxs : list nat) :
  Forall (fun i => (i < List.length a)%nat) idxs ->
  exists r, np.take a idxs = Some r /\ List.length r = List.length idxs.
Proof.
  induction 1 as [|i t Hi Ht IH]; simpl; [eauto|].
  destruct IH as (r & -> & Hr).
  destruct (nth_error a i) eqn:E.
  - eexists. split; [reflexivity|]. simpl. now rewrite Hr.
  - apply nth_error_None in E. lia.
Qed.

Lemma format_results_Return (df : pd.DataFrame) (i : nat)
    (pairs : list (nat * float)) :
  pd.has_column df "Nama" = true ->
  pd.has_column df "DeskripsiObat" = true ->
  Forall (fun ix => (fst ix < pd.len df)%nat) pairs ->
  exists rs, format_results df i pairs = Return rs.
Proof.
  intros Hn Hd Hall. revert i.
  induction Hall as [|[idx score] t Hi Ht IH]; intros i; simpl; [eauto|].
  destruct (iloc_Some df idx "Nama" Hi Hn) as [x ->].
  destruct (iloc_Some df idx "DeskripsiObat" Hi Hd) as [y ->].
  destruct (IH (S i)) as [rs ->]. eauto.
Qed.

Lemma combine_fst_Forall {A B} (P : A -> Prop) (l : list A) (l' : list B) :
  Forall P l -> Forall (fun ab => P (fst ab)) (combine l l').
Proof.
  intros H. revert l'. induction H as [|a l Ha Hl IH]; intros [|b l'];
    simpl; constructor; auto.
Qed.

(** On a ready predictor whose encoder answers the query and on whose
    arrays [cosine_similarity] returns, [predict] returns for every
    non-empty query. *)
Lemma predict_returns (p : DrugPredictor) (keluhan anamnesa : string)
    (top_k : Z) :
  published p -> status_of p = completed ->
  (forall m q, model p = Some m -> exists v, encode m [q] = Return v) ->
  (forall m e, model p = Some m -> drug_embeddings p = Some e ->
     similarity_shape m e) ->
  PyStr.strip (keluhan ++ " " ++ anamnesa) <> "" ->
  exists rs,
    predict argsort cosine_similarity p keluhan anamnesa top_k
    = Return rs.
Proof.
  intros (m & df & e & Hm & Hok & Hdf & He & Hlen & Hn & Hd) Hc Henc
    Hshape Hq.
  unfold predict. rewrite Hc. cbv zeta. cbn [Status_eqb negb].
  destruct (PyStr.truthy _) eqn:Et;
    [|apply truthy_false in Et; contradiction].
  cbn [negb]. rewrite Hm.
  destruct (Henc m (PyStr.strip (keluhan ++ " " ++ anamnesa)) Hm) as [v Hv].
  rewrite Hv, He.
  destruct (Hshape m e Hm He _ v Hv) as (S & -> & Hrows & Hcols).
  rewrite (Hok _ _ Hv) in Hrows.
  destruct S as [|similarities rest]; [discriminate|].
  inversion Hcols as [|? ? Hrow _]; subst.
  pose proof (top_indices_bound argsort argsort_ok similarities top_k)
    as Hb.
  destruct (take_Some similarities _ Hb) as (scores & -> & _).
  rewrite Hdf. apply format_results_Return; auto.
  apply (combine_fst_Forall (fun i => (i < pd.len df)%nat)).
  rewrite Hlen, <- Hrow. exact Hb.
Qed.

(** What the encoder or [cosine_similarity] raises, [predict]
    raises. *)
Lemma predict_raises_encode (p : DrugPredictor) (keluhan anamnesa : string)
    (top_k : Z) (m : SentenceTransformer) (e : Exception) :
  status_of p = completed ->
  PyStr.strip (keluhan ++ " " ++ anamnesa) <> "" ->
  model p = Some m ->
  encode m [PyStr.strip (keluhan ++ " " ++ anamnesa)] = Raise e ->
  predict argsort cosine_similarity p keluhan anamnesa top_k = Raise e.
Proof.
  intros Hc Hq Hm He. unfold predict. rewrite Hc. cbv zeta.
  cbn [Status_eqb negb].
  destruct (PyStr.truthy _) eqn:Et;
    [|apply truthy_false in Et; contradiction].
  cbn [negb]. now rewrite Hm, He.
Qed.

Lemma predict_raises_similarity (p : DrugPredictor)
    (keluhan anamnesa : string) (top_k : Z) (m : SentenceTransformer)
    (v : ndarray) (e : Exception) :
  status_of p = completed ->
  PyStr.strip (keluhan ++ " " ++ anamnesa) <> "" ->
  model p = Some m ->
  encode m [PyStr.strip (keluhan ++ " " ++ anamnesa)] = Return v ->
  cosine_similarity v match drug_embeddings p with
                      | Some e => e
                      | None => v
                      end = Raise e ->
  predict argsort cosine_similarity p keluhan anamnesa top_k = Raise e.
Proof.
  intros Hc Hq Hm Hv He. unfold predict. rewrite Hc. cbv zeta.
  cbn [Status_eqb negb].
  destruct (PyStr.truthy _) eqn:Et;
    [|apply truthy_false in Et; contradiction].
  cbn [negb]. now rewrite Hm, Hv, He.
Qed.

End PredictReturns.

Lemma abc_model : model abc_predictor = Some abc_encoder.
Proof. vm_compute. reflexivity. Qed.

Lemma abc_encoder_answers (m : SentenceTransformer) (q : string) :
  model abc_predictor = Some m -> exists v, encode m [q] = Return v.
Proof.
  rewrite abc_model. intros [= <-]. exists [abc_vector q]. reflexivity.
Qed.

Lemma abc_similarity_returns (m : SentenceTransformer) (e : ndarray) :
  e <> [] -> m = abc_encoder -> similarity_shape abc_similarity m e.
Proof.
  intros He -> q v [= <-].
  destruct e as [|x e']; [contradiction|].
  eexists. split; [reflexivity|]. split; [reflexivity|].
  apply Forall_forall. intros row Hrow. simpl in Hrow.
  destruct Hrow as [<-|[]].
  exact (length_map (dot (abc_vector q)) (x :: e')).
Qed.

Lemma abc_similarity_shape (m : SentenceTransformer) (e : ndarray) :
  model abc_predictor = Some m -> drug_embeddings abc_predictor = Some e ->
  similarity_shape abc_similarity m e.
Proof.
  rewrite abc_model. intros [= <-] He.
  apply abc_similarity_returns; [|reflexivity].
  intros ->. vm_compute in He. discriminate He.
Qed.

(** ** C5 *)

Lemma header_only_world_ok : world_ok header_only_world.
Proof. intros name m [= <-]. apply abc_encoder_ok. Qed.

Lemma limited_encoder_ok : encoder_ok limited_encoder.
Proof.
  intros texts e. unfold limited_encoder. cbn [encode].
  destruct (existsb _ texts); [discriminate|].
  intros [= <-]. apply length_map.
Qed.

Lemma limited_world_ok : world_ok limited_world.
Proof. intros name m [= <-]. apply limited_encoder_ok. Qed.

(** C5, as the code has it. [predict] makes its two checks first: it
    raises [RuntimeError("Model not initialized")] whenever the status
    is not [completed], and, when it is, [ValueError("Query cannot be
    empty")] whenever the two texts joined by one space strip to the
    empty string, which is when both strip to the empty string; so does
    [predict("", "")]. These are not its only failures: [encode] (line
    201) and [cosine_similarity] (line 204) are called outside any
    [try], and what they raise, [predict] raises. The converses
    therefore hold only where the libraries answer: on an observable
    predictor, with a sort that meets the contract of numpy, an encoder
    that answers every query and a [cosine_similarity] that returns on
    the arrays at hand, [predict] raises a [RuntimeError] exactly when
    the status is not [completed]; when it is, it raises a
    [ValueError] exactly when the query is empty, and
    [predict("fever", "")] returns. *)
Theorem predict_preconditions
    (argsort : list float -> list nat)
    (cosine_similarity : ndarray -> ndarray -> Outcome ndarray)
    (p : DrugPredictor) (keluhan anamnesa : string) (top_k : Z) :
  let predict := predict argsort cosine_similarity p in
  let query := PyStr.strip (keluhan ++ " " ++ anamnesa) in
  (status_of p <> completed ->
   predict keluhan anamnesa top_k
   = Raise (mkExc RuntimeError "Model not initialized"))
  /\ (status_of p = completed -> query = "" ->
      predict keluhan anamnesa top_k
      = Raise (mkExc ValueError "Query cannot be empty"))
  /\ (query = "" <-> PyStr.strip keluhan = "" /\ PyStr.strip anamnesa = "")
  /\ (status_of p = completed ->
      predict "" "" top_k = Raise (mkExc ValueError "Query cannot be empty"))
  /\ (forall m e,
        status_of p = completed -> query <> "" -> model p = Some m ->
        encode m [query] = Raise e ->
        predict keluhan anamnesa top_k = Raise e)
  /\ (forall m v e,
        status_of p = completed -> query <> "" -> model p = Some m ->
        encode m [query] = Return v ->
        cosine_similarity v match drug_embeddings p with
                            | Some e => e
                            | None => v
                            end = Raise e ->
        predict keluhan anamnesa top_k = Raise e)
  /\ (is_argsort argsort -> observable p ->
      (forall m q, model p = Some m -> exists v, encode m [q] = Return v) ->
      (forall m e, model p = Some m -> drug_embeddings p = Some e ->
         similarity_shape cosine_similarity m e) ->
      ((exists e, predict keluhan anamnesa top_k = Raise e
                  /\ exc_class e = RuntimeError)
       <-> status_of p <> completed)
      /\ (status_of p = completed ->
          ((exists e, predict keluhan anamnesa top_k = Raise e
                      /\ exc_class e = ValueError)
           <-> query = "")
          /\ exists rs, predict "fever" "" top_k = Return rs)).
Proof.
  cbv zeta.
  assert (Hnot : status_of p <> completed ->
                 predict argsort cosine_similarity p keluhan anamnesa top_k
                 = Raise (mkExc RuntimeError "Model not initialized")).
  { intros Hs. unfold predict.
    destruct (Status_eqb (status_of p) completed) eqn:E; [|reflexivity].
    apply Status_eqb_eq in E. contradiction. }
  assert (Hempty : forall k a, status_of p = completed ->
            PyStr.strip (k ++ " " ++ a) = "" ->
            predict argsort cosine_similarity p k a top_k
            = Raise (mkExc ValueError "Query cannot be empty")).
  { intros k a Hc Hq. unfold predict. rewrite Hc, Hq. reflexivity. }
  split; [exact Hnot|]. split; [apply Hempty|].
  split; [apply query_empty|]. split; [intros Hc; now apply Hempty|].
  split; [intros m e Hc Hq Hm He; now apply predict_raises_encode with m|].
  split; [intros m v e Hc Hq Hm Hv He;
          now apply predict_raises_similarity with m v|].
  intros Hsort Hobs Henc Hshape.
  assert (Hret : forall k a, status_of p = completed ->
            PyStr.strip (k ++ " " ++ a) <> "" ->
            exists rs, predict argsort cosine_similarity p k a top_k
                       = Return rs).
  { intros k a Hc Hq. apply predict_returns; auto.
    now apply observable_ready_ok. }
  split.
  - split.
    + intros (e & He & Hcls) Hc.
      destruct (string_dec (PyStr.strip (keluhan ++ " " ++ anamnesa)) "")
        as [Hq|Hq].
      * rewrite (Hempty _ _ Hc Hq) in He. injection He as <-. discriminate.
      * destruct (Hret _ _ Hc Hq) as [rs Hrs]. congruence.
    + intros Hs. eexists. split; [exact (Hnot Hs) | reflexivity].
  - intros Hc. split.
    + split.
      * intros (e & He & Hcls).
        destruct (string_dec (PyStr.strip (keluhan ++ " " ++ anamnesa)) "")
          as [Hq|Hq]; [exact Hq|].
        destruct (Hret _ _ Hc Hq) as [rs Hrs]. congruence.
      * intros Hq. eexists. split; [exact (Hempty _ _ Hc Hq) | reflexivity].
    + apply Hret; auto. vm_compute. discriminate.
Qed.

Lemma predict_preconditions_witness :
  observable abc_predictor
  /\ predict np.argsort_stable abc_similarity abc_predictor "" "" 2
     = Raise (mkExc ValueError "Query cannot be empty")
  /\ exists rs,
       predict np.argsort_stable abc_similarity abc_predictor "fever" "" 2
       = Return rs.
Proof.
  split; [exact (obs_between _ abc_predictor_reachable)|].
  pose proof (predict_preconditions np.argsort_stable abc_similarity
                abc_predictor "fever" "" 2) as H.
  cbv zeta in H. destruct H as (_ & _ & _ & He & _ & _ & H).
  assert (Hc : status_of abc_predictor = completed)
    by (vm_compute; reflexivity).
  destruct (H argsort_stable_is_argsort
              (obs_between _ abc_predictor_reachable)
              abc_encoder_answers abc_similarity_shape) as (_ & Hr).
  split; [exact (He Hc) | exact (proj2 (Hr Hc))].
Defined.

(** C5 as stated fails in its two "only if" halves. After a build
    over a file with its header and no record the predictor is ready,
    and [predict("fever", "")] raises the [ValueError] of
    [cosine_similarity], the query not being empty. After a build with
    an encoder that runs out of memory on a long text the predictor is
    ready, and [predict] raises the [RuntimeError] of the encoder. *)
Lemma predict_library_errors_counterexample :
  observable header_only_predictor
  /\ status_of header_only_predictor = completed
  /\ PyStr.strip ("fever" ++ " " ++ "") <> ""
  /\ (exists e,
        predict np.argsort_stable abc_similarity header_only_predictor
          "fever" "" 2 = Raise e
        /\ exc_class e = ValueError)
  /\ observable limited_predictor
  /\ status_of limited_predictor = completed
  /\ (exists e,
        predict np.argsort_stable abc_similarity limited_predictor
          "a fever for three days" "" 2 = Raise e
        /\ exc_class e = RuntimeError).
Proof.
  split.
  { apply obs_between.
    exact (reach_build header_only_world _ (reach_init default_config)
             header_only_world_ok). }
  split; [vm_compute; reflexivity|].
  split; [vm_compute; discriminate|].
  split; [vm_compute; eexists; split; reflexivity|].
  split.
  { apply obs_between.
    exact (reach_build limited_world _ (reach_init default_config)
             limited_world_ok). }
  split; [vm_compute; reflexivity|].
  vm_compute; eexists; split; reflexivity.
Qed.

(** ** C7 *)

Section TopK.

Lemma lstrip_all_space (s : string) :
  PyStr.all_space (PyStr.lstrip s) = true -> PyStr.lstrip s = "".
Proof.
  induction s as [|c t IH]; simpl; [reflexivity|].
  destruct (PyStr.isspace c) eqn:E; [exact IH|].
  simpl. rewrite E. discriminate.
Qed.

Lemma strip_strip_empty (s : string) :
  PyStr.strip (PyStr.strip s) = "" <-> PyStr.strip s = "".
Proof.
  rewrite (strip_empty (PyStr.strip s)). split.
  - apply lstrip_all_space.
  - intros ->. reflexivity.
Qed.

Lemma checked_top_k_default (cfg : Config) (top_k : JSON) :
  Py.isinstance_int top_k = false
  \/ (Py.int_value top_k < 1)%Z
  \/ (MAX_TOP_K cfg < Py.int_value top_k)%Z ->
  checked_top_k cfg top_k = JInt (DEFAULT_TOP_K cfg).
Proof.
  unfold checked_top_k. intros [H|[H|H]].
  - rewrite H. reflexivity.
  - apply Z.ltb_lt in H. rewrite H, orb_true_r. reflexivity.
  - apply Z.gtb_lt in H. rewrite H, orb_true_r. reflexivity.
Qed.

Lemma checked_top_k_unchanged (cfg : Config) (top_k : JSON) :
  Py.isinstance_int top_k = true ->
  (1 <= Py.int_value top_k <= MAX_TOP_K cfg)%Z ->
  checked_top_k cfg top_k = top_k.
Proof.
  unfold checked_top_k. intros -> [H1 H2].
  destruct (Py.int_value top_k <? 1)%Z eqn:E1; [apply Z.ltb_lt in E1; lia|].
  destruct (Py.int_value top_k >? MAX_TOP_K cfg)%Z eqn:E2;
    [apply Z.gtb_lt in E2; lia|].
  reflexivity.
Qed.

End TopK.

(** C7. A request that reaches a ready predictor with some text is
    answered 200, whatever it supplies as [top_k]: the value handed to
    [predict] and echoed is the configured default when the supplied
    one is absent, is not an [int], or lies outside [1, MAX_TOP_K], and
    the supplied value unchanged otherwise; 0, -5 and [MAX_TOP_K + 1]
    fall back to the default. The 200 is that of a [predict] that
    returns: the sort meets the contract of numpy, the encoder answers
    the query and [cosine_similarity] returns on the arrays at hand. *)
Theorem top_k_falls_back_to_default
    (argsort : list float -> list nat)
    (cosine_similarity : ndarray -> ndarray -> Outcome ndarray)
    (cfg : Config) (p : DrugPredictor)
    (items : list (string * JSON)) (keluhan anamnesa : string) :
  is_argsort argsort ->
  (forall m e, model p = Some m -> drug_embeddings p = Some e ->
     similarity_shape cosine_similarity m e) ->
  observable p -> status_of p = completed ->
  (forall m q, model p = Some m -> exists v, encode m [q] = Return v) ->
  Py.get items "keluhan" (JStr "") = JStr keluhan ->
  Py.get items "anamnesa" (JStr "") = JStr anamnesa ->
  PyStr.strip keluhan <> "" \/ PyStr.strip anamnesa <> "" ->
  let supplied := Py.get items "top_k" (JInt (DEFAULT_TOP_K cfg)) in
  (exists predictions,
     predict_route argsort cosine_similarity cfg p (JDict items)
     = {| payload :=
            success_payload (PyStr.strip keluhan) (PyStr.strip anamnesa)
              (checked_top_k cfg supplied)
              predictions (List.length predictions);
          code := 200 |}
     /\ predict argsort cosine_similarity p
          (PyStr.strip keluhan) (PyStr.strip anamnesa)
          (Py.int_value (checked_top_k cfg supplied))
        = Return predictions)
  /\ (Py.isinstance_int supplied = false
      \/ (Py.int_value supplied < 1)%Z
      \/ (MAX_TOP_K cfg < Py.int_value supplied)%Z ->
      checked_top_k cfg supplied = JInt (DEFAULT_TOP_K cfg))
  /\ (Py.isinstance_int supplied = true ->
      (1 <= Py.int_value supplied <= MAX_TOP_K cfg)%Z ->
      checked_top_k cfg supplied = supplied)
  /\ checked_top_k cfg (JInt 0) = JInt (DEFAULT_TOP_K cfg)
  /\ checked_top_k cfg (JInt (-5)) = JInt (DEFAULT_TOP_K cfg)
  /\ checked_top_k cfg (JInt (MAX_TOP_K cfg + 1)) = JInt (DEFAULT_TOP_K cfg).
Proof.
  intros Hsort Hshape Hobs Hc Henc Hk Ha Htext. cbv zeta.
  split; [|split; [apply checked_top_k_default|
           split; [apply checked_top_k_unchanged|]]].
  - assert (Hq : PyStr.strip (PyStr.strip keluhan ++ " "
                              ++ PyStr.strip anamnesa) <> "").
    { rewrite query_empty, !strip_strip_empty. tauto. }
    destruct (predict_returns argsort Hsort cosine_similarity p
                (PyStr.strip keluhan) (PyStr.strip anamnesa)
                (Py.int_value
                   (checked_top_k cfg
                      (Py.get items "top_k" (JInt (DEFAULT_TOP_K cfg)))))
                (observable_ready_ok p Hobs Hc) Hc Henc Hshape Hq)
      as [predictions Hp].
    exists predictions. split; [|exact Hp].
    unfold predict_route, not_ready_response, is_ready.
    rewrite Hc. cbn [Status_eqb negb].
    destruct items as [|item items'].
    { simpl in Hk, Ha. injection Hk as <-. injection Ha as <-.
      destruct Htext as [H|H]; exfalso; apply H; reflexivity. }
    cbn [Py.truthy negb]. rewrite Hk, Ha. cbn [Py.strip].
    destruct (PyStr.truthy (PyStr.strip keluhan)) eqn:Ek,
             (PyStr.truthy (PyStr.strip anamnesa)) eqn:Ea;
      cbn [negb andb]; try (rewrite Hp; reflexivity).
    apply truthy_false in Ek, Ea. tauto.
  - repeat split; apply checked_top_k_default; simpl; lia.
Qed.

Lemma top_k_falls_back_to_default_witness :
  exists predictions,
    predict_route np.argsort_stable abc_similarity default_config
      abc_predictor
      (JDict [("keluhan", JStr "fever"); ("top_k", JInt 0)])
    = {| payload :=
           success_payload "fever" "" (JInt 5)
             predictions (List.length predictions);
         code := 200 |}
    /\ List.length predictions = 3%nat.
Proof.
  assert (Hc : status_of abc_predictor = completed)
    by (vm_compute; reflexivity).
  assert (Htext : PyStr.strip "fever" <> "" \/ PyStr.strip "" <> "")
    by (left; vm_compute; discriminate).
  pose proof (top_k_falls_back_to_default np.argsort_stable abc_similarity
                default_config abc_predictor
                [("keluhan", JStr "fever"); ("top_k", JInt 0)]
                "fever" "" argsort_stable_is_argsort abc_similarity_shape
                (obs_between _ abc_predictor_reachable) Hc
                abc_encoder_answers eq_refl eq_refl Htext) as H.
  cbv zeta in H. destruct H as ((predictions & Hr & Hp) & _).
  exists predictions. split; [exact Hr|].
  assert (E : predict np.argsort_stable abc_similarity abc_predictor
                "fever" "" 5
              = Return predictions) by exact Hp.
  vm_compute in E. injection E as <-. reflexivity.
Defined.

(** [bool] is an [int] to [isinstance]: a JSON [true] passes the check
    as 1, a JSON [false] falls back as 0 does. *)
Lemma checked_top_k_bool (cfg : Config) :
  (1 <= MAX_TOP_K cfg)%Z ->
  checked_top_k cfg (JBool true) = JBool true
  /\ checked_top_k cfg (JBool false) = JInt (DEFAULT_TOP_K cfg).
Proof.
  intros H. split.
  - apply checked_top_k_unchanged; simpl; [reflexivity | lia].
  - apply checked_top_k_default. right. left. simpl. lia.
Qed.

(** ** One build at a time *)

Section Exclusion.

Lemma nth_error_replace_nth {A} (i j : nat) (x : A) (l : list A) :
  nth_error (pd.replace_nth i x l) j
  = if (i =? j)%nat
    then match nth_error l j with Some _ => Some x | None => None end
    else nth_error l j.
Proof.
  revert i j. induction l as [|a l IH]; intros [|i] [|j]; simpl;
    try reflexivity.
  - destruct (i =? j)%nat; reflexivity.
  - apply IH.
Qed.

(** Thread [i] is inside the body of [_initialize_sync]. *)
Definition running (sys : System) (i : nat) : Prop :=
  exists pending result made,
    nth_error (threads sys) i = Some (Running pending result made).

(** The threads inside the body are the holder of the lock. *)
Definition exclusive (sys : System) : Prop :=
  forall i, running sys i <-> _lock sys = Some i.

Lemma running_app_Waiting (l : list Thread) (w : World) (i : nat) p r m :
  nth_error (l ++ [Waiting w]) i = Some (Running p r m)
  <-> nth_error l i = Some (Running p r m).
Proof.
  destruct (Nat.lt_ge_cases i (List.length l)) as [H|H].
  - now rewrite nth_error_app1.
  - rewrite nth_error_app2 by exact H.
    assert (N : nth_error l i = None) by now apply nth_error_None.
    rewrite N. destruct (i - List.length l)%nat as [|[|k]]; simpl;
      split; discriminate.
Qed.

Lemma exclusive_start (cfg : Config) : exclusive (start cfg).
Proof.
  intros i. unfold running. simpl. split.
  - intros (p & r & m & H). destruct i; discriminate.
  - discriminate.
Qed.

Lemma exclusive_initialize (b : bool) (w : World) (sys : System) :
  exclusive sys -> exclusive (snd (initialize b w sys)).
Proof.
  intros He i. specialize (He i). unfold initialize, running in *.
  destruct b; [destruct (thread_is_alive sys)|]; simpl; try exact He;
    rewrite <- He; split; intros (p & r & m & H); exists p, r, m;
    now apply running_app_Waiting in H || apply running_app_Waiting.
Qed.

Lemma exclusive_thread_step (i : nat) (sys sys' : System) :
  exclusive sys -> thread_step i sys = Some sys' -> exclusive sys'.
Proof.
  intros He Hs. unfold thread_step in Hs.
  destruct (nth_error (threads sys) i) as [[w|[|s rest] result made|r]|]
    eqn:Ei; try discriminate.
  - (* the lock is taken *)
    destruct (_lock sys) eqn:El; [discriminate|].
    injection Hs as <-. intros j. unfold running. simpl.
    rewrite nth_error_replace_nth.
    destruct (i =? j)%nat eqn:Eij.
    + apply Nat.eqb_eq in Eij. subst j. rewrite Ei.
      split; [reflexivity | eauto].
    + apply Nat.eqb_neq in Eij. split.
      * intros H. apply He in H. congruence.
      * intros [= H]. contradiction.
  - (* the lock is released *)
    injection Hs as <-. intros j. unfold running. simpl.
    rewrite nth_error_replace_nth.
    assert (Hi : _lock sys = Some i) by (apply He; red; eauto).
    destruct (i =? j)%nat eqn:Eij.
    + apply Nat.eqb_eq in Eij. subst j. rewrite Ei.
      split; [intros (p & r & m & H) |]; discriminate.
    + apply Nat.eqb_neq in Eij. split; [|discriminate].
      intros H. apply He in H. congruence.
  - (* one write *)
    injection Hs as <-. intros j. unfold running. simpl.
    rewrite nth_error_replace_nth.
    assert (Hi : _lock sys = Some i) by (apply He; red; eauto).
    destruct (i =? j)%nat eqn:Eij.
    + apply Nat.eqb_eq in Eij. subst j. rewrite Ei, Hi.
      split; [reflexivity | eauto].
    + apply He.
Qed.

Lemma exclusive_act (a : Action) (sys : System) :
  exclusive sys -> exclusive (act a sys).
Proof.
  intros He. destruct a as [b w|i]; simpl.
  - now apply exclusive_initialize.
  - destruct (thread_step i sys) eqn:E; [|exact He].
    eapply exclusive_thread_step; eauto.
Qed.

Lemma exclusive_run_actions (acts : list Action) (sys : System) :
  exclusive sys -> exclusive (run_actions acts sys).
Proof.
  revert sys. induction acts as [|a acts IH]; intros sys He; simpl;
    [exact He|].
  apply IH. now apply exclusive_act.
Qed.

(** Only the holder of the lock writes. *)
Lemma writes_under_lock (a : Action) (sys : System) :
  exclusive sys -> predictor (act a sys) <> predictor sys ->
  exists i, a = do_step i /\ _lock sys = Some i.
Proof.
  intros He Hne. destruct a as [b w|i]; simpl in Hne.
  - exfalso. apply Hne. unfold initialize.
    destruct b; [destruct (thread_is_alive sys)|]; reflexivity.
  - exists i. split; [reflexivity|]. unfold thread_step in Hne.
    destruct (nth_error (threads sys) i) as [[w|[|s rest] result made|r]|]
      eqn:Ei; try (exfalso; apply Hne; reflexivity).
    + destruct (_lock sys); exfalso; apply Hne; reflexivity.
    + apply He. red. eauto.
Qed.

(** A second [initialize(background=True)] while the thread is alive
    starts nothing. *)
Lemma initialize_background_alive (w : World) (sys : System) :
  thread_is_alive sys = true -> initialize true w sys = (Some true, sys).
Proof. intros H. unfold initialize. now rewrite H. Qed.

Lemma initialize_background_spawns (w : World) (sys : System) :
  thread_is_alive (snd (initialize true w sys)) = true.
Proof.
  unfold initialize. destruct (thread_is_alive sys) eqn:E; [exact E|].
  unfold thread_is_alive. simpl.
  rewrite nth_error_app2 by lia. now rewrite Nat.sub_diag.
Qed.

End Exclusion.

(** ** What a reader can find

    The predictor of a process is always in a state that [observable]
    describes: between two runs, or among the states one run writes. *)

Section Refinement.

Definition ok_action (a : Action) : Prop :=
  match a with
  | do_initialize _ w => world_ok w
  | do_step _ => True
  end.

Definition refines (sys : System) : Prop :=
  (forall i w, nth_error (threads sys) i = Some (Waiting w) -> world_ok w)
  /\ match _lock sys with
     | None => reachable (predictor sys)
     | Some i =>
         exists pending result made p0 w done,
           nth_error (threads sys) i = Some (Running pending result made)
           /\ reachable p0 /\ world_ok w
           /\ rev (seen (snd (run (_initialize_sync w) p0)))
              = (done ++ pending)%list
           /\ predictor sys = last done p0
     end.

Lemma last_rev {A} (l : list A) (d : A) : last (rev l) d = hd d l.
Proof.
  destruct l as [|a l]; [reflexivity|]. simpl. apply last_last.
Qed.

Lemma last_In {A} (l : list A) (d : A) : l <> [] -> In (last l d) l.
Proof.
  induction l as [|a [|b l] IH]; intros H; [congruence | now left |].
  right. apply IH. discriminate.
Qed.

Lemma _initialize_sync_self (w : World) (p : DrugPredictor) :
  self (snd (run (_initialize_sync w) p))
  = hd p (seen (snd (run (_initialize_sync w) p))).
Proof.
  now destruct (wpi_run _ _ _ _ (_initialize_sync_returns w p))
    as (_ & H & _).
Qed.

Lemma refines_start (cfg : Config) : refines (start cfg).
Proof.
  split; simpl.
  - intros [|i] w H; discriminate.
  - apply reach_init.
Qed.

Lemma refines_observable (sys : System) :
  refines sys -> observable (predictor sys).
Proof.
  intros (_ & H). destruct (_lock sys) as [i|].
  - destruct H as (pending & result & made & p0 & w & done
                   & _ & Hr & Hw & Hs & Hp).
    rewrite Hp. destruct done as [|d done].
    + now apply obs_between.
    + apply (obs_during w p0); auto. apply in_rev. rewrite Hs.
      apply in_or_app. left. apply last_In. discriminate.
  - now apply obs_between.
Qed.

Lemma refines_act (a : Action) (sys : System) :
  ok_action a -> exclusive sys -> refines sys -> refines (act a sys).
Proof.
  intros Ha He (Hw & Hl). destruct a as [b w|i]; simpl.
  - (* a call of initialize *)
    assert (Hw' : forall j w',
              nth_error (threads sys ++ [Waiting w]) j = Some (Waiting w') ->
              world_ok w').
    { intros j w' H.
      destruct (Nat.lt_ge_cases j (List.length (threads sys))) as [Hj|Hj].
      - rewrite nth_error_app1 in H by exact Hj. eauto.
      - rewrite nth_error_app2 in H by exact Hj.
        destruct (j - List.length (threads sys))%nat as [|[|k]];
          try discriminate.
        injection H as <-. exact Ha. }
    assert (Hl' : match _lock sys with
                  | None => reachable (predictor sys)
                  | Some i =>
                      exists pending result made p0 w0 done,
                        nth_error (threads sys ++ [Waiting w]) i
                        = Some (Running pending result made)
                        /\ reachable p0 /\ world_ok w0
                        /\ rev (seen (snd (run (_initialize_sync w0) p0)))
                           = (done ++ pending)%list
                        /\ predictor sys = last done p0
                  end).
    { destruct (_lock sys) as [i|]; [|exact Hl].
      destruct Hl as (pending & result & made & p0 & w0 & done
                      & Hi & Hrest).
      exists pending, result, made, p0, w0, done. split; [|exact Hrest].
      now apply running_app_Waiting. }
    unfold initialize.
    destruct b; [destruct (thread_is_alive sys)|]; simpl;
      split; auto.
  - (* a step of thread i *)
    unfold thread_step.
    destruct (nth_error (threads sys) i) as [[w|[|s rest] result made|r]|]
      eqn:Ei; try (split; assumption).
    + (* the lock is taken *)
      destruct (_lock sys) eqn:El; [split; [assumption | now rewrite El]|].
      split; simpl.
      * intros j w' H. rewrite nth_error_replace_nth in H.
        destruct (i =? j)%nat; [|eauto].
        destruct (nth_error (threads sys) j); discriminate.
      * exists (rev (seen (snd (run (_initialize_sync w) (predictor sys))))),
          (fst (run (_initialize_sync w) (predictor sys))),
          (calls (snd (run (_initialize_sync w) (predictor sys)))),
          (predictor sys), w, [].
        rewrite nth_error_replace_nth, Nat.eqb_refl, Ei.
        repeat split; eauto.
    + (* the lock is released *)
      assert (Hi : _lock sys = Some i) by (apply He; red; eauto).
      rewrite Hi in Hl.
      destruct Hl as (pending & result' & made' & p0 & w0 & done
                      & Hi' & Hr & Hw0 & Hs & Hp).
      rewrite Ei in Hi'. injection Hi' as <- <- <-.
      rewrite app_nil_r in Hs.
      split; simpl.
      * intros j w' H. rewrite nth_error_replace_nth in H.
        destruct (i =? j)%nat; [|eauto].
        destruct (nth_error (threads sys) j); discriminate.
      * rewrite Hp, <- Hs, last_rev, <- _initialize_sync_self.
        now apply reach_build.
    + (* one write *)
      assert (Hi : _lock sys = Some i) by (apply He; red; eauto).
      rewrite Hi in Hl.
      destruct Hl as (pending & result' & made' & p0 & w0 & done
                      & Hi' & Hr & Hw0 & Hs & Hp).
      rewrite Ei in Hi'. injection Hi' as <- <- <-.
      split; simpl.
      * intros j w' H. rewrite nth_error_replace_nth in H.
        destruct (i =? j)%nat; [|eauto].
        destruct (nth_error (threads sys) j); discriminate.
      * rewrite Hi.
        exists rest, result, made, p0, w0, (done ++ [s])%list.
        rewrite nth_error_replace_nth, Nat.eqb_refl, Ei.
        rewrite <- app_assoc. repeat split; auto. now rewrite last_last.
Qed.

Lemma refines_run_actions (acts : list Action) (sys : System) :
  Forall ok_action acts -> exclusive sys -> refines sys ->
  refines (run_actions acts sys).
Proof.
  intros Hacts. revert sys.
  induction Hacts as [|a acts Ha Hacts IH]; intros sys He Hr; simpl;
    [exact Hr|].
  apply IH; [now apply exclusive_act | now apply refines_act].
Qed.

(** Whatever the process has done, its predictor is in an observable
    state. *)
Lemma process_observable (cfg : Config) (acts : list Action) :
  Forall ok_action acts ->
  observable (predictor (run_actions acts (start cfg))).
Proof.
  intros H. apply refines_observable, refines_run_actions; auto.
  - apply exclusive_start.
  - apply refines_start.
Qed.

End Refinement.

(** ** C4 *)

(** C4. Whatever calls of [initialize] a process has seen and however
    their threads have interleaved, whenever the status reads
    [completed], in the middle of a run included, the catalog and the
    array of embeddings are there and have the same length: a [predict]
    that got past the status check finds one vector per record. The
    encoder is assumed to return one vector per text. *)
Theorem completed_index_consistent (cfg : Config) (acts : list Action) :
  Forall ok_action acts ->
  let p := predictor (run_actions acts (start cfg)) in
  status_of p = completed ->
  exists df e,
    df_drugs p = Some df /\ drug_embeddings p = Some e
    /\ pd.len df = List.length e.
Proof.
  intros Hacts p Hc.
  apply observable_index_consistent; [|exact Hc].
  now apply process_observable.
Qed.

Lemma completed_index_consistent_witness :
  exists df e,
    df_drugs (predictor abc_system) = Some df
    /\ drug_embeddings (predictor abc_system) = Some e
    /\ pd.len df = List.length e.
Proof.
  unfold abc_system.
  assert (Hacts : Forall ok_action
                    (do_initialize true abc_world :: repeat (do_step 0) 25)).
  { constructor; [exact abc_world_ok|].
    apply Forall_forall. intros a Ha. apply repeat_spec in Ha. now subst a. }
  assert (Hc : status_of
                 (predictor
                    (run_actions
                       (do_initialize true abc_world
                        :: repeat (do_step 0) 25)
                       (start default_config))) = completed)
    by (vm_compute; reflexivity).
  pose proof (completed_index_consistent default_config
                (do_initialize true abc_world :: repeat (do_step 0) 25)
                Hacts) as H.
  cbv zeta in H. exact (H Hc).
Defined.

(** ** C8 *)

(** C8, as the code has it. In every state the process can reach, the
    threads inside the body of [_initialize_sync] are exactly the holder
    of [self._lock], so at most one build runs at a time; only the
    holder of the lock writes the predictor; a second
    [initialize(background=True)] while the thread is alive starts no
    thread, and two such calls in a row start one. (Readers take no
    lock: see the counterexample.) *)
Theorem one_build_at_a_time (cfg : Config) (acts : list Action) :
  let sys := run_actions acts (start cfg) in
  (forall i j, running sys i -> running sys j -> i = j)
  /\ (forall i, running sys i <-> _lock sys = Some i)
  /\ (forall a, predictor (act a sys) <> predictor sys ->
        exists i, a = do_step i /\ _lock sys = Some i)
  /\ (forall w, thread_is_alive sys = true ->
        initialize true w sys = (Some true, sys))
  /\ (forall w1 w2,
        threads (run_actions [do_initialize true w1; do_initialize true w2]
                   (start cfg))
        = [Waiting w1]).
Proof.
  cbv zeta.
  pose proof (exclusive_run_actions acts _ (exclusive_start cfg)) as He.
  split; [|split; [exact He|split; [|split]]].
  - intros i j Hi Hj. apply He in Hi, Hj. congruence.
  - intros a. now apply writes_under_lock.
  - intros w. apply initialize_background_alive.
  - reflexivity.
Qed.

Lemma one_build_at_a_time_witness :
  let sys :=
    run_actions [do_initialize true abc_world; do_step 0; do_step 0]
      (start default_config) in
  _lock sys = Some 0%nat
  /\ initialize true no_model_world sys = (Some true, sys).
Proof.
  pose proof (one_build_at_a_time default_config
                [do_initialize true abc_world; do_step 0; do_step 0]) as H.
  cbv zeta in H. cbv zeta. destruct H as (_ & Hlock & _ & Halive & _).
  assert (Ha : thread_is_alive
                 (run_actions
                    [do_initialize true abc_world; do_step 0; do_step 0]
                    (start default_config)) = true)
    by (vm_compute; reflexivity).
  assert (Hr : running
                 (run_actions
                    [do_initialize true abc_world; do_step 0; do_step 0]
                    (start default_config)) 0).
  { red. vm_compute. eauto. }
  split.
  - exact (proj1 (Hlock 0%nat) Hr).
  - exact (Halive no_model_world Ha).
Defined.

(** C8 as stated fails: [get_status] takes no lock. After a failed run
    and the first write of the next one, thread 1 holds the lock and a
    caller of [get_status] is handed a status of [in_progress] together
    with the error and the end time of the run before. *)
Lemma get_status_reads_without_lock_counterexample :
  let report := get_status 2%Q (predictor failed_then_retrying) in
  _lock failed_then_retrying = Some 1%nat
  /\ r_status report = in_progress
  /\ r_error report = Some "Initialization failed: model not found"
  /\ r_end_time report = Some 1%Q.
Proof. vm_compute. repeat split; reflexivity. Qed.

(** ** C6 *)

Section Idempotence.

Lemma nth_error_app_Waiting (l : list Thread) (w : World) (i : nat)
    (t : Thread) :
  (forall w', t <> Waiting w') ->
  nth_error (l ++ [Waiting w]) i = Some t <-> nth_error l i = Some t.
Proof.
  intros Ht. destruct (Nat.lt_ge_cases i (List.length l)) as [H|H].
  - now rewrite nth_error_app1.
  - rewrite nth_error_app2 by exact H.
    assert (N : nth_error l i = None) by now apply nth_error_None.
    rewrite N. destruct (i - List.length l)%nat as [|[|k]]; simpl;
      split; try discriminate.
    intros [= <-]. now destruct (Ht w).
Qed.

Variable sys0 : System.
Hypothesis Hcompleted : status_of (predictor sys0) = completed.

(** What holds from a completed predictor on: nothing is written or
    logged, a thread inside the body has nothing to write, and a thread
    that finishes returns [True]. *)
Definition settled (sys : System) : Prop :=
  predictor sys = predictor sys0
  /\ log sys = log sys0
  /\ (forall i pending result made,
        nth_error (threads sys) i = Some (Running pending result made) ->
        pending = [] /\ result = Return true /\ made = [])
  /\ (forall i o,
        nth_error (threads sys) i = Some (Finished o) ->
        nth_error (threads sys0) i = Some (Finished o) \/ o = Return true).

Lemma settled_initialize (b : bool) (w : World) (sys : System) :
  settled sys -> settled (snd (initialize b w sys)).
Proof.
  intros (Hp & Hl & Hr & Hf). unfold initialize.
  destruct b; [destruct (thread_is_alive sys)|]; simpl;
    (split; [exact Hp | split; [exact Hl | split]]); auto; simpl.
  all: try (intros i pending result made H;
            apply nth_error_app_Waiting in H; [|discriminate];
            now apply (Hr i)).
  all: intros i o H; apply nth_error_app_Waiting in H; [|discriminate];
    now apply Hf.
Qed.

Lemma settled_thread_step (i : nat) (sys sys' : System) :
  settled sys -> thread_step i sys = Some sys' -> settled sys'.
Proof.
  intros (Hp & Hl & Hr & Hf) Hs. unfold thread_step in Hs.
  destruct (nth_error (threads sys) i) as [[w|[|s rest] result made|r]|]
    eqn:Ei; try discriminate.
  - (* the lock is taken: the body has nothing to do *)
    destruct (_lock sys); [discriminate|]. injection Hs as <-.
    unfold run. rewrite _initialize_sync_completed
      by (simpl; rewrite Hp; exact Hcompleted).
    split; [exact Hp | split; [exact Hl | split]]; simpl.
    + intros j pending result made H.
      rewrite nth_error_replace_nth in H.
      destruct (i =? j)%nat; [|now apply (Hr j)].
      destruct (nth_error (threads sys) j); [|discriminate].
      injection H as <- <- <-. auto.
    + intros j o H. rewrite nth_error_replace_nth in H.
      destruct (i =? j)%nat; [|now apply Hf].
      destruct (nth_error (threads sys) j); discriminate.
  - (* the lock is released *)
    destruct (Hr i _ _ _ Ei) as (_ & -> & ->). injection Hs as <-.
    split; [exact Hp | split; [exact Hl | split]]; simpl.
    + intros j pending result made H.
      rewrite nth_error_replace_nth in H.
      destruct (i =? j)%nat; [|now apply (Hr j)].
      destruct (nth_error (threads sys) j); discriminate.
    + intros j o H. rewrite nth_error_replace_nth in H.
      destruct (i =? j)%nat; [|now apply Hf].
      destruct (nth_error (threads sys) j); [|discriminate].
      injection H as <-. now right.
  - (* a write: there is none to make *)
    destruct (Hr i _ _ _ Ei) as (H & _). discriminate.
Qed.

Lemma settled_run_actions (acts : list Action) (sys : System) :
  settled sys -> settled (run_actions acts sys).
Proof.
  revert sys. induction acts as [|a acts IH]; intros sys Hs; simpl;
    [exact Hs|].
  apply IH. destruct a as [b w|i]; simpl.
  - now apply settled_initialize.
  - destruct (thread_step i sys) eqn:E; [|exact Hs].
    eapply settled_thread_step; eauto.
Qed.

End Idempotence.

(** C6. Once the status is [completed] and the run that completed it
    has returned, whatever calls of [initialize] follow, in the
    foreground or in the background, and however their threads
    interleave: the predictor does not change, no external call is
    made, every run that finishes returns [True],
    [initialize(background=True)] returns [True], and the body of
    [_initialize_sync] returns [True] with no write and no call. The
    status stays [completed]. *)
Theorem initialize_after_completed_is_noop
    (sys : System) (acts : list Action) :
  status_of (predictor sys) = completed ->
  (forall i, ~ running sys i) ->
  let sys' := run_actions acts sys in
  predictor sys' = predictor sys
  /\ status_of (predictor sys') = completed
  /\ log sys' = log sys
  /\ (forall i o,
        nth_error (threads sys') i = Some (Finished o) ->
        nth_error (threads sys) i = Some (Finished o) \/ o = Return true)
  /\ (forall w, fst (initialize true w sys') = Some true)
  /\ (forall w l cs,
        _initialize_sync w (mkMem (predictor sys') l cs)
        = (Return true, mkMem (predictor sys') l cs)).
Proof.
  intros Hc Hq. cbv zeta.
  assert (Hs : settled sys sys).
  { split; [reflexivity | split; [reflexivity | split]].
    - intros i pending result made H. exfalso. apply (Hq i). red. eauto.
    - intros i o H. now left. }
  destruct (settled_run_actions sys Hc acts sys Hs) as (Hp & Hl & Hr & Hf).
  split; [exact Hp | split; [now rewrite Hp | split; [exact Hl|]]].
  split; [exact Hf | split].
  - intros w. unfold initialize.
    now destruct (thread_is_alive (run_actions acts sys)).
  - intros w l cs. apply _initialize_sync_completed. simpl.
    now rewrite Hp.
Qed.

Lemma initialize_after_completed_is_noop_witness :
  let sys' :=
    run_actions
      [do_initialize true failing_encoder_world; do_step 1; do_step 1;
       do_initialize false no_model_world; do_step 2; do_step 2]
      abc_system in
  predictor sys' = predictor abc_system
  /\ status_of (predictor sys') = completed
  /\ log sys' = log abc_system.
Proof.
  assert (Hc : status_of (predictor abc_system) = completed)
    by (vm_compute; reflexivity).
  assert (Ht : threads abc_system = [Finished (Return true)])
    by (vm_compute; reflexivity).
  assert (Hq : forall i, ~ running abc_system i).
  { intros i (p & r & m & H). rewrite Ht in H.
    destruct i as [|[|i]]; discriminate. }
  pose proof (initialize_after_completed_is_noop abc_system
                [do_initialize true failing_encoder_world;
                 do_step 1; do_step 1;
                 do_initialize false no_model_world; do_step 2; do_step 2]
                Hc Hq) as H.
  cbv zeta in H. cbv zeta. destruct H as (Hp & Hs & Hl & _).
  split; [exact Hp | split; [exact Hs | exact Hl]].
Defined.

(** ** C9 *)

Section Waiting.

Variable w : World.
Variables timeout start_time : Q.

Lemma time_sleep_ge (seconds : Q) (nap : Nap) :
  (seconds <= time_sleep seconds nap)%Q.
Proof. apply Q.le_max_l. Qed.

(** What the loop returns. *)
Lemma wait_loop_sound (naps : list Nap) (now : Q) (sys : System) :
  match wait_loop naps w timeout start_time now sys with
  | Some (true, t, sys') =>
      status_of (predictor sys') = completed
      /\ (t - start_time < timeout)%Q
  | Some (false, t, sys') =>
      (status_of (predictor sys') = failed /\ (t - start_time < timeout)%Q)
      \/ (timeout <= t - start_time)%Q
  | None =>
      (inject_Z (Z.of_nat (List.length naps))
       < timeout - (now - start_time))%Q
  end.
Proof.
  revert now sys.
  induction naps as [|nap naps IH]; intros now sys; cbn [wait_loop].
  - destruct (Qlt_le_dec (now - start_time) timeout) as [Hlt|Hge];
      [|right; exact Hge].
    destruct (status_of (predictor sys)) eqn:Es.
    + change (inject_Z (Z.of_nat (List.length (@nil Nap)))) with 0%Q. lra.
    + change (inject_Z (Z.of_nat (List.length (@nil Nap)))) with 0%Q. lra.
    + split; [exact Es | exact Hlt].
    + left. split; [exact Es | exact Hlt].
  - destruct (Qlt_le_dec (now - start_time) timeout) as [Hlt|Hge];
      [|right; exact Hge].
    assert (Hn : (inject_Z (Z.of_nat (List.length (nap :: naps)))
                  == inject_Z (Z.of_nat (List.length naps)) + 1)%Q).
    { cbn [List.length]. rewrite Nat2Z.inj_succ. unfold Z.succ.
      now rewrite inject_Z_plus. }
    pose proof (time_sleep_ge 1 nap) as Hs.
    destruct (status_of (predictor sys)) eqn:Es.
    + specialize (IH (now + time_sleep 1 nap)%Q
                    (run_actions (meanwhile nap)
                       (snd (initialize true w sys)))).
      destruct (wait_loop naps w timeout start_time _ _)
        as [[[[] t] sys']|]; auto. lra.
    + specialize (IH (now + time_sleep 1 nap)%Q
                    (run_actions (meanwhile nap) sys)).
      destruct (wait_loop naps w timeout start_time _ _)
        as [[[[] t] sys']|]; auto. lra.
    + split; [exact Es | exact Hlt].
    + left. split; [exact Es | exact Hlt].
Qed.

(** The loop ends within the sleeps that cover the timeout. *)
Lemma wait_loop_returns (naps : list Nap) (now : Q) (sys : System) :
  (timeout - (now - start_time)
   <= inject_Z (Z.of_nat (List.length naps)))%Q ->
  exists b t sys',
    wait_loop naps w timeout start_time now sys = Some (b, t, sys').
Proof.
  intros H. pose proof (wait_loop_sound naps now sys) as Hs.
  destruct (wait_loop naps w timeout start_time now sys)
    as [[[b t] sys']|]; [eauto | lra].
Qed.

End Waiting.

(** C9. [wait_for_initialization] tests the clock, reads the status,
    and sleeps one second between two polls. A poll made in time
    returns [True] on [completed] and [False] on [failed]; on
    [not_started] it calls [initialize(background=True)], after which
    a build thread is alive, and on [in_progress] it does nothing,
    and either way it sleeps and polls again; a test made at or after
    the timeout returns [False]. So [True] is returned only with the
    status [completed], [False] only with the status [failed] or the
    timeout elapsed, and the loop ends within as many sleeps as cover
    the timeout. On a process that never called [initialize], with a
    world in which the build succeeds, it returns [True]. *)
Theorem wait_for_initialization_polls
    (naps : list Nap) (nap : Nap) (w : World)
    (timeout start_time now : Q) (sys : System) :
  let loop := fun naps now sys =>
                wait_loop naps w timeout start_time now sys in
  (* the loop body *)
  ((now - start_time < timeout)%Q ->
     (status_of (predictor sys) = completed ->
      loop naps now sys = Some (true, now, sys))
     /\ (status_of (predictor sys) = failed ->
         loop naps now sys = Some (false, now, sys))
     /\ (status_of (predictor sys) = not_started ->
         loop (nap :: naps) now sys
         = loop naps (now + time_sleep 1 nap)%Q
             (run_actions (meanwhile nap) (snd (initialize true w sys))))
     /\ (status_of (predictor sys) = in_progress ->
         loop (nap :: naps) now sys
         = loop naps (now + time_sleep 1 nap)%Q
             (run_actions (meanwhile nap) sys)))
  /\ ((timeout <= now - start_time)%Q ->
      loop naps now sys = Some (false, now, sys))
  (* a sleep lasts a second at least, and the build is started *)
  /\ (1 <= time_sleep 1 nap)%Q
  /\ thread_is_alive (snd (initialize true w sys)) = true
  /\ fst (initialize true w sys) = Some true
  (* what is returned *)
  /\ match loop naps now sys with
     | Some (true, t, sys') =>
         status_of (predictor sys') = completed
         /\ (t - start_time < timeout)%Q
     | Some (false, t, sys') =>
         (status_of (predictor sys') = failed
          /\ (t - start_time < timeout)%Q)
         \/ (timeout <= t - start_time)%Q
     | None =>
         (inject_Z (Z.of_nat (List.length naps))
          < timeout - (now - start_time))%Q
     end
  (* waiting on a process that has not started a build *)
  /\ (let every_second :=
        {| elapsed := 1; meanwhile := repeat (do_step 0) 5 |} in
      option_map (fun r => (fst (fst r), status_of (predictor (snd r))))
        (wait_for_initialization None (repeat every_second 10)
           abc_world 100%Q (start default_config))
      = Some (true, completed)
      /\ option_map (fun r => (fst (fst r), status_of (predictor (snd r))))
           (wait_for_initialization None (repeat every_second 10)
              no_model_world 100%Q (start default_config))
         = Some (false, failed)
      /\ option_map (fun r => (fst r, status_of (predictor (snd r))))
           (wait_for_initialization (Some 3%Q) (repeat every_second 10)
              abc_world 100%Q (start default_config))
         = Some (false, 103%Q, in_progress)).
Proof.
  cbv zeta.
  split; [|split; [|split; [|split; [|split; [|split]]]]].
  - intros Hlt.
    assert (Hb : forall naps',
              wait_loop naps' w timeout start_time now sys
              = match status_of (predictor sys) with
                | completed => Some (true, now, sys)
                | failed => Some (false, now, sys)
                | st =>
                    match naps' with
                    | [] => None
                    | nap' :: naps'' =>
                        wait_loop naps'' w timeout start_time
                          (now + time_sleep 1 nap')%Q
                          (run_actions (meanwhile nap')
                             match st with
                             | not_started => snd (initialize true w sys)
                             | _ => sys
                             end)
                    end
                end).
    { intros naps'. destruct naps'; cbn [wait_loop];
        (destruct (Qlt_le_dec (now - start_time) timeout); [|lra]);
        destruct (status_of (predictor sys)); reflexivity. }
    split; [|split; [|split]]; intros Hs; rewrite Hb, Hs; reflexivity.
  - intros Hge. destruct naps; cbn [wait_loop];
      (destruct (Qlt_le_dec (now - start_time) timeout); [lra|]);
      reflexivity.
  - apply time_sleep_ge.
  - apply initialize_background_spawns.
  - unfold initialize. now destruct (thread_is_alive sys).
  - apply wait_loop_sound.
  - vm_compute. repeat split; reflexivity.
Qed.

Lemma wait_for_initialization_polls_witness :
  wait_loop [] abc_world 5%Q 0%Q 0%Q abc_system
  = Some (true, 0%Q, abc_system)
  /\ wait_loop [] abc_world 5%Q 0%Q 7%Q abc_system
     = Some (false, 7%Q, abc_system).
Proof.
  pose proof (wait_for_initialization_polls []
                {| elapsed := 1; meanwhile := [] |} abc_world
                5%Q 0%Q 0%Q abc_system) as H0.
  pose proof (wait_for_initialization_polls []
                {| elapsed := 1; meanwhile := [] |} abc_world
                5%Q 0%Q 7%Q abc_system) as H7.
  cbv zeta in H0, H7.
  destruct H0 as (Hbody & _). destruct H7 as (_ & Hlate & _).
  assert (Hin : (0 - 0 < 5)%Q) by reflexivity.
  assert (Hout : (5 <= 7 - 0)%Q) by discriminate.
  assert (Hc : status_of (predictor abc_system) = completed)
    by (vm_compute; reflexivity).
  destruct (Hbody Hin) as (Hdone & _).
  split.
  - exact (Hdone Hc).
  - exact (Hlate Hout).
Defined.

(** * Further properties *)

(** ** Reasoning about what a method body writes and calls

    [wpo obs c s tr cs Q]: run on an object in state [s], after writes
    that [obs] sees as [tr] (newest first) and the calls [cs] (newest
    first), the body [c] leaves an outcome, a state, the writes as
    [obs] sees them and the calls that satisfy [Q]. *)

Section ObservationLogic.

Context {O : Type}.
Variable obs : DrugPredictor -> O.

Definition wpo {A} (c : Body A) (s : DrugPredictor) (tr : list O)
    (cs : list Call)
    (Q : Outcome A -> DrugPredictor -> list O -> list Call -> Prop) : Prop :=
  forall l, map obs l = tr ->
    Q (fst (c (mkMem s l cs))) (self (snd (c (mkMem s l cs))))
      (map obs (seen (snd (c (mkMem s l cs)))))
      (calls (snd (c (mkMem s l cs)))).

Lemma wpo_ret {A} (a : A) s tr cs Q :
  Q (Return a) s tr cs -> wpo (ret a) s tr cs Q.
Proof. intros H l <-. exact H. Qed.

Lemma wpo_raise {A} (e : Exception) s tr cs (Q : Outcome A -> _) :
  Q (Raise e) s tr cs -> wpo (raise e) s tr cs Q.
Proof. intros H l <-. exact H. Qed.

Lemma wpo_read {A} (f : DrugPredictor -> A) s tr cs Q :
  Q (Return (f s)) s tr cs -> wpo (read f) s tr cs Q.
Proof. intros H l <-. exact H. Qed.

Lemma wpo_assign (f : DrugPredictor -> DrugPredictor) s tr cs Q :
  Q (Return tt) (f s) (obs (f s) :: tr) cs -> wpo (assign f) s tr cs Q.
Proof. intros H l <-. exact H. Qed.

Lemma wpo_extern {A} (c : Call) (r : Outcome A) s tr cs Q :
  Q r s tr (c :: cs) -> wpo (extern c r) s tr cs Q.
Proof. intros H l <-. exact H. Qed.

Lemma wpo_bind {A B} (c : Body A) (k : A -> Body B) s tr cs Q :
  wpo c s tr cs (fun o s' tr' cs' =>
                   match o with
                   | Return a => wpo (k a) s' tr' cs' Q
                   | Raise e => Q (Raise e) s' tr' cs'
                   end) ->
  wpo (bind c k) s tr cs Q.
Proof.
  intros H l Hl. unfold bind. specialize (H l Hl).
  destruct (c (mkMem s l cs)) as [[a|e] [s' l' cs']]; simpl in *.
  - now apply H.
  - exact H.
Qed.

Lemma wpo_try {A} (body : Body A) (handler : Exception -> Body A)
    s tr cs Q :
  wpo body s tr cs (fun o s' tr' cs' =>
                      match o with
                      | Return a => Q (Return a) s' tr' cs'
                      | Raise e => wpo (handler e) s' tr' cs' Q
                      end) ->
  wpo (try_except body handler) s tr cs Q.
Proof.
  intros H l Hl. unfold try_except. specialize (H l Hl).
  destruct (body (mkMem s l cs)) as [[a|e] [s' l' cs']]; simpl in *.
  - exact H.
  - now apply H.
Qed.

Lemma wpo_run {A} (c : Body A) s Q :
  wpo c s [] [] Q ->
  Q (fst (run c s)) (self (snd (run c s)))
    (map obs (seen (snd (run c s)))) (calls (snd (run c s))).
Proof. intros H. exact (H [] eq_refl). Qed.

End ObservationLogic.

(** One step of a body. *)
Ltac wpo_step :=
  lazymatch goal with
  | |- wpo _ (bind _ _) _ _ _ _ => apply wpo_bind
  | |- wpo _ (ret _) _ _ _ _ => apply wpo_ret
  | |- wpo _ (raise _) _ _ _ _ => apply wpo_raise
  | |- wpo _ (read _) _ _ _ _ => apply wpo_read
  | |- wpo _ (assign _) _ _ _ _ => apply wpo_assign
  | |- wpo _ (extern _ _) _ _ _ _ => apply wpo_extern
  | |- wpo _ (try_except _ _) _ _ _ _ => apply wpo_try
  | |- wpo _ (if ?b then _ else _) _ _ _ _ => destruct b eqn:?
  | |- wpo _ (match ?x with _ => _ end) _ _ _ _ => destruct x eqn:?
  | |- wpo _ (_load_drug_database _) _ _ _ _ => unfold _load_drug_database
  | |- wpo _ _generate_embeddings _ _ _ _ => unfold _generate_embeddings
  | |- wpo _ the_frame _ _ _ _ => unfold the_frame
  | |- wpo _ (the_column _ _) _ _ _ _ => unfold the_column
  | |- match ?o with Return _ => _ | Raise _ => _ end => destruct o eqn:?
  end; cbv beta iota; state_simpl.

Ltac wpo_steps := repeat wpo_step.

Lemma Status_eqb_neq (a b : Status) : Status_eqb a b = false <-> a <> b.
Proof. destruct a, b; simpl; split; congruence. Qed.

Ltac status_cases :=
  repeat match goal with
         | H : Status_eqb _ _ = true |- _ => apply Status_eqb_eq in H
         | H : Status_eqb _ _ = false |- _ => apply Status_eqb_neq in H
         end.

(** ** Invariants of a process

    [J] is to hold of the predictor at every moment, [K] whenever the
    lock is free. Both hold of every process as soon as one run keeps
    them. *)

Section ProcessInvariant.

Variables J K : DrugPredictor -> Prop.

Hypothesis run_keeps :
  forall w p, J p -> K p ->
    wpi J (_initialize_sync w) p (fun _ s => K s).

Definition invariant (sys : System) : Prop :=
  exclusive sys
  /\ J (predictor sys)
  /\ (_lock sys = None -> K (predictor sys))
  /\ (forall i pending result made,
        nth_error (threads sys) i = Some (Running pending result made) ->
        Forall J pending /\ K (last pending (predictor sys))).

Lemma last_cons {A} (rest : list A) (s d : A) :
  last (s :: rest) d = last rest s.
Proof.
  revert s d. induction rest as [|a r IH]; intros s d; [reflexivity|].
  change (last (a :: r) d = last (a :: r) s).
  now rewrite (IH a d), (IH a s).
Qed.

Lemma invariant_start (cfg : Config) :
  J (__init__ cfg) -> K (__init__ cfg) -> invariant (start cfg).
Proof.
  intros HJ HK. split; [apply exclusive_start|].
  split; [exact HJ|]. split; [intros _; exact HK|].
  intros [|i] pending result made H; discriminate H.
Qed.

Lemma invariant_initialize (b : bool) (w : World) (sys : System) :
  invariant sys -> invariant (snd (initialize b w sys)).
Proof.
  intros (He & HJ & HK & HR).
  split; [now apply exclusive_initialize|].
  unfold initialize.
  destruct b; [destruct (thread_is_alive sys)|]; simpl;
    (split; [exact HJ|]); (split; [exact HK|]); try exact HR;
    intros i pending result made H; apply running_app_Waiting in H;
    exact (HR i _ _ _ H).
Qed.

Lemma invariant_thread_step (i : nat) (sys sys' : System) :
  invariant sys -> thread_step i sys = Some sys' -> invariant sys'.
Proof.
  intros (He & HJ & HK & HR) Hs.
  split; [eapply exclusive_thread_step; eauto|].
  unfold thread_step in Hs.
  destruct (nth_error (threads sys) i) as [[w|[|s rest] result made|r]|]
    eqn:Ei; try discriminate.
  - (* the lock is taken *)
    destruct (_lock sys) eqn:El; [discriminate|]. injection Hs as <-.
    simpl. split; [exact HJ|]. split; [discriminate|].
    intros j pending result made H. rewrite nth_error_replace_nth in H.
    destruct (i =? j)%nat eqn:Eij; [|exact (HR j _ _ _ H)].
    apply Nat.eqb_eq in Eij. subst j. rewrite Ei in H.
    injection H as <- _ _.
    destruct (wpi_run _ _ _ _ (run_keeps w _ HJ (HK eq_refl)))
      as (Hall & Hself & Hend).
    split.
    + apply Forall_rev. exact Hall.
    + rewrite last_rev, <- Hself. exact Hend.
  - (* the lock is released *)
    injection Hs as <-. simpl.
    destruct (HR i _ _ _ Ei) as (_ & Hlast). simpl in Hlast.
    split; [exact HJ|]. split; [intros _; exact Hlast|].
    intros j pending result' made' H. rewrite nth_error_replace_nth in H.
    destruct (i =? j)%nat; [|exact (HR j _ _ _ H)].
    destruct (nth_error (threads sys) j); discriminate.
  - (* one write *)
    injection Hs as <-. simpl.
    destruct (HR i _ _ _ Ei) as (Hall & Hlast).
    assert (Hi : _lock sys = Some i) by (apply He; red; eauto).
    inversion Hall as [|? ? Hs' Hrest]; subst.
    split; [exact Hs'|]. split; [congruence|].
    intros j pending result' made' H. rewrite nth_error_replace_nth in H.
    destruct (i =? j)%nat eqn:Eij.
    + apply Nat.eqb_eq in Eij. subst j. rewrite Ei in H.
      injection H as <- _ _. split; [exact Hrest|].
      rewrite <- (last_cons rest s (predictor sys)). exact Hlast.
    + assert (Hj : _lock sys = Some j) by (apply He; red; eauto).
      apply Nat.eqb_neq in Eij. congruence.
Qed.

Lemma invariant_run_actions (acts : list Action) (sys : System) :
  invariant sys -> invariant (run_actions acts sys).
Proof.
  revert sys. induction acts as [|a acts IH]; intros sys Hi; simpl;
    [exact Hi|].
  apply IH. destruct a as [b w|i]; simpl.
  - now apply invariant_initialize.
  - destruct (thread_step i sys) eqn:E; [|exact Hi].
    eapply invariant_thread_step; eauto.
Qed.

End ProcessInvariant.

(** What holds of a predictor at every moment. *)
Definition always_ok (cfg : Config) (s : DrugPredictor) : Prop :=
  config s = cfg
  /\ (0 <= progress (initialization_status s) <= 100)%Z
  /\ (status_of s = not_started -> s = __init__ cfg)
  /\ (status_of s = completed -> drug_embeddings s <> None)
  /\ (drug_embeddings s <> None -> df_drugs s <> None)
  /\ (df_drugs s <> None -> model s <> None).

(** What holds of a predictor between two runs. *)
Definition at_rest (s : DrugPredictor) : Prop :=
  let i := initialization_status s in
  status i <> in_progress
  /\ (error i <> None <-> status i = failed)
  /\ (drug_embeddings s <> None <-> status i = completed)
  /\ (status i = completed ->
      progress i = 100%Z
      /\ message i = "Initialization completed successfully"
      /\ start_time i <> None /\ end_time i <> None)
  /\ (status i = failed ->
      (progress i < 100)%Z /\ start_time i <> None).

Ltac always_tac :=
  unfold always_ok in *; state_simpl;
  repeat match goal with
         | H : _ /\ _ |- _ => destruct H
         end;
  repeat match goal with
         | |- _ /\ _ => split
         end;
  try assumption; try lia; try discriminate;
  try (intros; discriminate); auto.

Ltac rest_tac :=
  unfold at_rest in *; cbv zeta in *; unfold status_of in *; state_simpl;
  repeat match goal with
         | |- _ /\ _ => split
         | |- _ <-> _ => split
         | |- _ -> _ => intro
         end;
  first [ assumption | discriminate | congruence | lia | tauto ].

(** One run keeps both. *)
Lemma _initialize_sync_keeps (cfg : Config) (w : World)
    (p : DrugPredictor) :
  always_ok cfg p -> at_rest p ->
  wpi (always_ok cfg) (_initialize_sync w) p (fun _ s => at_rest s).
Proof.
  intros Ha Hp. unfold _initialize_sync.
  wpi_steps always_tac; status_cases; rest_tac.
Qed.

Lemma always_ok_init (cfg : Config) : always_ok cfg (__init__ cfg).
Proof.
  unfold always_ok. simpl.
  repeat match goal with |- _ /\ _ => split end;
    first [ reflexivity | lia | intros H; discriminate H | auto ].
Qed.

Lemma at_rest_init (cfg : Config) : at_rest (__init__ cfg).
Proof.
  unfold at_rest. simpl.
  repeat match goal with
         | |- _ /\ _ => split
         | |- _ <-> _ => split
         | |- _ -> _ => intro
         end; congruence.
Qed.

Lemma process_invariant (cfg : Config) (acts : list Action) :
  invariant (always_ok cfg) at_rest (run_actions acts (start cfg)).
Proof.
  apply invariant_run_actions.
  - intros w p. apply _initialize_sync_keeps.
  - apply invariant_start; [apply always_ok_init | apply at_rest_init].
Qed.

(** X1. Whatever calls of [initialize] a process has seen and however
    their threads have interleaved, whenever [self._lock] is free the
    status is not [in_progress]; an error is recorded exactly when the
    status is [failed]; the embeddings are there exactly when the
    status is [completed]; [completed] comes with a progress of 100,
    the completion message and both times; [failed] comes with a
    progress below 100 and a start time. *)
Theorem status_when_lock_is_free (cfg : Config) (acts : list Action) :
  let sys := run_actions acts (start cfg) in
  _lock sys = None ->
  let p := predictor sys in
  let i := initialization_status p in
  status i <> in_progress
  /\ (error i <> None <-> status i = failed)
  /\ (drug_embeddings p <> None <-> status i = completed)
  /\ (status i = completed ->
      progress i = 100%Z
      /\ message i = "Initialization completed successfully"
      /\ start_time i <> None /\ end_time i <> None)
  /\ (status i = failed ->
      (progress i < 100)%Z /\ start_time i <> None).
Proof.
  cbv zeta. intros Hl.
  destruct (process_invariant cfg acts) as (_ & _ & HK & _).
  exact (HK Hl).
Qed.

Lemma status_when_lock_is_free_witness :
  _lock abc_system = None
  /\ status (initialization_status (predictor abc_system)) <> in_progress
  /\ progress (initialization_status (predictor abc_system)) = 100%Z.
Proof.
  unfold abc_system.
  assert (Hl : _lock
                 (run_actions
                    (do_initialize true abc_world :: repeat (do_step 0) 25)
                    (start default_config)) = None)
    by (vm_compute; reflexivity).
  assert (Hc : status
                 (initialization_status
                    (predictor
                       (run_actions
                          (do_initialize true abc_world
                           :: repeat (do_step 0) 25)
                          (start default_config)))) = completed)
    by (vm_compute; reflexivity).
  split; [exact Hl|].
  pose proof (status_when_lock_is_free default_config
                (do_initialize true abc_world :: repeat (do_step 0) 25))
    as H.
  cbv zeta in H. destruct (H Hl) as (Hn & _ & _ & Hdone & _).
  split; [exact Hn|].
  destruct (Hdone Hc) as (Hp & _). exact Hp.
Defined.

(** X2. At every moment of every process, in the middle of a run
    included, what [get_status] reports satisfies: the progress lies
    between 0 and 100; [embeddings_loaded] implies [database_loaded],
    which implies [model_loaded]; a status of [not_started] comes with
    the report of a fresh predictor; and the configuration is the one
    the predictor was built with. *)
Theorem status_report_always (cfg : Config) (acts : list Action) (now : Q) :
  let p := predictor (run_actions acts (start cfg)) in
  let r := get_status now p in
  (0 <= r_progress r <= 100)%Z
  /\ (embeddings_loaded r = true -> database_loaded r = true)
  /\ (database_loaded r = true -> model_loaded r = true)
  /\ (r_status r = not_started -> r = get_status now (__init__ cfg))
  /\ config p = cfg.
Proof.
  cbv zeta.
  destruct (process_invariant cfg acts) as (_ & HJ & _).
  destruct HJ as (Hc & Hp & Hn & _ & He & Hd).
  unfold get_status. cbn [r_progress embeddings_loaded database_loaded
                          model_loaded r_status].
  split; [exact Hp|]. split; [|split; [|split; [|exact Hc]]].
  - destruct (drug_embeddings _); [|discriminate].
    destruct (df_drugs _); [reflexivity|].
    intros _. exfalso. apply He; congruence.
  - destruct (df_drugs _); [|discriminate].
    destruct (model _); [reflexivity|].
    intros _. exfalso. apply Hd; congruence.
  - intros Hs. now rewrite (Hn Hs).
Qed.

(** X3. The route [/predict] answers 202 only while a build is
    running: some thread is inside the body of [_initialize_sync] and
    holds [self._lock]. Likewise the route [/initialize] answers
    "Initialization already in progress" only then. *)
Theorem in_progress_answers_under_lock
    (argsort : list float -> list nat)
    (cosine_similarity : ndarray -> ndarray -> Outcome ndarray)
    (cfg cfg' : Config) (acts : list Action) (data : JSON)
    (now : Q) (w : World) :
  let sys := run_actions acts (start cfg) in
  let building := exists i, _lock sys = Some i /\ running sys i in
  (code (predict_route argsort cosine_similarity cfg' (predictor sys) data)
   = 202%Z -> building)
  /\ (answer_field (fst (initialize_route now w sys)) "message"
      = JStr "Initialization already in progress" -> building).
Proof.
  cbv zeta.
  destruct (process_invariant cfg acts) as (He & _ & HK & _).
  assert (Hb : status_of (predictor (run_actions acts (start cfg)))
               = in_progress ->
               exists i, _lock (run_actions acts (start cfg)) = Some i
                         /\ running (run_actions acts (start cfg)) i).
  { intros Hs.
    destruct (_lock (run_actions acts (start cfg))) as [i|] eqn:El.
    - exists i. split; [reflexivity|]. now apply He.
    - destruct (HK eq_refl) as (Hn & _). contradiction. }
  split; intros H; apply Hb.
  - unfold predict_route, not_ready_response, is_ready in H.
    destruct (status_of _); cbn [Status_eqb negb] in H;
      try reflexivity; try discriminate H.
    exfalso. revert H.
    repeat match goal with
           | |- context [if ?b then _ else _] => destruct b
           | |- context [match ?x with _ => _ end] => destruct x
           end; unfold handle; simpl;
      repeat match goal with
             | |- context [match ?x with _ => _ end] => destruct x
             end; simpl; discriminate.
  - unfold initialize_route, get_status in H. cbn [r_status] in H.
    unfold status_of.
    destruct (status (initialization_status _)); try reflexivity;
      discriminate H.
Qed.

Lemma in_progress_answers_under_lock_witness :
  let sys :=
    run_actions [do_initialize true abc_world; do_step 0; do_step 0]
      (start default_config) in
  code (predict_route np.argsort_stable abc_similarity default_config
          (predictor sys) JNull) = 202%Z
  /\ exists i, _lock sys = Some i /\ running sys i.
Proof.
  cbv zeta.
  assert (Hc : code (predict_route np.argsort_stable abc_similarity
                       default_config
                       (predictor
                          (run_actions
                             [do_initialize true abc_world; do_step 0;
                              do_step 0] (start default_config))) JNull)
               = 202%Z) by (vm_compute; reflexivity).
  split; [exact Hc|].
  pose proof (in_progress_answers_under_lock np.argsort_stable abc_similarity
                default_config default_config
                [do_initialize true abc_world; do_step 0; do_step 0] JNull
                0%Q abc_world) as H.
  cbv zeta in H. destruct H as (H & _). exact (H Hc).
Defined.

(** X4. The routes agree at every moment of every process: whenever
    [/ready] answers 200, [/stats] answers 200 as well and reports the
    shape of the embeddings; [/stats] answers 200 or 503, never 500;
    and whenever [/stats] answers 503, [/ready] answers 503. *)
Theorem ready_implies_stats (cfg : Config) (acts : list Action) (now : Q) :
  let p := predictor (run_actions acts (start cfg)) in
  (status_code (readiness_check now p) = 200%Z ->
   status_code (get_stats_route p) = 200%Z
   /\ exists total cols embedding_shape,
        get_stats p
        = stats total cols (Some embedding_shape) (MODEL_NAME cfg)
            (CSV_PATH cfg))
  /\ (status_code (get_stats_route p) = 200%Z
      \/ status_code (get_stats_route p) = 503%Z)
  /\ (status_code (get_stats_route p) = 503%Z ->
      status_code (readiness_check now p) = 503%Z).
Proof.
  cbv zeta.
  destruct (process_invariant cfg acts) as (_ & HJ & _).
  destruct HJ as (Hcfg & _ & _ & Hc & He & _).
  set (p := predictor (run_actions acts (start cfg))) in *.
  assert (Hready : status_code (readiness_check now p) = 200%Z ->
                   exists df e, df_drugs p = Some df
                                /\ drug_embeddings p = Some e).
  { unfold readiness_check, is_ready.
    destruct (Status_eqb (status_of p) completed) eqn:E;
      [|discriminate].
    intros _. apply Status_eqb_eq in E. specialize (Hc E).
    destruct (drug_embeddings p) as [e|] eqn:Ee; [|contradiction].
    destruct (df_drugs p) as [df|] eqn:Ed; [eauto|].
    exfalso. apply He; congruence. }
  split; [|split].
  - intros H. destruct (Hready H) as (df & e & Hdf & Hemb).
    unfold get_stats_route, get_stats. rewrite Hdf, Hemb, Hcfg.
    split; [reflexivity|]. cbn [option_map]. eauto.
  - unfold get_stats_route, get_stats. destruct (df_drugs p); auto.
  - intros H. unfold readiness_check.
    destruct (is_ready p) eqn:E; [|reflexivity].
    assert (H2 : status_code (readiness_check now p) = 200%Z)
      by (unfold readiness_check; now rewrite E).
    destruct (Hready H2) as (df & e & Hdf & _).
    unfold get_stats_route, get_stats in H. rewrite Hdf in H.
    discriminate H.
Qed.

Lemma ready_implies_stats_witness :
  status_code (get_stats_route (predictor abc_system)) = 200%Z.
Proof.
  unfold abc_system.
  assert (Hr : status_code
                 (readiness_check 0%Q
                    (predictor
                       (run_actions
                          (do_initialize true abc_world
                           :: repeat (do_step 0) 25)
                          (start default_config)))) = 200%Z)
    by (vm_compute; reflexivity).
  pose proof (ready_implies_stats default_config
                (do_initialize true abc_world :: repeat (do_step 0) 25)
                0%Q) as H.
  cbv zeta in H. destruct H as (H & _). exact (proj1 (H Hr)).
Defined.

(** ** A build thread left to run *)

Section ThreadRuns.

Lemma replace_nth_replace_nth {A} (i : nat) (x y : A) (l : list A) :
  pd.replace_nth i x (pd.replace_nth i y l) = pd.replace_nth i x l.
Proof.
  revert i. induction l as [|a l IH]; intros [|i]; simpl; try reflexivity.
  now rewrite IH.
Qed.

Lemma replace_nth_same {A} (i : nat) (x : A) (l : list A) :
  nth_error l i = Some x -> pd.replace_nth i x l = l.
Proof.
  revert i. induction l as [|a l IH]; intros [|i]; simpl; try discriminate.
  - now intros [= ->].
  - intros H. now rewrite IH.
Qed.

Lemma replace_nth_app_last {A} (x y : A) (l : list A) :
  pd.replace_nth (List.length l) x (l ++ [y])%list = (l ++ [x])%list.
Proof. induction l as [|a l IH]; simpl; [reflexivity|]. now rewrite IH. Qed.

(** The writes of a thread inside the body, made one after the other. *)
Lemma run_pending (i : nat) (pending : list DrugPredictor) :
  forall (sys : System) (result : Outcome bool) (made : list Call),
    nth_error (threads sys) i = Some (Running pending result made) ->
    run_actions (repeat (do_step i) (List.length pending)) sys
    = {| predictor := last pending (predictor sys);
         _lock := _lock sys;
         _initialization_thread := _initialization_thread sys;
         threads := pd.replace_nth i (Running [] result made) (threads sys);
         log := log sys |}.
Proof.
  induction pending as [|s rest IH]; intros sys result made Hi.
  - simpl. rewrite (replace_nth_same _ _ _ Hi). now destruct sys.
  - cbn [List.length repeat run_actions fold_left act].
    unfold thread_step at 1. rewrite Hi.
    change (fold_left (fun s0 a => act a s0)
              (repeat (do_step i) (List.length rest)) ?x)
      with (run_actions (repeat (do_step i) (List.length rest)) x).
    rewrite (IH _ result made).
    + cbn [predictor _lock _initialization_thread threads log].
      now rewrite replace_nth_replace_nth, last_cons.
    + cbn [threads]. rewrite nth_error_replace_nth, Nat.eqb_refl, Hi.
      reflexivity.
Qed.

Lemma run_actions_app (a b : list Action) (sys : System) :
  run_actions (a ++ b)%list sys = run_actions b (run_actions a sys).
Proof. apply fold_left_app. Qed.

(** A thread inside the body finishes within its writes and one step
    more, whatever else is there. *)
Lemma run_to_release (i : nat) (sys : System)
    (pending : list DrugPredictor) (result : Outcome bool)
    (made : list Call) :
  nth_error (threads sys) i = Some (Running pending result made) ->
  run_actions (repeat (do_step i) (List.length pending + 1)) sys
  = {| predictor := last pending (predictor sys);
       _lock := None;
       _initialization_thread := _initialization_thread sys;
       threads := pd.replace_nth i (Finished result) (threads sys);
       log := (made ++ log sys)%list |}.
Proof.
  intros Hi. rewrite repeat_app, run_actions_app, (run_pending _ _ _ _ _ Hi).
  cbn [repeat run_actions fold_left act]. unfold thread_step.
  cbn [threads]. rewrite nth_error_replace_nth, Nat.eqb_refl, Hi.
  cbn [predictor _lock _initialization_thread threads log].
  now rewrite replace_nth_replace_nth.
Qed.

(** A waiting thread that finds the lock free makes the run that
    [_initialize_sync] makes on the predictor as it is. *)
Lemma run_from_waiting (i : nat) (sys : System) (w : World) :
  nth_error (threads sys) i = Some (Waiting w) ->
  _lock sys = None ->
  let r := run (_initialize_sync w) (predictor sys) in
  run_actions (repeat (do_step i) (List.length (seen (snd r)) + 2)) sys
  = {| predictor := self (snd r);
       _lock := None;
       _initialization_thread := _initialization_thread sys;
       threads := pd.replace_nth i (Finished (fst r)) (threads sys);
       log := (calls (snd r) ++ log sys)%list |}.
Proof.
  intros Hi Hl. cbv zeta.
  replace (List.length (seen (snd (run (_initialize_sync w) (predictor sys))))
           + 2)%nat
    with (1 + (List.length
                 (rev (seen (snd (run (_initialize_sync w) (predictor sys)))))
               + 1))%nat
    by (rewrite length_rev; lia).
  rewrite repeat_app, run_actions_app.
  cbn [repeat run_actions fold_left act]. unfold thread_step at 1.
  rewrite Hi, Hl.
  change (fold_left (fun s0 a => act a s0) ?l ?x) with (run_actions l x).
  erewrite run_to_release.
  2:{ cbn [threads]. rewrite nth_error_replace_nth, Nat.eqb_refl, Hi.
      reflexivity. }
  cbn [predictor _lock _initialization_thread threads log].
  rewrite replace_nth_replace_nth, last_rev, <- _initialize_sync_self.
  reflexivity.
Qed.

End ThreadRuns.

(** A build started on a process whose lock is free, and left to
    run. *)
Lemma initialize_then_run
    (background : bool) (w : World) (sys : System) :
  _lock sys = None ->
  (background = true -> thread_is_alive sys = false) ->
  let r := run (_initialize_sync w) (predictor sys) in
  let i := List.length (threads sys) in
  let sys' :=
    run_actions (repeat (do_step i) (List.length (seen (snd r)) + 2))
      (snd (initialize background w sys)) in
  predictor sys' = self (snd r)
  /\ _lock sys' = None
  /\ threads sys' = (threads sys ++ [Finished (fst r)])%list
  /\ log sys' = (calls (snd r) ++ log sys)%list
  /\ (background = true -> thread_is_alive sys' = false).
Proof.
  intros Hl Ha. cbv zeta.
  assert (Hs : snd (initialize background w sys)
               = {| predictor := predictor sys;
                    _lock := _lock sys;
                    _initialization_thread :=
                      if background then Some (List.length (threads sys))
                      else _initialization_thread sys;
                    threads := (threads sys ++ [Waiting w])%list;
                    log := log sys |}).
  { unfold initialize. destruct background; [|reflexivity].
    now rewrite (Ha eq_refl). }
  rewrite Hs.
  pose proof (run_from_waiting (List.length (threads sys))
                {| predictor := predictor sys;
                   _lock := _lock sys;
                   _initialization_thread :=
                     if background then Some (List.length (threads sys))
                     else _initialization_thread sys;
                   threads := (threads sys ++ [Waiting w])%list;
                   log := log sys |} w) as H.
  cbv zeta in H. cbn [predictor _lock threads log _initialization_thread] in H.
  rewrite H.
  - cbn [predictor _lock threads log _initialization_thread].
    rewrite replace_nth_app_last.
    repeat match goal with |- _ /\ _ => split end; try reflexivity.
    intros ->. unfold thread_is_alive.
    cbn [_initialization_thread threads].
    rewrite nth_error_app2 by lia. now rewrite Nat.sub_diag.
  - rewrite nth_error_app2 by lia. now rewrite Nat.sub_diag.
  - exact Hl.
Qed.

(** ** The catalog a load publishes *)

(** What lines 157 and 158 of [_load_drug_database] make of the frame
    read: the column [ObatLengkap] is set to [Nama + ' - ' +
    DeskripsiObat] and the rows are deduplicated on it. *)
Definition catalog_of (csv : pd.DataFrame) : option pd.DataFrame :=
  match pd.getitem csv "Nama", pd.getitem csv "DeskripsiObat" with
  | Some nama, Some deskripsi =>
      pd.drop_duplicates
        (pd.setitem csv "ObatLengkap" (pd.series_concat nama " - " deskripsi))
        "ObatLengkap"
  | _, _ => None
  end.

(** Every row of a frame has one cell per column. *)
Definition rectangular (df : pd.DataFrame) : Prop :=
  Forall (fun r => List.length r = List.length (pd.columns df)) (pd.rows df).

Section Catalog.

Lemma index_of_has (col : string) (cols : list string) (i : nat) :
  pd.index_of col cols = Some i -> existsb (String.eqb col) cols = true.
Proof.
  revert i. induction cols as [|c t IH]; simpl; intros i; [discriminate|].
  destruct (String.eqb col c); [reflexivity|].
  destruct (pd.index_of col t); [|discriminate]. intros _. eauto.
Qed.

Lemma index_of_nth (col : string) (cols : list string) (i : nat) :
  pd.index_of col cols = Some i ->
  (i < List.length cols)%nat /\ nth i cols "" = col.
Proof.
  revert i. induction cols as [|c t IH]; simpl; intros i; [discriminate|].
  destruct (String.eqb col c) eqn:E.
  - intros [= <-]. apply String.eqb_eq in E. split; [lia | now symmetry].
  - destruct (pd.index_of col t) as [j|]; [|discriminate].
    intros [= <-]. destruct (IH j eq_refl). split; [lia | assumption].
Qed.

Lemma index_of_app_None (col : string) (cols : list string) :
  pd.index_of col cols = None ->
  pd.index_of col (cols ++ [col]) = Some (List.length cols).
Proof.
  induction cols as [|c t IH]; simpl.
  - now rewrite String.eqb_refl.
  - destruct (String.eqb col c); [discriminate|].
    destruct (pd.index_of col t); [discriminate|].
    intros _. now rewrite IH.
Qed.

Lemma index_of_app_Some (col : string) (cols more : list string) (i : nat) :
  pd.index_of col cols = Some i -> pd.index_of col (cols ++ more) = Some i.
Proof.
  revert i. induction cols as [|c t IH]; simpl; intros i; [discriminate|].
  destruct (String.eqb col c); [auto|].
  destruct (pd.index_of col t) as [j|]; [|discriminate].
  intros [= <-]. now rewrite (IH j).
Qed.

Lemma getitem_has_column (df : pd.DataFrame) (col : string)
    (c : list string) :
  pd.getitem df col = Some c -> pd.has_column df col = true.
Proof.
  unfold pd.getitem, pd.has_column.
  destruct (pd.index_of col (pd.columns df)) eqn:E; [|discriminate].
  intros _. eapply index_of_has; eauto.
Qed.

Lemma has_column_getitem (df : pd.DataFrame) (col : string) :
  pd.has_column df col = true -> exists c, pd.getitem df col = Some c.
Proof.
  intros H. destruct (has_column_index_of _ _ H) as [i Hi].
  unfold pd.getitem. rewrite Hi. eauto.
Qed.

Lemma setitem_index_of (df : pd.DataFrame) (col : string)
    (values : list string) :
  pd.index_of col (pd.columns (pd.setitem df col values))
  = Some match pd.index_of col (pd.columns df) with
         | Some i => i
         | None => List.length (pd.columns df)
         end.
Proof.
  unfold pd.setitem.
  destruct (pd.index_of col (pd.columns df)) eqn:E; simpl; [exact E|].
  now apply index_of_app_None.
Qed.

Lemma catalog_of_columns (csv df : pd.DataFrame) :
  catalog_of csv = Some df ->
  pd.has_column csv "Nama" = true /\ pd.has_column csv "DeskripsiObat" = true.
Proof.
  unfold catalog_of.
  destruct (pd.getitem csv "Nama") eqn:En; [|discriminate].
  destruct (pd.getitem csv "DeskripsiObat") eqn:Ed; [|discriminate].
  intros _. split; eapply getitem_has_column; eauto.
Qed.

Lemma catalog_of_required (csv df : pd.DataFrame) :
  catalog_of csv = Some df ->
  filter (fun col => negb (pd.has_column csv col)) required_columns = [].
Proof.
  intros H. destruct (catalog_of_columns _ _ H) as [Hn Hd].
  unfold required_columns. simpl. now rewrite Hn, Hd.
Qed.

(** With the two required columns the catalog is there, and so are its
    texts. *)
Lemma catalog_of_Some (csv : pd.DataFrame) :
  pd.has_column csv "Nama" = true ->
  pd.has_column csv "DeskripsiObat" = true ->
  exists df texts,
    catalog_of csv = Some df /\ pd.getitem df "ObatLengkap" = Some texts.
Proof.
  intros Hn Hd. unfold catalog_of.
  destruct (has_column_getitem _ _ Hn) as [nama ->].
  destruct (has_column_getitem _ _ Hd) as [deskripsi ->].
  unfold pd.drop_duplicates, pd.getitem at 1.
  rewrite setitem_index_of. eexists. eexists. split; [reflexivity|].
  unfold pd.getitem. cbn [pd.columns]. rewrite setitem_index_of.
  reflexivity.
Qed.

Lemma catalog_of_texts (csv df : pd.DataFrame) :
  catalog_of csv = Some df ->
  exists texts, pd.getitem df "ObatLengkap" = Some texts.
Proof.
  intros H. destruct (catalog_of_columns _ _ H) as [Hn Hd].
  destruct (catalog_of_Some csv Hn Hd) as (df' & texts & H' & Ht).
  exists texts. congruence.
Qed.

(** *** Deduplication *)

Variable i : nat.

Let key (r : list string) : string := nth i r "".

Lemma existsb_eqb_In (k : string) (l : list string) :
  existsb (String.eqb k) l = true <-> In k l.
Proof.
  rewrite existsb_exists. split.
  - intros (x & Hx & E). apply String.eqb_eq in E. now subst.
  - intros H. exists k. split; [exact H | apply String.eqb_refl].
Qed.

Lemma dedup_rows_In (seen : list string) (rs : list (list string))
    (r : list string) :
  In r (pd.dedup_rows i seen rs) -> In r rs /\ ~ In (key r) seen.
Proof.
  revert seen. induction rs as [|a t IH]; intros seen; simpl; [tauto|].
  destruct (existsb (String.eqb (nth i a "")) seen) eqn:E.
  - intros H. destruct (IH _ H). auto.
  - intros [<-|H].
    + split; [now left|]. intros Hin. apply existsb_eqb_In in Hin.
      unfold key in Hin. congruence.
    + destruct (IH _ H) as [Hin Hk]. split; [now right|].
      intros Hs. apply Hk. now right.
Qed.

Lemma dedup_rows_NoDup (seen : list string) (rs : list (list string)) :
  NoDup (map key (pd.dedup_rows i seen rs)).
Proof.
  revert seen. induction rs as [|a t IH]; intros seen; simpl;
    [constructor|].
  destruct (existsb (String.eqb (nth i a "")) seen); [apply IH|].
  simpl. constructor; [|apply IH].
  intros Hin. apply in_map_iff in Hin. destruct Hin as (r & Hk & Hr).
  apply dedup_rows_In in Hr. destruct Hr as [_ Hr]. apply Hr.
  left. now rewrite Hk.
Qed.

Lemma dedup_rows_keys (seen : list string) (rs : list (list string))
    (r : list string) :
  In r rs ->
  In (key r) seen \/ In (key r) (map key (pd.dedup_rows i seen rs)).
Proof.
  revert seen. induction rs as [|a t IH]; intros seen; simpl; [tauto|].
  destruct (existsb (String.eqb (nth i a "")) seen) eqn:E.
  - intros [<-|H]; [|now apply IH].
    left. now apply existsb_eqb_In.
  - intros [<-|H]; [right; now left|].
    destruct (IH (nth i a "" :: seen) H) as [[Hk|Hk]|Hk].
    + right. left. exact Hk.
    + now left.
    + right. now right.
Qed.

Lemma dedup_rows_length (seen : list string) (rs : list (list string)) :
  (List.length (pd.dedup_rows i seen rs) <= List.length rs)%nat.
Proof.
  revert seen. induction rs as [|a t IH]; intros seen; simpl; [lia|].
  destruct (existsb (String.eqb (nth i a "")) seen).
  - specialize (IH seen). lia.
  - simpl. specialize (IH (nth i a "" :: seen)). lia.
Qed.

End Catalog.

Section CatalogCells.

Lemma nth_replace_nth {A} (i j : nat) (x d : A) (l : list A) :
  nth j (pd.replace_nth i x l) d
  = if (i =? j)%nat && (j <? List.length l)%nat then x else nth j l d.
Proof.
  revert i j. induction l as [|a l IH]; intros [|i] [|j]; simpl;
    try reflexivity.
  - now destruct (i =? j)%nat.
  - apply IH.
Qed.

Lemma zip_rows_length (f : list string -> string -> list string)
    (rs : list (list string)) (vs : list string) :
  List.length vs = List.length rs ->
  List.length (pd.zip_rows f rs vs) = List.length rs.
Proof.
  revert vs. induction rs as [|r rs IH]; intros [|v vs]; simpl;
    try discriminate; auto.
Qed.

Lemma zip_rows_map {B} (f : list string -> string -> list string)
    (g : list string -> B) (h : list string -> string -> B)
    (rs : list (list string)) (vs : list string) :
  List.length vs = List.length rs ->
  Forall (fun r => forall v, g (f r v) = h r v) rs ->
  map g (pd.zip_rows f rs vs) = map (fun rv => h (fst rv) (snd rv))
                                  (combine rs vs).
Proof.
  intros Hl Hall. revert vs Hl.
  induction Hall as [|r rs Hr Hrs IH]; intros [|v vs] Hl; simpl;
    try discriminate; try reflexivity.
  rewrite Hr, IH; auto.
Qed.

Lemma series_concat_length (a b : list string) (sep : string) :
  List.length a = List.length b ->
  List.length (pd.series_concat a sep b) = List.length a.
Proof.
  revert b. induction a as [|x a IH]; intros [|y b]; simpl;
    try discriminate; auto.
Qed.

Lemma combine_map_snd {A B} (l : list A) (l' : list B) :
  List.length l' = List.length l -> map snd (combine l l') = l'.
Proof.
  revert l'. induction l as [|a l IH]; intros [|b l']; simpl;
    try discriminate; try reflexivity.
  intros [= H]. now rewrite IH.
Qed.

Lemma combine_map_fst {A B C} (f : A -> C) (l : list A) (l' : list B) :
  List.length l' = List.length l ->
  map (fun ab => f (fst ab)) (combine l l') = map f l.
Proof.
  revert l'. induction l as [|a l IH]; intros [|b l']; simpl;
    try discriminate; try reflexivity.
  intros [= H]. now rewrite IH.
Qed.

(** Setting a column of a rectangular frame to as many values as it
    has rows: the column holds the values, the other columns are as
    they were. *)
Lemma setitem_getitem (df : pd.DataFrame) (col : string)
    (values : list string) :
  rectangular df -> List.length values = pd.len df ->
  pd.getitem (pd.setitem df col values) col = Some values.
Proof.
  intros Hr Hl. unfold pd.getitem. rewrite setitem_index_of.
  f_equal. unfold pd.setitem, pd.len in *.
  destruct (pd.index_of col (pd.columns df)) as [i|] eqn:E; cbn [pd.rows].
  - rewrite (zip_rows_map _ _ (fun _ v => v)); [now apply combine_map_snd|
                                                  exact Hl|].
    apply index_of_nth in E. destruct E as [Hi _].
    eapply Forall_impl; [|exact Hr]. cbv beta. intros r Hlen v.
    rewrite nth_replace_nth, Nat.eqb_refl.
    replace (i <? List.length r)%nat with true; [reflexivity|].
    symmetry. apply Nat.ltb_lt. lia.
  - rewrite (zip_rows_map _ _ (fun _ v => v)); [now apply combine_map_snd|
                                                  exact Hl|].
    eapply Forall_impl; [|exact Hr]. cbv beta. intros r Hlen v.
    rewrite <- Hlen, app_nth2, Nat.sub_diag by lia. reflexivity.
Qed.

Lemma setitem_getitem_other (df : pd.DataFrame) (col other : string)
    (values c : list string) :
  rectangular df -> List.length values = pd.len df ->
  other <> col -> pd.getitem df other = Some c ->
  pd.getitem (pd.setitem df col values) other = Some c.
Proof.
  intros Hr Hl Hne. unfold pd.getitem.
  destruct (pd.index_of other (pd.columns df)) as [j|] eqn:Ej;
    [|discriminate].
  intros [= <-]. pose proof (index_of_nth _ _ _ Ej) as [Hj Hjn].
  unfold pd.setitem, pd.len in *.
  destruct (pd.index_of col (pd.columns df)) as [i|] eqn:E;
    cbn [pd.rows pd.columns].
  - rewrite Ej. f_equal.
    rewrite (zip_rows_map _ _ (fun r _ => nth j r ""));
      [now apply (combine_map_fst (fun r => nth j r "")) | exact Hl |].
    pose proof (index_of_nth _ _ _ E) as [Hi Hin].
    apply Forall_forall. intros r _ v.
    rewrite nth_replace_nth.
    destruct (i =? j)%nat eqn:Eij; [|reflexivity].
    apply Nat.eqb_eq in Eij. congruence.
  - rewrite (index_of_app_Some _ _ _ _ Ej). f_equal.
    rewrite (zip_rows_map _ _ (fun r _ => nth j r ""));
      [now apply (combine_map_fst (fun r => nth j r "")) | exact Hl |].
    eapply Forall_impl; [|exact Hr]. cbv beta. intros r Hlen v.
    apply app_nth1. lia.
Qed.

Lemma series_concat_map {A} (f g : A -> string) (sep : string)
    (l : list A) :
  pd.series_concat (map f l) sep (map g l)
  = map (fun r => f r ++ sep ++ g r) l.
Proof. induction l as [|a l IH]; simpl; [reflexivity|]. now rewrite IH. Qed.

End CatalogCells.

(** What the catalog of a frame holds: its texts are pairwise
    distinct, it has no more rows than the frame, and, the frame being
    rectangular, its texts are those of the frame, each once, and every
    row still reads [Nama - DeskripsiObat] in [ObatLengkap]. *)
Lemma catalog_of_spec (csv df : pd.DataFrame) (texts : list string) :
  catalog_of csv = Some df ->
  pd.getitem df "ObatLengkap" = Some texts ->
  NoDup texts
  /\ (pd.len df <= pd.len csv)%nat
  /\ (rectangular csv ->
      forall nama deskripsi,
        pd.getitem csv "Nama" = Some nama ->
        pd.getitem csv "DeskripsiObat" = Some deskripsi ->
        (forall t, In t texts <-> In t (pd.series_concat nama " - " deskripsi))
        /\ exists nama' deskripsi',
             pd.getitem df "Nama" = Some nama'
             /\ pd.getitem df "DeskripsiObat" = Some deskripsi'
             /\ texts = pd.series_concat nama' " - " deskripsi').
Proof.
  unfold catalog_of.
  destruct (pd.getitem csv "Nama") as [nama|] eqn:En; [|discriminate].
  destruct (pd.getitem csv "DeskripsiObat") as [deskripsi|] eqn:Ed;
    [|discriminate].
  set (values := pd.series_concat nama " - " deskripsi).
  set (df2 := pd.setitem csv "ObatLengkap" values).
  unfold pd.drop_duplicates.
  destruct (pd.index_of "ObatLengkap" (pd.columns df2)) as [i|] eqn:Ei;
    [|discriminate].
  intros [= <-]. unfold pd.getitem at 1. cbn [pd.columns pd.rows].
  rewrite Ei. intros [= <-].
  assert (Hlen : List.length values = pd.len csv).
  { unfold values. rewrite series_concat_length.
    - eapply getitem_length; eauto.
    - rewrite (getitem_length _ _ _ En). symmetry.
      eapply getitem_length; eauto. }
  assert (Hrows : List.length (pd.rows df2) = pd.len csv).
  { unfold df2, pd.setitem, pd.len.
    destruct (pd.index_of "ObatLengkap" (pd.columns csv)); cbn [pd.rows];
      now apply zip_rows_length. }
  split; [apply dedup_rows_NoDup|].
  split.
  { unfold pd.len at 1. cbn [pd.rows].
    pose proof (dedup_rows_length i [] (pd.rows df2)). lia. }
  intros Hrect nama0 deskripsi0 [= <-] [= <-].
  assert (H2 : pd.getitem df2 "ObatLengkap" = Some values)
    by now apply setitem_getitem.
  assert (H2n : pd.getitem df2 "Nama" = Some nama)
    by (apply setitem_getitem_other; auto; discriminate).
  assert (H2d : pd.getitem df2 "DeskripsiObat" = Some deskripsi)
    by (apply setitem_getitem_other; auto; discriminate).
  unfold pd.getitem in H2, H2n, H2d |- *. cbn [pd.columns pd.rows].
  rewrite Ei in H2.
  destruct (pd.index_of "Nama" (pd.columns df2)) as [jn|]; [|discriminate].
  destruct (pd.index_of "DeskripsiObat" (pd.columns df2)) as [jd|];
    [|discriminate].
  injection H2 as H2. injection H2n as H2n. injection H2d as H2d.
  split.
  - intros t. fold values. rewrite <- H2. split.
    + intros Hin. apply in_map_iff in Hin. destruct Hin as (r & <- & Hr).
      apply dedup_rows_In in Hr. destruct Hr as [Hr _].
      apply in_map_iff. eauto.
    + intros Hin. apply in_map_iff in Hin. destruct Hin as (r & <- & Hr).
      destruct (dedup_rows_keys i [] (pd.rows df2) r Hr) as [[]|H].
      exact H.
  - do 2 eexists. split; [reflexivity|]. split; [reflexivity|].
    rewrite series_concat_map.
    apply map_ext_in. intros r Hr. apply dedup_rows_In in Hr.
    destruct Hr as [Hr _].
    assert (Hall : map (fun r => nth i r "") (pd.rows df2)
                   = map (fun r => nth jn r "" ++ " - " ++ nth jd r "")
                       (pd.rows df2)).
    { rewrite H2. unfold values. rewrite <- H2n, <- H2d.
      apply series_concat_map. }
    exact (ext_in_map Hall r Hr).
Qed.

(** ** What [_load_drug_database] publishes *)

(** Two outcomes of one call are one outcome. *)
Ltac same_calls :=
  repeat match goal with
         | H1 : ?x = Return ?a, H2 : ?x = Return ?b |- _ =>
             first [ constr_eq a b; clear H2
                   | rewrite H1 in H2; injection H2 as H2;
                     first [subst b | subst a] ]
         | H1 : ?x = Some ?a, H2 : ?x = Some ?b |- _ =>
             first [ constr_eq a b; clear H2
                   | rewrite H1 in H2; injection H2 as H2;
                     first [subst b | subst a] ]
         | H1 : ?x = Return _, H2 : ?x = Raise _ |- _ =>
             rewrite H1 in H2; discriminate H2
         | H1 : ?x = Some _, H2 : ?x = None |- _ =>
             rewrite H1 in H2; discriminate H2
         end.

Lemma _load_drug_database_catalog (w : World) (p : DrugPredictor) :
  wpi (fun _ => True) (_load_drug_database w) p
    (fun o s =>
       exists b, o = Return b
         /\ (b = true ->
             exists csv df,
               os_path_exists w (CSV_PATH (config p)) = true
               /\ read_csv w (CSV_PATH (config p)) = Return csv
               /\ catalog_of csv = Some df
               /\ df_drugs s = Some df)).
Proof.
  unfold _load_drug_database.
  wpi_steps ltac:(exact Logic.I);
    (eexists; split; [reflexivity|]; intros Hb; try discriminate Hb).
  do 2 eexists. split; [now destruct (os_path_exists w _)|].
  split; [reflexivity|]. split; [|reflexivity].
  unfold catalog_of.
  repeat match goal with
         | H : pd.getitem _ _ = Some _ |- _ => rewrite H; clear H
         end.
  assumption.
Qed.

(** X7. When [_load_drug_database] returns [True], the frame it
    leaves in [df_drugs] is the catalog of the frame [read_csv]
    returned: the texts of its column [ObatLengkap] are pairwise
    distinct and it has no more rows than the file; and, the frame read
    being rectangular, every text of the file is among those texts and
    every row reads [Nama - DeskripsiObat] in [ObatLengkap]. The
    method never raises. *)
Theorem load_publishes_distinct_texts (w : World) (p : DrugPredictor) :
  let r := run (_load_drug_database w) p in
  (exists b, fst r = Return b)
  /\ (fst r = Return true ->
      exists csv df texts,
        read_csv w (CSV_PATH (config p)) = Return csv
        /\ df_drugs (self (snd r)) = Some df
        /\ pd.getitem df "ObatLengkap" = Some texts
        /\ NoDup texts
        /\ (pd.len df <= pd.len csv)%nat
        /\ (rectangular csv ->
            forall nama deskripsi,
              pd.getitem csv "Nama" = Some nama ->
              pd.getitem csv "DeskripsiObat" = Some deskripsi ->
              (forall t, In t texts
                         <-> In t (pd.series_concat nama " - " deskripsi))
              /\ exists nama' deskripsi',
                   pd.getitem df "Nama" = Some nama'
                   /\ pd.getitem df "DeskripsiObat" = Some deskripsi'
                   /\ texts = pd.series_concat nama' " - " deskripsi')).
Proof.
  cbv zeta.
  destruct (wpi_run _ _ _ _ (_load_drug_database_catalog w p))
    as (_ & _ & b & Hb & Ht).
  split; [eauto|]. intros Hr. rewrite Hr in Hb. injection Hb as <-.
  destruct (Ht eq_refl) as (csv & df & _ & Hcsv & Hcat & Hdf).
  destruct (catalog_of_texts _ _ Hcat) as [texts Htexts].
  exists csv, df, texts.
  split; [exact Hcsv|]. split; [exact Hdf|]. split; [exact Htexts|].
  exact (catalog_of_spec csv df texts Hcat Htexts).
Qed.

Lemma load_publishes_distinct_texts_witness :
  exists df,
    df_drugs (self (snd (run (_load_drug_database aba_world)
                           (__init__ default_config)))) = Some df
    /\ pd.getitem df "ObatLengkap" = Some ["A - a"; "B - b"].
Proof.
  pose proof (load_publishes_distinct_texts aba_world
                (__init__ default_config)) as H.
  cbv zeta in H. destruct H as (_ & H).
  assert (Hr : fst (run (_load_drug_database aba_world)
                      (__init__ default_config)) = Return true)
    by (vm_compute; reflexivity).
  destruct (H Hr) as (csv & df & texts & _ & Hdf & Ht & _).
  exists df. split; [exact Hdf|].
  assert (E : df_drugs (self (snd (run (_load_drug_database aba_world)
                                     (__init__ default_config))))
              = Some (pd.mkDataFrame ["Nama"; "DeskripsiObat"; "ObatLengkap"]
                        [["A"; "a"; "A - a"]; ["B"; "b"; "B - b"]]))
    by (vm_compute; reflexivity).
  rewrite E in Hdf. injection Hdf as <-. reflexivity.
Defined.

(** ** When a build succeeds *)

(** What a run of [_initialize_sync] with configuration [cfg] needs of
    the world [w] to go through: the login, if a token is configured,
    the model [m], the file and the frame [csv] read from it, the
    catalog [df] of that frame with its [texts], and their embeddings
    [e]. *)
Definition goes_through (w : World) (cfg : Config)
    (m : SentenceTransformer) (csv df : pd.DataFrame)
    (texts : list string) (e : ndarray) : Prop :=
  match token_of cfg with
  | Some token => login w token = Return tt
  | None => True
  end
  /\ load_model w (MODEL_NAME cfg) = Return m
  /\ os_path_exists w (CSV_PATH cfg) = true
  /\ read_csv w (CSV_PATH cfg) = Return csv
  /\ catalog_of csv = Some df
  /\ pd.getitem df "ObatLengkap" = Some texts
  /\ encode m texts = Return e.

Lemma _initialize_sync_goes_through (w : World) (p : DrugPredictor) :
  status_of p <> completed -> status_of p <> in_progress ->
  wpi (fun _ => True) (_initialize_sync w) p
    (fun o s =>
       (o = Return true \/ o = Return false)
       /\ (o = Return true ->
           exists m csv df texts e, goes_through w (config p) m csv df texts e)
       /\ (forall m csv df texts e,
             goes_through w (config p) m csv df texts e ->
             o = Return true
             /\ status_of s = completed
             /\ error (initialization_status s) = None
             /\ model s = Some m /\ df_drugs s = Some df
             /\ drug_embeddings s = Some e)).
Proof.
  intros Hc Hi. unfold _initialize_sync.
  wpi_steps ltac:(exact Logic.I); status_cases; try contradiction.
  all: (split; [auto|]).
  all: split;
    [ intros Ho; try discriminate Ho
    | intros m' csv' df' texts' e'
        (Hlogin & Hmodel & Hexists & Hread & Hcat & Htexts & Hencode);
      try (pose proof (catalog_of_required _ _ Hcat));
      unfold catalog_of in Hcat;
      repeat match goal with
             | H : token_of _ = _ |- _ => rewrite H in Hlogin
             | H : negb _ = _ |- _ => rewrite Hexists in H; discriminate H
             end;
      same_calls;
      repeat match goal with
             | H : pd.getitem ?d ?c = _, H' : context [pd.getitem ?d ?c] |- _ =>
                 rewrite H in H'
             end;
      same_calls; try congruence ].
  all: try (repeat match goal with |- _ /\ _ => split end; reflexivity).
  all: do 5 eexists; unfold goes_through;
    repeat match goal with
           | H : token_of _ = _ |- _ => rewrite H
           | H : login _ _ = Return ?a |- _ => destruct a
           end;
    repeat match goal with |- _ /\ _ => split end;
    first [ eassumption
          | exact Logic.I
          | now destruct (os_path_exists w _)
          | unfold catalog_of;
            repeat match goal with
                   | H : pd.getitem _ _ = Some _ |- _ => rewrite H; clear H
                   end;
            eassumption ].
Qed.

(** X8. A run of [_initialize_sync] that starts (the status being
    neither [completed] nor [in_progress]) returns [True] exactly when
    every step goes through: the login if a token is configured, the
    model load, the file check, the read, the two required columns and
    the encoder on the texts of the catalog. It then leaves the status
    [completed], clears the error and publishes that model, that
    catalog and those embeddings; it returns [False] otherwise, and
    never raises. *)
Theorem build_succeeds_exactly_when (w : World) (p : DrugPredictor) :
  status_of p = not_started \/ status_of p = failed ->
  let r := run (_initialize_sync w) p in
  let s := self (snd r) in
  (fst r = Return true \/ fst r = Return false)
  /\ (fst r = Return true
      <-> exists m csv df texts e,
            goes_through w (config p) m csv df texts e)
  /\ (forall m csv df texts e,
        goes_through w (config p) m csv df texts e ->
        status_of s = completed
        /\ error (initialization_status s) = None
        /\ model s = Some m /\ df_drugs s = Some df
        /\ drug_embeddings s = Some e).
Proof.
  intros Hp. cbv zeta.
  assert (Hc : status_of p <> completed) by (destruct Hp; congruence).
  assert (Hi : status_of p <> in_progress) by (destruct Hp; congruence).
  destruct (wpi_run _ _ _ _ (_initialize_sync_goes_through w p Hc Hi))
    as (_ & _ & Hb & Hif & Hall).
  split; [exact Hb|]. split; [split; [exact Hif|]|].
  - intros (m & csv & df & texts & e & H).
    exact (proj1 (Hall m csv df texts e H)).
  - intros m csv df texts e H. exact (proj2 (Hall m csv df texts e H)).
Qed.

Lemma abc_goes_through :
  exists df texts e,
    goes_through abc_world default_config abc_encoder abc_csv df texts e.
Proof.
  destruct (catalog_of_Some abc_csv eq_refl eq_refl) as (df & texts & Hc & Ht).
  exists df, texts, (map abc_vector texts). unfold goes_through.
  repeat match goal with |- _ /\ _ => split end;
    try reflexivity; assumption.
Qed.

Lemma build_succeeds_exactly_when_witness :
  fst (run (_initialize_sync abc_world) (__init__ default_config))
  = Return true.
Proof.
  pose proof (build_succeeds_exactly_when abc_world
                (__init__ default_config) (or_introl eq_refl)) as H.
  cbv zeta in H. destruct H as (_ & H & _). apply H.
  destruct abc_goes_through as (df & texts & e & Hg).
  exists abc_encoder, abc_csv, df, texts, e. exact Hg.
Defined.

(** ** What a failed run records *)

Ltac impossible_frame :=
  exfalso;
  match goal with
  | Hf : filter _ required_columns = [], Hg : pd.getitem _ _ = None |- _ =>
      let Hn := fresh in
      let Hd := fresh in
      destruct (required_columns_present _ Hf) as [Hn Hd];
      destruct (has_column_getitem _ _ Hn);
      destruct (has_column_getitem _ _ Hd); congruence
  | H : pd.drop_duplicates (pd.setitem _ ?c _) ?c = None |- _ =>
      unfold pd.drop_duplicates in H; rewrite setitem_index_of in H;
      discriminate H
  | Hd : pd.drop_duplicates (pd.setitem _ ?c _) ?c = Some ?d,
    Hg : pd.getitem ?d ?c = None |- _ =>
      unfold pd.getitem in Hg;
      rewrite (drop_duplicates_columns _ _ _ Hd), setitem_index_of in Hg;
      discriminate Hg
  end.

Ltac cause_tac :=
  lazymatch goal with
  | |- _ /\ _ => split; [cause_tac | cause_tac]
  | |- exists _, _ => eexists; cause_tac
  | |- _ \/ _ => first [ left; solve [cause_tac] | right; solve [cause_tac] ]
  | |- _ =>
      first [ eassumption | reflexivity | discriminate
            | now destruct (os_path_exists _ _) ]
  end.

(** What a failed run leaves in [s], having started from [p]. *)
Definition failure_report (w : World) (p s : DrugPredictor) : Prop :=
  let cfg := config p in
  let i := initialization_status s in
  status i = failed
  /\ exists reason,
       ((exists token exc,
           token_of cfg = Some token /\ login w token = Raise exc
           /\ reason = exc_str exc)
        /\ progress i = 0%Z
        /\ error i = Some ("Initialization failed: " ++ reason)
        /\ message i = "Initialization failed: " ++ reason)
       \/ ((exists exc,
              load_model w (MODEL_NAME cfg) = Raise exc
              /\ reason = exc_str exc)
           /\ progress i = 20%Z
           /\ error i = Some ("Initialization failed: " ++ reason)
           /\ message i = "Initialization failed: " ++ reason)
       \/ ((os_path_exists w (CSV_PATH cfg) = false
            /\ reason = "CSV file not found: " ++ CSV_PATH cfg
            \/ (exists exc,
                  read_csv w (CSV_PATH cfg) = Raise exc
                  /\ reason = exc_str exc)
            \/ (exists csv missing,
                  read_csv w (CSV_PATH cfg) = Return csv
                  /\ filter (fun col => negb (pd.has_column csv col))
                       required_columns = missing
                  /\ missing <> []
                  /\ reason
                     = "Missing columns: " ++ PyStr.repr_list missing
                       ++ ". Available: "
                       ++ PyStr.repr_list (pd.columns csv)))
           /\ progress i = 60%Z
           /\ error i = Some ("Error loading drug database: " ++ reason)
           /\ message i = "Loading drug database...")
       \/ ((exists m texts exc,
              model s = Some m /\ encode m texts = Raise exc
              /\ reason = exc_str exc)
           /\ progress i = 80%Z
           /\ error i = Some ("Error generating embeddings: " ++ reason)
           /\ message i = "Generating embeddings...").

Lemma _initialize_sync_failure (w : World) (p : DrugPredictor) :
  status_of p <> completed -> status_of p <> in_progress ->
  wpi (fun _ => True) (_initialize_sync w) p
    (fun o s => o = Return false -> failure_report w p s).
Proof.
  intros Hc Hi. unfold _initialize_sync.
  wpi_steps ltac:(exact Logic.I); status_cases; try contradiction.
  all: intros Ho; try discriminate Ho; unfold failure_report; cbv zeta;
    state_simpl; cbn [exc_str]; try impossible_frame.
  all: (split; [reflexivity|]); eexists.
  all: solve [cause_tac].
Qed.

(** X9. A run of [_initialize_sync] that starts and returns [False]
    has stopped at one of four steps, and what it leaves tells which:
    the login or the model load raised (progress 0 or 20, the error and
    the message read "Initialization failed: " and the text of the
    exception); the database could not be loaded (progress 60, the
    error reads "Error loading drug database: " and the file that is
    missing, the text of the exception [read_csv] raised, or the
    columns that are missing; the message is still "Loading drug
    database..."); or the encoder raised (progress 80, "Error
    generating embeddings: " and the text of the exception; the message
    is still "Generating embeddings..."). *)
Theorem failed_run_names_its_step (w : World) (p : DrugPredictor) :
  status_of p = not_started \/ status_of p = failed ->
  let r := run (_initialize_sync w) p in
  fst r = Return false ->
  let cfg := config p in
  let s := self (snd r) in
  let i := initialization_status s in
  status i = failed
  /\ exists reason,
       ((exists token exc,
           token_of cfg = Some token /\ login w token = Raise exc
           /\ reason = exc_str exc)
        /\ progress i = 0%Z
        /\ error i = Some ("Initialization failed: " ++ reason)
        /\ message i = "Initialization failed: " ++ reason)
       \/ ((exists exc,
              load_model w (MODEL_NAME cfg) = Raise exc
              /\ reason = exc_str exc)
           /\ progress i = 20%Z
           /\ error i = Some ("Initialization failed: " ++ reason)
           /\ message i = "Initialization failed: " ++ reason)
       \/ ((os_path_exists w (CSV_PATH cfg) = false
            /\ reason = "CSV file not found: " ++ CSV_PATH cfg
            \/ (exists exc,
                  read_csv w (CSV_PATH cfg) = Raise exc
                  /\ reason = exc_str exc)
            \/ (exists csv missing,
                  read_csv w (CSV_PATH cfg) = Return csv
                  /\ filter (fun col => negb (pd.has_column csv col))
                       required_columns = missing
                  /\ missing <> []
                  /\ reason
                     = "Missing columns: " ++ PyStr.repr_list missing
                       ++ ". Available: "
                       ++ PyStr.repr_list (pd.columns csv)))
           /\ progress i = 60%Z
           /\ error i = Some ("Error loading drug database: " ++ reason)
           /\ message i = "Loading drug database...")
       \/ ((exists m texts exc,
              model s = Some m /\ encode m texts = Raise exc
              /\ reason = exc_str exc)
           /\ progress i = 80%Z
           /\ error i = Some ("Error generating embeddings: " ++ reason)
           /\ message i = "Generating embeddings...").
Proof.
  intros Hp. cbv zeta. intros Hr.
  assert (Hc : status_of p <> completed) by (destruct Hp; congruence).
  assert (Hi : status_of p <> in_progress) by (destruct Hp; congruence).
  destruct (wpi_run _ _ _ _ (_initialize_sync_failure w p Hc Hi))
    as (_ & _ & H).
  exact (H Hr).
Qed.

Lemma failed_run_names_its_step_witness :
  let i := initialization_status
             (self (snd (first_run missing_columns_world))) in
  status i = failed /\ progress i = 60%Z
  /\ message i = "Loading drug database...".
Proof.
  cbv zeta. unfold first_run.
  assert (Hr : fst (run (_initialize_sync missing_columns_world)
                      (__init__ default_config)) = Return false)
    by (vm_compute; reflexivity).
  pose proof (failed_run_names_its_step missing_columns_world
                (__init__ default_config) (or_introl eq_refl)) as H.
  cbv zeta in H. destruct (H Hr) as (Hs & _).
  split; [exact Hs|]. vm_compute. split; reflexivity.
Defined.

(** ** The progress and the calls of a run *)

Lemma _initialize_sync_progress (w : World) (p : DrugPredictor) :
  status_of p <> completed -> status_of p <> in_progress ->
  wpo (fun s => progress (initialization_status s)) (_initialize_sync w)
    p [] []
    (fun o _ tr _ =>
       exists rest,
         rev tr = progress (initialization_status p) :: rest
         /\ hd_error rest = Some 0%Z
         /\ Sorted Z.le rest
         /\ Forall (fun x => (0 <= x <= 100)%Z) rest
         /\ (o = Return true <-> last rest 0%Z = 100%Z)
         /\ (List.length tr <= 25)%nat).
Proof.
  intros Hc Hi. unfold _initialize_sync.
  wpo_steps; status_cases; try contradiction.
  all: cbn [rev app]; eexists; (split; [reflexivity|]);
    (split; [reflexivity|]);
    (split; [repeat constructor; lia|]);
    (split; [repeat constructor; lia|]);
    (split; [|cbn [List.length]; lia]);
    cbn [last]; split; intros H; first [reflexivity | discriminate H].
Qed.

(** X10. In a run of [_initialize_sync] that starts, the first write
    sets the status and leaves the progress of the run before in
    place; the second resets it to 0; from there on the progress
    written never decreases and stays within 0 and 100, and it ends at
    100 exactly when the run returns [True]. A run makes 25 writes at
    most. *)
Theorem progress_never_decreases (w : World) (p : DrugPredictor) :
  status_of p = not_started \/ status_of p = failed ->
  let r := run (_initialize_sync w) p in
  let written :=
    rev (map (fun s => progress (initialization_status s))
           (seen (snd r))) in
  exists rest,
    written = progress (initialization_status p) :: rest
    /\ hd_error rest = Some 0%Z
    /\ Sorted Z.le rest
    /\ Forall (fun x => (0 <= x <= 100)%Z) rest
    /\ (fst r = Return true <-> last rest 0%Z = 100%Z)
    /\ (List.length written <= 25)%nat.
Proof.
  intros Hp. cbv zeta.
  assert (Hc : status_of p <> completed) by (destruct Hp; congruence).
  assert (Hi : status_of p <> in_progress) by (destruct Hp; congruence).
  destruct (wpo_run _ _ _ _ (_initialize_sync_progress w p Hc Hi))
    as (rest & H1 & H2 & H3 & H4 & H5 & H6).
  exists rest. rewrite length_rev. auto 10.
Qed.

Lemma progress_never_decreases_witness :
  exists rest,
    rev (map (fun s => progress (initialization_status s))
           (seen (snd (run (_initialize_sync failing_encoder_world)
                         (__init__ default_config)))))
    = 0%Z :: rest
    /\ Sorted Z.le rest
    /\ last rest 0%Z <> 100%Z.
Proof.
  destruct (progress_never_decreases failing_encoder_world
              (__init__ default_config) (or_introl eq_refl))
    as (rest & H1 & _ & H3 & _ & H5 & _).
  exists rest. split; [exact H1|]. split; [exact H3|].
  intros Hl. apply H5 in Hl. vm_compute in Hl. discriminate Hl.
Defined.

(** The calls a run makes when every step goes through, in order. *)
Definition all_calls (cfg : Config) (texts : list string) : list Call :=
  (match token_of cfg with
   | Some token => [call_login token]
   | None => []
   end
   ++ [call_SentenceTransformer (MODEL_NAME cfg);
       call_exists (CSV_PATH cfg);
       call_read_csv (CSV_PATH cfg);
       call_encode texts])%list.

Lemma _initialize_sync_calls (w : World) (p : DrugPredictor) :
  status_of p <> completed -> status_of p <> in_progress ->
  wpo (fun _ => tt) (_initialize_sync w) p [] []
    (fun o s _ cs =>
       exists texts rest,
         (rev cs ++ rest = all_calls (config p) texts)%list
         /\ (o = Return true -> rest = [])
         /\ (os_path_exists w (CSV_PATH (config p)) = false ->
             ~ In (call_read_csv (CSV_PATH (config p))) (rev cs))
         /\ (In (call_encode texts) (rev cs) ->
             exists csv df,
               read_csv w (CSV_PATH (config p)) = Return csv
               /\ catalog_of csv = Some df
               /\ pd.getitem df "ObatLengkap" = Some texts)).
Proof.
  intros Hc Hi. unfold _initialize_sync, all_calls.
  wpo_steps; status_cases; try contradiction.
  all: lazymatch goal with
       | |- context [rev (call_encode ?t :: _)] => exists t
       | |- _ => exists []
       end;
    cbn [rev app]; eexists; (split; [reflexivity|]);
    (split; [intros H; first [reflexivity | discriminate H]|]);
    (split;
     [ intros Hf Hin;
       first [ rewrite Hf in *; discriminate
             | simpl in Hin; intuition discriminate ]
     | intros Hin ]).
  all: try (simpl in Hin; intuition discriminate).
  all: do 2 eexists; split; [reflexivity|]; split; [|eassumption];
    unfold catalog_of;
    repeat match goal with
           | H : pd.getitem _ _ = Some _ |- _ => rewrite H; clear H
           end;
    assumption.
Qed.

(** X11. The external calls of a run of [_initialize_sync] that
    starts are an initial part of: the login (only if a token is
    configured), the model load, the file check, the read, and one call
    of the encoder. All of them are made when the run returns [True];
    the file is not read when the check says it is missing; and the
    encoder is called on the texts of the catalog of the frame read. *)
Theorem calls_of_a_run (w : World) (p : DrugPredictor) :
  status_of p = not_started \/ status_of p = failed ->
  let cfg := config p in
  let r := run (_initialize_sync w) p in
  let made := rev (calls (snd r)) in
  exists texts rest,
    (made ++ rest = all_calls cfg texts)%list
    /\ (fst r = Return true -> rest = [])
    /\ (os_path_exists w (CSV_PATH cfg) = false ->
        ~ In (call_read_csv (CSV_PATH cfg)) made)
    /\ (In (call_encode texts) made ->
        exists csv df,
          read_csv w (CSV_PATH cfg) = Return csv
          /\ catalog_of csv = Some df
          /\ pd.getitem df "ObatLengkap" = Some texts).
Proof.
  intros Hp. cbv zeta.
  assert (Hc : status_of p <> completed) by (destruct Hp; congruence).
  assert (Hi : status_of p <> in_progress) by (destruct Hp; congruence).
  exact (wpo_run _ _ _ _ (_initialize_sync_calls w p Hc Hi)).
Qed.

Lemma calls_of_a_run_witness :
  ~ In (call_read_csv (CSV_PATH default_config))
      (rev (calls (snd (run (_initialize_sync no_file_world)
                          (__init__ default_config))))).
Proof.
  destruct (calls_of_a_run no_file_world (__init__ default_config)
              (or_introl eq_refl)) as (texts & rest & _ & _ & H & _).
  exact (H eq_refl).
Defined.

(** ** What [predict] returns *)

Section PredictResults.

Lemma format_results_spec (df : pd.DataFrame) (pairs : list (nat * float)) :
  forall (i : nat) (rs : list Prediction),
    format_results df i pairs = Return rs ->
    map rank rs = seq (i + 1) (List.length pairs)
    /\ map similarity_score rs = map snd pairs
    /\ map confidence rs
       = map (fun ix => _get_confidence_level (snd ix)) pairs
    /\ map (fun r => Some (nama_obat r)) rs
       = map (fun ix => pd.iloc df (fst ix) "Nama") pairs
    /\ map (fun r => Some (deskripsi_obat r)) rs
       = map (fun ix => pd.iloc df (fst ix) "DeskripsiObat") pairs.
Proof.
  induction pairs as [|[idx score] t IH]; intros i rs; simpl.
  - intros [= <-]. repeat split; reflexivity.
  - destruct (pd.iloc df idx "Nama") as [nama|]; [|discriminate].
    destruct (pd.iloc df idx "DeskripsiObat") as [deskripsi|];
      [|discriminate].
    destruct (format_results df (S i) t) as [r|e] eqn:E; [|discriminate].
    intros [= <-]. destruct (IH _ _ E) as (H1 & H2 & H3 & H4 & H5).
    simpl. rewrite H1, H2, H3, H4, H5.
    replace (S i + 1)%nat with (S (i + 1)) by lia.
    repeat split; reflexivity.
Qed.

Lemma take_spec {A} (d : A) (a : list A) (idxs : list nat) (r : list A) :
  np.take a idxs = Some r ->
  r = map (fun i => nth i a d) idxs
  /\ Forall (fun i => (i < List.length a)%nat) idxs.
Proof.
  revert r. induction idxs as [|i t IH]; simpl; intros r.
  - intros [= <-]. split; [reflexivity | constructor].
  - destruct (nth_error a i) as [x|] eqn:E; [|discriminate].
    destruct (np.take a t) as [r'|]; [|discriminate].
    intros [= <-]. destruct (IH _ eq_refl) as [-> Hall].
    split.
    + f_equal. symmetry. now apply nth_error_nth.
    + constructor; [|exact Hall]. apply nth_error_Some. congruence.
Qed.

Lemma combine_map_r {A B} (f : A -> B) (l : list A) :
  combine l (map f l) = map (fun x => (x, f x)) l.
Proof. induction l as [|a l IH]; simpl; [reflexivity|]. now rewrite IH. Qed.

(** What [predict] has computed when it returns. *)
Lemma predict_Return (argsort : list float -> list nat)
    (cosine_similarity : ndarray -> ndarray -> Outcome ndarray)
    (p : DrugPredictor) (keluhan anamnesa : string) (top_k : Z)
    (rs : list Prediction) :
  predict argsort cosine_similarity p keluhan anamnesa top_k = Return rs ->
  exists m v df similarities,
    status_of p = completed
    /\ model p = Some m
    /\ encode m [PyStr.strip (keluhan ++ " " ++ anamnesa)] = Return v
    /\ df_drugs p = Some df
    /\ (exists S,
          cosine_similarity v match drug_embeddings p with
                              | Some e => e
                              | None => v
                              end = Return S
          /\ hd_error S = Some similarities)
    /\ Forall (fun i => (i < List.length similarities)%nat)
         (top_indices argsort similarities top_k)
    /\ format_results df 0
         (map (fun i => (i, nth i similarities 0%float))
            (top_indices argsort similarities top_k))
       = Return rs.
Proof.
  unfold predict.
  destruct (Status_eqb (status_of p) completed) eqn:Es; [|discriminate].
  apply Status_eqb_eq in Es. cbv zeta. cbn [negb].
  destruct (PyStr.truthy _); [|discriminate]. cbn [negb].
  destruct (model p) as [m|]; [|discriminate].
  destruct (encode m _) as [v|] eqn:Ev; [|discriminate].
  destruct (cosine_similarity v _) as [[|similarities rest]|] eqn:Ec;
    [discriminate| |discriminate].
  destruct (np.take similarities _) as [scores|] eqn:Et; [|discriminate].
  destruct (df_drugs p) as [df|]; [|discriminate].
  intros Hf. exists m, v, df, similarities.
  destruct (take_spec 0%float _ _ _ Et) as [-> Hb].
  rewrite combine_map_r in Hf.
  repeat match goal with |- _ /\ _ => split end; eauto.
Qed.

End PredictResults.

(** The results of [predict], read off the loop that formats them. *)
Lemma predict_Return_results (argsort : list float -> list nat)
    (cosine_similarity : ndarray -> ndarray -> Outcome ndarray)
    (p : DrugPredictor) (keluhan anamnesa : string) (top_k : Z)
    (rs : list Prediction) :
  predict argsort cosine_similarity p keluhan anamnesa top_k = Return rs ->
  exists m v df similarities,
    model p = Some m
    /\ encode m [PyStr.strip (keluhan ++ " " ++ anamnesa)] = Return v
    /\ df_drugs p = Some df
    /\ (exists S,
          cosine_similarity v match drug_embeddings p with
                              | Some e => e
                              | None => v
                              end = Return S
          /\ hd_error S = Some similarities)
    /\ let idxs := top_indices argsort similarities top_k in
       let score := fun i => nth i similarities 0%float in
       List.length rs = List.length idxs
       /\ map rank rs = seq 1 (List.length idxs)
       /\ map similarity_score rs = map score idxs
       /\ map confidence rs
          = map (fun i => _get_confidence_level (score i)) idxs
       /\ map (fun r => Some (nama_obat r)) rs
          = map (fun i => pd.iloc df i "Nama") idxs
       /\ map (fun r => Some (deskripsi_obat r)) rs
          = map (fun i => pd.iloc df i "DeskripsiObat") idxs.
Proof.
  intros H.
  destruct (predict_Return _ _ _ _ _ _ _ H)
    as (m & v & df & similarities & _ & Hm & Hv & Hdf & Hs & _ & Hf).
  exists m, v, df, similarities.
  split; [exact Hm|]. split; [exact Hv|]. split; [exact Hdf|].
  split; [exact Hs|]. cbv zeta.
  destruct (format_results_spec _ _ _ _ Hf) as (H1 & H2 & H3 & H4 & H5).
  rewrite length_map in H1. rewrite map_map in H2, H3, H4, H5.
  cbn [fst snd] in *.
  split; [|auto 10].
  rewrite <- (length_map rank), H1. apply length_seq.
Qed.

(** X12. When [predict] returns, it returns one result for each of
    the indices [np.argsort(similarities)[::-1][:top_k]], in that
    order: the ranks are 1, 2, 3, ...; a result carries the similarity
    of its index, the confidence level of that similarity, and the
    [Nama] and [DeskripsiObat] of the catalog row of that index. *)
Theorem predict_results (argsort : list float -> list nat)
    (cosine_similarity : ndarray -> ndarray -> Outcome ndarray)
    (p : DrugPredictor) (keluhan anamnesa : string) (top_k : Z)
    (rs : list Prediction) :
  predict argsort cosine_similarity p keluhan anamnesa top_k = Return rs ->
  exists m v df similarities,
    model p = Some m
    /\ encode m [PyStr.strip (keluhan ++ " " ++ anamnesa)] = Return v
    /\ df_drugs p = Some df
    /\ (exists S,
          cosine_similarity v match drug_embeddings p with
                              | Some e => e
                              | None => v
                              end = Return S
          /\ hd_error S = Some similarities)
    /\ let idxs := top_indices argsort similarities top_k in
       let score := fun i => nth i similarities 0%float in
       List.length rs = List.length idxs
       /\ map rank rs = seq 1 (List.length idxs)
       /\ map similarity_score rs = map score idxs
       /\ map confidence rs
          = map (fun i => _get_confidence_level (score i)) idxs
       /\ map (fun r => Some (nama_obat r)) rs
          = map (fun i => pd.iloc df i "Nama") idxs
       /\ map (fun r => Some (deskripsi_obat r)) rs
          = map (fun i => pd.iloc df i "DeskripsiObat") idxs.
Proof. exact (predict_Return_results argsort cosine_similarity p keluhan
               anamnesa top_k rs). Qed.

Lemma predict_results_witness :
  exists rs,
    predict np.argsort_stable abc_similarity abc_predictor "fever" "" 3
    = Return rs
    /\ map rank rs = [1; 2; 3]%nat.
Proof.
  assert (E : exists rs,
             predict np.argsort_stable abc_similarity abc_predictor "fever" "" 3
             = Return rs /\ List.length rs = 3%nat)
    by (vm_compute; eexists; split; reflexivity).
  destruct E as (rs & Hr & Hl). exists rs. split; [exact Hr|].
  destruct (predict_results _ _ _ _ _ _ _ Hr)
    as (m & v & df & similarities & _ & _ & _ & _ & H).
  cbv zeta in H. destruct H as (Hlen & Hrank & _).
  rewrite Hrank, <- Hlen, Hl. reflexivity.
Defined.

(** ** The confidence along the ranking *)

(** The four levels, in order. *)
Definition confidence_rank (c : Confidence) : nat :=
  match c with
  | very_low => 0
  | low => 1
  | medium => 2
  | high => 3
  end.

Section ConfidenceOrder.

Lemma ltb_false_leb (x y : float) :
  comparable x = true -> comparable y = true ->
  (x <? y)%float = false -> (y <=? x)%float = true.
Proof.
  intros Hx Hy. apply comparable_spec in Hx, Hy.
  rewrite ltb_spec, leb_spec. unfold SFltb, SFleb.
  rewrite (SFcompare_antisym (Prim2SF x) (Prim2SF y)).
  destruct (SFcompare (Prim2SF x) (Prim2SF y)) as [[]|] eqn:E; simpl;
    try congruence.
  apply SFcompare_None in E. tauto.
Qed.

Lemma less_comparable (x y : float) :
  comparable y = true -> np.less x y = (x <? y)%float.
Proof.
  intros Hy. unfold np.less.
  replace (y =? y)%float with true; [now rewrite orb_false_r|].
  symmetry. revert Hy. unfold comparable.
  rewrite leb_spec, eqb_spec. unfold SFleb, SFeqb.
  destruct (SFcompare (Prim2SF y) (Prim2SF y)) as [[]|] eqn:E;
    try discriminate; try reflexivity.
  intros _. pose proof (SFcompare_antisym (Prim2SF y) (Prim2SF y)) as Ha.
  rewrite E in Ha. discriminate Ha.
Qed.

(** A threshold passed by a score is passed by every score that numpy
    does not sort below it. *)
Lemma threshold_kept (t x y : float) :
  comparable t = true -> comparable x = true ->
  np.less x y = false -> (t <=? y)%float = true -> (t <=? x)%float = true.
Proof.
  intros Ht Hx Hxy Hty.
  apply ltb_false_leb; auto.
  rewrite <- (less_comparable x t Ht).
  apply less_le_trans with (b := y); [|exact Hxy].
  rewrite (less_comparable y t Ht). now apply leb_not_ltb.
Qed.

Lemma _get_confidence_level_monotone (x y : float) :
  comparable x = true -> np.less x y = false ->
  (confidence_rank (_get_confidence_level y)
   <= confidence_rank (_get_confidence_level x))%nat.
Proof.
  intros Hx Hxy. unfold _get_confidence_level.
  pose proof (threshold_kept 0.8 x y eq_refl Hx Hxy) as H8.
  pose proof (threshold_kept 0.6 x y eq_refl Hx Hxy) as H6.
  pose proof (threshold_kept 0.4 x y eq_refl Hx Hxy) as H4.
  destruct (0.8 <=? y)%float; [rewrite (H8 eq_refl); simpl; lia|].
  destruct (0.6 <=? y)%float;
    [rewrite (H6 eq_refl); destruct (0.8 <=? x)%float; simpl; lia|].
  destruct (0.4 <=? y)%float;
    [rewrite (H4 eq_refl);
     destruct (0.8 <=? x)%float, (0.6 <=? x)%float; simpl; lia|].
  simpl. lia.
Qed.

Lemma top_indices_descending_less (argsort : list float -> list nat)
    (similarities : list float) (top_k : Z) :
  sorts_ascending argsort ->
  StronglySorted
    (fun i j => np.less (nth i similarities 0%float)
                  (nth j similarities 0%float) = false)
    (top_indices argsort similarities top_k).
Proof.
  intros Hsort. unfold top_indices. apply StronglySorted_slice_to.
  exact (StronglySorted_rev _ _ (Hsort similarities)).
Qed.

Lemma StronglySorted_map {A B} (R : B -> B -> Prop) (f : A -> B)
    (l : list A) :
  StronglySorted (fun x y => R (f x) (f y)) l ->
  StronglySorted R (map f l).
Proof.
  induction 1 as [|a l Hs IH Ha]; simpl; constructor; auto.
  apply Forall_forall. intros y Hy. apply in_map_iff in Hy.
  destruct Hy as (x & <- & Hx). rewrite Forall_forall in Ha. auto.
Qed.

Lemma StronglySorted_impl_in {A} (R R' : A -> A -> Prop) (l : list A) :
  (forall x y, In x l -> In y l -> R x y -> R' x y) ->
  StronglySorted R l -> StronglySorted R' l.
Proof.
  intros H Hs. induction Hs as [|a l Hs IH Ha]; constructor.
  - apply IH. intros x y Hx Hy. apply H; now right.
  - rewrite Forall_forall in Ha |- *. intros y Hy.
    apply H; [now left | now right | auto].
Qed.

End ConfidenceOrder.

(** X13. [_get_confidence_level] is monotone: a score that is not a
    NaN gets at least the level of every score it is not below. So
    along the results of [predict], none of whose scores is a NaN, the
    confidence never rises: the levels read [high], then [medium], then
    [low], then [very_low]. This holds of every [argsort] that sorts in
    the order of numpy, whatever the size of the catalog. *)
Theorem confidence_never_rises
    (argsort : list float -> list nat)
    (cosine_similarity : ndarray -> ndarray -> Outcome ndarray)
    (p : DrugPredictor) (keluhan anamnesa : string) (top_k : Z)
    (rs : list Prediction) :
  sorts_ascending argsort ->
  predict argsort cosine_similarity p keluhan anamnesa top_k = Return rs ->
  Forall (fun r => comparable (similarity_score r) = true) rs ->
  (forall x y, comparable x = true -> (y <=? x)%float = true ->
     (confidence_rank (_get_confidence_level y)
      <= confidence_rank (_get_confidence_level x))%nat)
  /\ StronglySorted (fun a b => (b <= a)%nat)
       (map (fun r => confidence_rank (confidence r)) rs).
Proof.
  intros Hsort Hr Hcmp. split.
  - intros x y Hx Hyx. apply _get_confidence_level_monotone; [exact Hx|].
    rewrite (less_comparable x y (leb_comparable_l _ _ Hyx)).
    now apply leb_not_ltb.
  - destruct (predict_Return_results _ _ _ _ _ _ _ Hr)
      as (m & v & df & similarities & _ & _ & _ & _ & H).
    cbv zeta in H. destruct H as (_ & _ & Hscore & Hconf & _).
    rewrite <- (map_map confidence confidence_rank), Hconf, map_map.
    apply StronglySorted_map.
    apply (StronglySorted_impl_in
             (fun i j => np.less (nth i similarities 0%float)
                           (nth j similarities 0%float) = false));
      [|now apply top_indices_descending_less].
    intros i j Hi Hj Hless.
    apply _get_confidence_level_monotone; [|exact Hless].
    assert (Hin : In (nth i similarities 0%float)
                    (map similarity_score rs)).
    { rewrite Hscore. apply in_map_iff. eauto. }
    apply in_map_iff in Hin. destruct Hin as (r & <- & Hin).
    rewrite Forall_forall in Hcmp. now apply Hcmp.
Qed.

Lemma confidence_never_rises_witness :
  exists rs,
    predict np.argsort_stable abc_similarity abc_predictor "fever" "" 3
    = Return rs
    /\ StronglySorted (fun a b => (b <= a)%nat)
         (map (fun r => confidence_rank (confidence r)) rs).
Proof.
  assert (E : exists rs,
             predict np.argsort_stable abc_similarity abc_predictor "fever" "" 3
             = Return rs
             /\ forallb (fun r => comparable (similarity_score r)) rs = true)
    by (vm_compute; eexists; split; reflexivity).
  destruct E as (rs & Hr & Hc). exists rs. split; [exact Hr|].
  rewrite forallb_forall in Hc.
  exact (proj2 (confidence_never_rises _ _ _ _ _ _ _
                  (proj2 argsort_stable_is_argsort) Hr
                  (proj2 (Forall_forall _ _) Hc))).
Defined.

(** ** The query *)

Section Query.

Lemma rstrip_all_space (s : string) :
  PyStr.all_space s = true -> PyStr.rstrip s = "".
Proof.
  induction s as [|c t IH]; simpl; [reflexivity|].
  destruct (PyStr.isspace c) eqn:E; [|discriminate].
  simpl. intros H. now rewrite (IH H).
Qed.

Lemma rstrip_append_space (a b : string) :
  PyStr.all_space b = true -> PyStr.rstrip (a ++ b) = PyStr.rstrip a.
Proof.
  intros Hb. induction a as [|c t IH]; simpl.
  - now apply rstrip_all_space.
  - now rewrite IH.
Qed.

Lemma lstrip_rstrip_space (c : ascii) (s : string) :
  PyStr.isspace c = true ->
  PyStr.lstrip (PyStr.rstrip (String c s)) = PyStr.lstrip (PyStr.rstrip s).
Proof.
  intros Hc. simpl. destruct (PyStr.rstrip s) as [|c' t'].
  - now rewrite Hc.
  - simpl. now rewrite Hc.
Qed.

Lemma strip_append_space (a b : string) :
  PyStr.all_space b = true -> PyStr.strip (a ++ b) = PyStr.strip a.
Proof.
  intros Hb. unfold PyStr.strip. now rewrite rstrip_append_space.
Qed.

Lemma strip_space_append (a b : string) :
  PyStr.all_space a = true -> PyStr.strip (a ++ b) = PyStr.strip b.
Proof.
  unfold PyStr.strip. induction a as [|c t IH]; [reflexivity|].
  simpl PyStr.all_space. intros H. apply andb_true_iff in H.
  destruct H as [Hc Ht].
  change (String c t ++ b) with (String c (t ++ b)).
  rewrite lstrip_rstrip_space by exact Hc. now apply IH.
Qed.

Lemma lstrip_idempotent (s : string) :
  PyStr.lstrip (PyStr.lstrip s) = PyStr.lstrip s.
Proof.
  induction s as [|c t IH]; simpl; [reflexivity|].
  destruct (PyStr.isspace c) eqn:E; [exact IH|]. simpl. now rewrite E.
Qed.

End Query.

Section QueryStrip.

Lemma rstrip_lstrip (s : string) :
  PyStr.rstrip (PyStr.lstrip s) = PyStr.lstrip (PyStr.rstrip s).
Proof.
  induction s as [|c t IH]; [reflexivity|].
  destruct (PyStr.isspace c) eqn:E.
  - rewrite lstrip_rstrip_space by exact E. simpl PyStr.lstrip at 1.
    rewrite E. exact IH.
  - simpl PyStr.lstrip at 1. rewrite E. simpl.
    destruct (PyStr.rstrip t); rewrite ?E; simpl; rewrite ?E; reflexivity.
Qed.

Lemma rstrip_idempotent (s : string) :
  PyStr.rstrip (PyStr.rstrip s) = PyStr.rstrip s.
Proof.
  induction s as [|c t IH]; [reflexivity|]. simpl.
  destruct (PyStr.rstrip t) as [|c' t'] eqn:E.
  - destruct (PyStr.isspace c) eqn:Ec; simpl; [reflexivity|].
    now rewrite Ec.
  - simpl in IH |- *. now rewrite IH.
Qed.

Lemma strip_idempotent (s : string) :
  PyStr.strip (PyStr.strip s) = PyStr.strip s.
Proof.
  unfold PyStr.strip.
  now rewrite rstrip_lstrip, rstrip_idempotent, lstrip_idempotent.
Qed.

End QueryStrip.

(** X14. [predict] reads its two texts only through
    [f"{keluhan} {anamnesa}".strip()]: a text given as [keluhan] alone,
    the same text given as [anamnesa] alone, and that text stripped of
    the white space around it, get the same answer. *)
Theorem query_fields_interchangeable
    (argsort : list float -> list nat)
    (cosine_similarity : ndarray -> ndarray -> Outcome ndarray)
    (p : DrugPredictor) (text : string) (top_k : Z) :
  let predict := predict argsort cosine_similarity p in
  predict text "" top_k = predict "" text top_k
  /\ predict text "" top_k = predict (PyStr.strip text) "" top_k
  /\ PyStr.strip (text ++ " " ++ "") = PyStr.strip text
  /\ PyStr.strip ("" ++ " " ++ text) = PyStr.strip text.
Proof.
  cbv zeta.
  assert (H1 : PyStr.strip (text ++ " " ++ "") = PyStr.strip text)
    by now apply strip_append_space.
  assert (H2 : PyStr.strip ("" ++ " " ++ text) = PyStr.strip text)
    by now apply (strip_space_append " " text).
  assert (H3 : PyStr.strip (PyStr.strip text ++ " " ++ "")
               = PyStr.strip text).
  { rewrite strip_append_space by reflexivity. apply strip_idempotent. }
  unfold predict. rewrite H1, H2, H3. auto.
Qed.

(** ** What the route [/predict] answers *)

Section RouteAnswers.

Variable argsort : list float -> list nat.
Variable cosine_similarity : ndarray -> ndarray -> Outcome ndarray.
Variable cfg : Config.

Lemma predict_route_ready (p : DrugPredictor) (data : JSON) :
  status_of p = completed ->
  predict_route argsort cosine_similarity cfg p data
  = if negb (Py.truthy data) then
      {| payload := error_payload "No JSON data provided"; code := 400 |}
    else
      match data with
      | JDict items =>
          match Py.strip (Py.get items "keluhan" (JStr "")) with
          | Raise e => handle e
          | Return keluhan =>
              match Py.strip (Py.get items "anamnesa" (JStr "")) with
              | Raise e => handle e
              | Return anamnesa =>
                  if negb (PyStr.truthy keluhan)
                     && negb (PyStr.truthy anamnesa)
                  then
                    {| payload :=
                         error_payload
                           "Either keluhan or anamnesa must be provided";
                       code := 400 |}
                  else
                    match predict argsort cosine_similarity p
                            keluhan anamnesa
                            (Py.int_value
                               (checked_top_k cfg
                                  (Py.get items "top_k"
                                     (JInt (DEFAULT_TOP_K cfg))))) with
                    | Raise e => handle e
                    | Return predictions =>
                        {| payload :=
                             success_payload keluhan anamnesa
                               (checked_top_k cfg
                                  (Py.get items "top_k"
                                     (JInt (DEFAULT_TOP_K cfg))))
                               predictions (List.length predictions);
                           code := 200 |}
                    end
              end
          end
      | _ => handle (mkExc AttributeError "object has no attribute 'get'")
      end.
Proof.
  intros Hc. unfold predict_route, not_ready_response, is_ready.
  rewrite Hc. reflexivity.
Qed.

End RouteAnswers.

(** X15. How [/predict] answers a body it cannot serve. Before the
    predictor is ready the answer is 503 or 202 and does not depend on
    the body, which is not looked at. Once it is ready: a body that is
    false in Python ([null], [false], 0, an empty string, list or
    object) is answered 400 "No JSON data provided"; any other body
    that is not an object is answered 500; an object whose [keluhan] or
    [anamnesa] is present and not a string is answered 500; an object
    whose two texts are missing or blank is answered 400. *)
Theorem predict_route_rejects
    (argsort : list float -> list nat)
    (cosine_similarity : ndarray -> ndarray -> Outcome ndarray)
    (cfg : Config) (p : DrugPredictor) (data : JSON) :
  let answer := predict_route argsort cosine_similarity cfg p in
  let internal :=
    {| payload := error_payload "An internal error occurred";
       code := 500 |} in
  (status_of p <> completed ->
   (code (answer data) = 503%Z \/ code (answer data) = 202%Z)
   /\ forall data', answer data' = answer data)
  /\ (status_of p = completed ->
      (Py.truthy data = false ->
       answer data
       = {| payload := error_payload "No JSON data provided";
            code := 400 |})
      /\ (Py.truthy data = true -> (forall items, data <> JDict items) ->
          answer data = internal)
      /\ (forall items,
            data = JDict items -> items <> [] ->
            let keluhan := Py.get items "keluhan" (JStr "") in
            let anamnesa := Py.get items "anamnesa" (JStr "") in
            ((forall s, keluhan <> JStr s) \/ (forall s, anamnesa <> JStr s) ->
             answer data = internal)
            /\ (forall k a,
                  keluhan = JStr k -> anamnesa = JStr a ->
                  PyStr.strip k = "" -> PyStr.strip a = "" ->
                  answer data
                  = {| payload :=
                         error_payload
                           "Either keluhan or anamnesa must be provided";
                       code := 400 |}))).
Proof.
  cbv zeta. split.
  - intros Hn. unfold predict_route, not_ready_response, is_ready.
    destruct (status_of p) eqn:Es; try contradiction;
      cbn [Status_eqb negb code]; auto.
  - intros Hc. rewrite (predict_route_ready _ _ _ _ _ Hc).
    split; [intros ->; reflexivity|].
    split.
    + intros Ht Hd. rewrite Ht. cbn [negb].
      destruct data; try reflexivity. exfalso. eapply Hd. reflexivity.
    + intros items -> Hi.
      assert (Ht : Py.truthy (JDict items) = true)
        by (destruct items; [contradiction | reflexivity]).
      rewrite Ht. cbn [negb]. split.
      * intros [Hk|Ha].
        -- destruct (Py.get items "keluhan" (JStr "")); try reflexivity.
           exfalso. eapply Hk. reflexivity.
        -- destruct (Py.get items "keluhan" (JStr "")); try reflexivity.
           destruct (Py.get items "anamnesa" (JStr "")); try reflexivity.
           exfalso. eapply Ha. reflexivity.
      * intros k a -> -> Hk Ha. cbn [Py.strip]. now rewrite Hk, Ha.
Qed.

(** X16. What an error of the encoder becomes. On a ready predictor
    and a body with some text, when [encode] raises on the query the
    route answers through its handlers: a [ValueError] becomes a 400
    and a [RuntimeError] a 503, both with the text of the exception of
    the library; any other exception becomes 500 "An internal error
    occurred". *)
Theorem encoder_errors_reach_the_client
    (argsort : list float -> list nat)
    (cosine_similarity : ndarray -> ndarray -> Outcome ndarray)
    (cfg : Config) (p : DrugPredictor) (m : SentenceTransformer)
    (items : list (string * JSON)) (keluhan anamnesa : string)
    (e : Exception) :
  status_of p = completed -> model p = Some m ->
  Py.get items "keluhan" (JStr "") = JStr keluhan ->
  Py.get items "anamnesa" (JStr "") = JStr anamnesa ->
  PyStr.strip keluhan <> "" \/ PyStr.strip anamnesa <> "" ->
  encode m [PyStr.strip (PyStr.strip keluhan ++ " " ++ PyStr.strip anamnesa)]
  = Raise e ->
  let answer :=
    predict_route argsort cosine_similarity cfg p (JDict items) in
  (exc_class e = ValueError ->
   answer = {| payload := error_payload (exc_str e); code := 400 |})
  /\ (exc_class e = RuntimeError ->
      answer = {| payload := error_payload (exc_str e); code := 503 |})
  /\ (exc_class e <> ValueError -> exc_class e <> RuntimeError ->
      answer = {| payload := error_payload "An internal error occurred";
                  code := 500 |}).
Proof.
  intros Hc Hm Hk Ha Htext He. cbv zeta.
  assert (Hr : predict_route argsort cosine_similarity cfg p (JDict items)
               = handle e).
  { rewrite (predict_route_ready _ _ _ _ _ Hc).
    destruct items as [|item items'].
    { simpl in Hk, Ha. injection Hk as <-. injection Ha as <-.
      destruct Htext as [H|H]; exfalso; apply H; reflexivity. }
    cbn [Py.truthy negb]. rewrite Hk, Ha. cbn [Py.strip].
    assert (Hq : PyStr.strip (PyStr.strip keluhan ++ " "
                              ++ PyStr.strip anamnesa) <> "").
    { rewrite query_empty, !strip_strip_empty. tauto. }
    replace (negb (PyStr.truthy (PyStr.strip keluhan))
             && negb (PyStr.truthy (PyStr.strip anamnesa))) with false.
    2:{ destruct (PyStr.truthy (PyStr.strip keluhan)) eqn:Ek,
                 (PyStr.truthy (PyStr.strip anamnesa)) eqn:Ea;
          try reflexivity.
        apply truthy_false in Ek, Ea. tauto. }
    unfold predict. rewrite Hc. cbv zeta. cbn [Status_eqb negb].
    destruct (PyStr.truthy _) eqn:Et;
      [|apply truthy_false in Et; contradiction].
    cbn [negb]. now rewrite Hm, He. }
  rewrite Hr. unfold handle.
  split; [intros ->; reflexivity|]. split; [intros ->; reflexivity|].
  intros H1 H2. destruct (exc_class e); try reflexivity; contradiction.
Qed.

Lemma encoder_errors_reach_the_client_witness :
  predict_route np.argsort_stable abc_similarity default_config
    refusing_predictor (JDict [("keluhan", JStr "fever")])
  = {| payload := error_payload "input too long"; code := 400 |}.
Proof.
  assert (Hc : status_of refusing_predictor = completed)
    by (vm_compute; reflexivity).
  assert (Htext : PyStr.strip "fever" <> "" \/ PyStr.strip "" <> "")
    by (left; vm_compute; discriminate).
  pose proof (encoder_errors_reach_the_client np.argsort_stable abc_similarity
                default_config refusing_predictor
                {| encode :=
                     fun _ => Raise (mkExc ValueError "input too long") |}
                [("keluhan", JStr "fever")] "fever" ""
                (mkExc ValueError "input too long")
                Hc eq_refl eq_refl eq_refl Htext eq_refl) as H.
  cbv zeta in H. destruct H as (H & _). exact (H eq_refl).
Defined.

(** ** From start-up to the first answer *)

Section Serving.


(** A run that starts in a world where every step goes through. *)
Lemma run_goes_through (w : World) (p : DrugPredictor)
    (m : SentenceTransformer) (csv df : pd.DataFrame)
    (texts : list string) (e : ndarray) :
  status_of p = not_started \/ status_of p = failed ->
  goes_through w (config p) m csv df texts e ->
  let r := run (_initialize_sync w) p in
  fst r = Return true
  /\ status_of (self (snd r)) = completed
  /\ error (initialization_status (self (snd r))) = None
  /\ model (self (snd r)) = Some m
  /\ df_drugs (self (snd r)) = Some df
  /\ drug_embeddings (self (snd r)) = Some e.
Proof.
  intros Hp Hg. cbv zeta.
  assert (Hc : status_of p <> completed) by (destruct Hp; congruence).
  assert (Hi : status_of p <> in_progress) by (destruct Hp; congruence).
  destruct (wpi_run _ _ _ _ (_initialize_sync_goes_through w p Hc Hi))
    as (_ & _ & _ & _ & Hall).
  exact (Hall m csv df texts e Hg).
Qed.

Variable argsort : list float -> list nat.
Hypothesis argsort_ok : is_argsort argsort.
Variable cosine_similarity : ndarray -> ndarray -> Outcome ndarray.


End Serving.

(** How [create_app] fails: on the logging statement first, whatever
    the file; then on a missing file. *)
Lemma create_app_raises (cfg : Config)
    (basicConfig : string -> Outcome unit) (path_exists : string -> bool)
    (w : World) :
  (forall e, basicConfig (LOG_LEVEL cfg) = Raise e ->
     create_app cfg basicConfig path_exists w = Raise e)
  /\ (forall u, basicConfig (LOG_LEVEL cfg) = Return u ->
        path_exists (CSV_PATH cfg) = false ->
        create_app cfg basicConfig path_exists w
        = Raise (mkExc FileNotFoundError
                   ("Required file missing: " ++ CSV_PATH cfg))).
Proof.
  unfold create_app. split.
  - intros e ->. reflexivity.
  - intros u -> ->. reflexivity.
Qed.




(** After a build over a file with its header and no record the
    service is ready, and [/predict] answers 400 with the text of the
    [ValueError] that [cosine_similarity] raises. *)
Example header_only_service :
  let sys :=
    run_actions (do_initialize true header_only_world
                 :: repeat (do_step 0) 25) (start default_config) in
  status_code (readiness_check 0 (predictor sys)) = 200%Z
  /\ predict_route np.argsort_stable abc_similarity default_config
       (predictor sys) (JDict [("keluhan", JStr "fever")])
     = {| payload :=
            error_payload "Expected 2D array, got 1D array instead";
          code := 400 |}.
Proof. vm_compute. split; reflexivity. Qed.

(** X18. A failed build can be tried again through [POST
    /initialize]. On a process whose status is [failed], whose lock is
    free and whose last build thread has ended, the route answers
    "Initialization started" and starts one thread; if every step of
    the build now goes through, then once that thread has run the
    status is [completed], the error is cleared and the lock is free. *)
Theorem failed_build_can_be_retried
    (sys : System) (w : World) (m : SentenceTransformer)
    (csv df : pd.DataFrame) (texts : list string) (e : ndarray) (now : Q) :
  status_of (predictor sys) = failed ->
  _lock sys = None -> thread_is_alive sys = false ->
  goes_through w (config (predictor sys)) m csv df texts e ->
  let answer := fst (initialize_route now w sys) in
  let sys1 := snd (initialize_route now w sys) in
  answer_field answer "message" = JStr "Initialization started"
  /\ status_code answer = 200%Z
  /\ threads sys1 = (threads sys ++ [Waiting w])%list
  /\ exists n,
       let sys' :=
         run_actions (repeat (do_step (List.length (threads sys))) n) sys1 in
       status_of (predictor sys') = completed
       /\ error (initialization_status (predictor sys')) = None
       /\ drug_embeddings (predictor sys') = Some e
       /\ _lock sys' = None.
Proof.
  intros Hf Hl Ha Hg. cbv zeta.
  assert (Hroute : initialize_route now w sys
                   = ({| json := JDict [("status", JStr "success");
                                        ("message",
                                         JStr "Initialization started");
                                        ("estimated_time",
                                         JStr "2-5 minutes")];
                         status_code := 200 |},
                      snd (initialize true w sys))).
  { unfold initialize_route, get_status. cbn [r_status].
    unfold status_of in Hf. now rewrite Hf. }
  rewrite Hroute. cbn [fst snd].
  split; [reflexivity|]. split; [reflexivity|].
  split; [unfold initialize; now rewrite Ha|].
  exists (List.length (seen (snd (run (_initialize_sync w) (predictor sys))))
          + 2)%nat.
  destruct (initialize_then_run true w sys Hl (fun _ => Ha))
    as (Hp & Hl' & _).
  destruct (run_goes_through w (predictor sys) m csv df texts e
              (or_intror Hf) Hg) as (_ & Hc & He & _ & _ & Hemb).
  cbv zeta. rewrite Hp. auto.
Qed.

Lemma failed_build_can_be_retried_witness :
  status_of (predictor failed_system) = failed
  /\ exists n,
       status_of
         (predictor
            (run_actions (repeat (do_step 1) n)
               (snd (initialize_route 0%Q abc_world failed_system))))
       = completed.
Proof.
  unfold failed_system.
  assert (Hf : status_of
                 (predictor
                    (run_actions
                       (do_initialize true no_model_world
                        :: repeat (do_step 0) 13)
                       (start default_config))) = failed)
    by (vm_compute; reflexivity).
  assert (Hl : _lock
                 (run_actions
                    (do_initialize true no_model_world
                     :: repeat (do_step 0) 13)
                    (start default_config)) = None)
    by (vm_compute; reflexivity).
  assert (Ha : thread_is_alive
                 (run_actions
                    (do_initialize true no_model_world
                     :: repeat (do_step 0) 13)
                    (start default_config)) = false)
    by (vm_compute; reflexivity).
  assert (Hn : List.length
                 (threads
                    (run_actions
                       (do_initialize true no_model_world
                        :: repeat (do_step 0) 13)
                       (start default_config))) = 1%nat)
    by (vm_compute; reflexivity).
  assert (Hcfg : config
                   (predictor
                      (run_actions
                         (do_initialize true no_model_world
                          :: repeat (do_step 0) 13)
                         (start default_config))) = default_config)
    by (vm_compute; reflexivity).
  split; [exact Hf|].
  destruct abc_goes_through as (df & texts & e & Hg).
  rewrite <- Hcfg in Hg.
  pose proof (failed_build_can_be_retried _ abc_world abc_encoder abc_csv
                df texts e 0%Q Hf Hl Ha Hg) as H.
  cbv zeta in H. destruct H as (_ & _ & _ & n & Hc & _).
  rewrite Hn in Hc. exists n. exact Hc.
Defined.

(** ** [APIService.run] *)

(** X19. What [APIService.run] does before it starts the server, were
    it called: neither [create_app] nor [main] calls it, both start the
    server by [app.run] of Flask. Take a service that
    [APIService(config, DrugPredictor(config))] has just built, the
    logging statement returning on [LOG_LEVEL], with [AUTO_INITIALIZE]
    on, [DEBUG] off and a world in which every step of the build goes
    through. The constructor has started the build thread, and [run]
    waits for it. Its first poll finds the status [not_started]; the
    [initialize(background=True)] it then calls starts no second
    thread, the first one being alive; and if the build thread runs
    during the first sleep and that sleep ends within
    [STARTUP_TIMEOUT], the wait returns [True] after that one sleep, on
    a completed predictor, one thread having run. *)
Theorem run_waits_for_the_build
    (cfg : Config) (basicConfig : string -> Outcome unit) (w w' : World)
    (m : SentenceTransformer) (csv df : pd.DataFrame)
    (texts : list string) (e : ndarray)
    (nap : Nap) (naps : list Nap) (now : Q) :
  basicConfig (LOG_LEVEL cfg) = Return tt ->
  AUTO_INITIALIZE cfg = true -> DEBUG cfg = false ->
  goes_through w cfg m csv df texts e ->
  meanwhile nap
  = repeat (do_step 0)
      (List.length (seen (snd (run (_initialize_sync w) (__init__ cfg))))
       + 2) ->
  (time_sleep 1 nap < inject_Z (STARTUP_TIMEOUT cfg))%Q ->
  exists sys0 sys',
    APIService__init__ cfg basicConfig w (start cfg) = Return sys0
    /\ threads sys0 = [Waiting w]
    /\ snd (initialize true w' sys0) = sys0
    /\ APIService_run cfg (nap :: naps) w' now sys0
       = Some (Some true, (now + time_sleep 1 nap)%Q, sys')
    /\ status_of (predictor sys') = completed
    /\ drug_embeddings (predictor sys') = Some e
    /\ threads sys' = [Finished (Return true)].
Proof.
  intros Hlog Hauto Hdebug Hg Hnap Htime.
  set (sys0 := snd (initialize true w (start cfg))).
  set (sys' := run_actions (meanwhile nap) sys0).
  exists sys0, sys'.
  assert (Hinit : APIService__init__ cfg basicConfig w (start cfg)
                  = Return sys0)
    by (unfold APIService__init__; now rewrite Hlog, Hauto).
  assert (Halive : snd (initialize true w' sys0) = sys0) by reflexivity.
  destruct (initialize_then_run true w (start cfg) eq_refl (fun _ => eq_refl))
    as (Hp & _ & Ht & _).
  change (predictor (start cfg)) with (__init__ cfg) in Hp, Ht.
  change (List.length (threads (start cfg))) with 0%nat in Hp, Ht.
  fold sys0 in Hp, Ht. rewrite <- Hnap in Hp, Ht. fold sys' in Hp, Ht.
  destruct (run_goes_through w (__init__ cfg) m csv df texts e
              (or_introl eq_refl) Hg) as (Hr & Hc & _ & _ & _ & He).
  rewrite <- Hp in Hc, He. rewrite Hr in Ht.
  split; [exact Hinit|]. split; [reflexivity|]. split; [exact Halive|].
  split; [|split; [exact Hc|split; [exact He|exact Ht]]].
  unfold APIService_run. rewrite Hauto, Hdebug. cbn [andb negb].
  unfold wait_for_initialization, timeout_or_default.
  change (config (predictor sys0)) with cfg.
  pose proof (time_sleep_ge 1 nap) as Hs.
  cbn [wait_loop].
  destruct (Qlt_le_dec (now - now) (inject_Z (STARTUP_TIMEOUT cfg)))
    as [_|Hge]; [|exfalso; lra].
  change (status_of (predictor sys0)) with not_started. cbv iota.
  rewrite Halive. fold sys'.
  assert (Hloop : wait_loop naps w' (inject_Z (STARTUP_TIMEOUT cfg)) now
                    (now + time_sleep 1 nap)%Q sys'
                  = Some (true, (now + time_sleep 1 nap)%Q, sys')).
  { destruct naps; cbn [wait_loop];
      (destruct (Qlt_le_dec (now + time_sleep 1 nap - now)
                   (inject_Z (STARTUP_TIMEOUT cfg)))
        as [_|Hge]; [|exfalso; lra]);
      now rewrite Hc. }
  now rewrite Hloop.
Qed.

Lemma run_waits_for_the_build_witness :
  exists sys0 sys',
    APIService__init__ default_config abc_basicConfig abc_world
      (start default_config) = Return sys0
    /\ APIService_run default_config
         [{| elapsed := 3; meanwhile := repeat (do_step 0) 25 |}]
         no_model_world 100%Q sys0
       = Some (Some true, 103%Q, sys')
    /\ status_of (predictor sys') = completed.
Proof.
  destruct abc_goes_through as (df & texts & e & Hg).
  assert (Hn : repeat (do_step 0) 25
               = repeat (do_step 0)
                   (List.length
                      (seen (snd (run (_initialize_sync abc_world)
                                    (__init__ default_config)))) + 2))
    by (vm_compute; reflexivity).
  assert (Ht : (time_sleep 1
                  {| elapsed := 3; meanwhile := repeat (do_step 0) 25 |}
                < inject_Z (STARTUP_TIMEOUT default_config))%Q)
    by (vm_compute; reflexivity).
  destruct (run_waits_for_the_build default_config abc_basicConfig
              abc_world no_model_world abc_encoder abc_csv
              df texts e
              {| elapsed := 3; meanwhile := repeat (do_step 0) 25 |}
              [] 100%Q eq_refl eq_refl eq_refl Hg Hn Ht)
    as (sys0 & sys' & Hc & _ & _ & Hrun & Hs & _).
  exists sys0, sys'. split; [exact Hc|]. split; [|exact Hs].
  rewrite Hrun. reflexivity.
Defined.

(** ** The flags of the configuration *)

(** The four letters of "true", in any case. *)
Definition true_word (v : string) : Prop :=
  exists a b c d : ascii,
    v = String a (String b (String c (String d "")))
    /\ (a = "t" \/ a = "T")%char /\ (b = "r" \/ b = "R")%char
    /\ (c = "u" \/ c = "U")%char /\ (d = "e" \/ d = "E")%char.

Section Flags.

Lemma lower_char_t (c : ascii) :
  lower_char c = "t"%char <-> (c = "t" \/ c = "T")%char.
Proof.
  destruct c as [[] [] [] [] [] [] [] []]; vm_compute;
    split; intros H; try discriminate H; auto;
    destruct H as [H|H]; discriminate H.
Qed.

Lemma lower_char_r (c : ascii) :
  lower_char c = "r"%char <-> (c = "r" \/ c = "R")%char.
Proof.
  destruct c as [[] [] [] [] [] [] [] []]; vm_compute;
    split; intros H; try discriminate H; auto;
    destruct H as [H|H]; discriminate H.
Qed.

Lemma lower_char_u (c : ascii) :
  lower_char c = "u"%char <-> (c = "u" \/ c = "U")%char.
Proof.
  destruct c as [[] [] [] [] [] [] [] []]; vm_compute;
    split; intros H; try discriminate H; auto;
    destruct H as [H|H]; discriminate H.
Qed.

Lemma lower_char_e (c : ascii) :
  lower_char c = "e"%char <-> (c = "e" \/ c = "E")%char.
Proof.
  destruct c as [[] [] [] [] [] [] [] []]; vm_compute;
    split; intros H; try discriminate H; auto;
    destruct H as [H|H]; discriminate H.
Qed.

Lemma lower_true (v : string) : lower v = "true" <-> true_word v.
Proof.
  split.
  - destruct v as [|a [|b [|c [|d [|x t]]]]]; simpl; try discriminate.
    intros [= Ha Hb Hc Hd]. exists a, b, c, d.
    split; [reflexivity|].
    now rewrite <- lower_char_t, <- lower_char_r, <- lower_char_u,
      <- lower_char_e.
  - intros (a & b & c & d & -> & Ha & Hb & Hc & Hd). simpl.
    apply lower_char_t in Ha. apply lower_char_r in Hb.
    apply lower_char_u in Hc. apply lower_char_e in Hd.
    now rewrite Ha, Hb, Hc, Hd.
Qed.

Lemma getenv_flag_spec (environ : string -> option string)
    (key default : string) :
  getenv_flag environ key default = true
  <-> true_word (getenv environ key default).
Proof. unfold getenv_flag. now rewrite String.eqb_eq, lower_true. Qed.

End Flags.

(** X20. How [Config] reads the environment. With no variable set it
    is the default configuration. It raises exactly when one of
    [PORT], [MAX_TOP_K], [DEFAULT_TOP_K], [STARTUP_TIMEOUT] is set to a
    text [int] rejects. [DEBUG] is on exactly when the variable is set
    to the four letters of "true" in any case; [AUTO_INITIALIZE] is off
    exactly when the variable is set to anything else than those four
    letters, "1", "yes" and " true" with a blank included. *)
Theorem config_reads_the_environment
    (environ : string -> option string) (int : string -> Outcome Z) :
  Config_from_environment (fun _ => None) int = Return default_config
  /\ ((exists e, Config_from_environment environ int = Raise e)
      <-> exists key v e,
            In key ["PORT"; "MAX_TOP_K"; "DEFAULT_TOP_K"; "STARTUP_TIMEOUT"]
            /\ environ key = Some v /\ int v = Raise e)
  /\ (forall cfg,
        Config_from_environment environ int = Return cfg ->
        (DEBUG cfg = true
         <-> exists v, environ "DEBUG" = Some v /\ true_word v)
        /\ (AUTO_INITIALIZE cfg = false
            <-> exists v, environ "AUTO_INITIALIZE" = Some v
                          /\ ~ true_word v))
  /\ ~ true_word "1" /\ ~ true_word "yes" /\ ~ true_word " true"
  /\ true_word "TRUE".
Proof.
  split; [reflexivity|]. split; [|split].
  - unfold Config_from_environment, getenv_int. split.
    + intros [e H].
      repeat match type of H with
             | context [match environ ?k with _ => _ end] =>
                 destruct (environ k) eqn:?
             | context [match int ?x with _ => _ end] =>
                 destruct (int x) eqn:?
             end; try discriminate H;
        match goal with
        | Hk : environ ?k = Some ?v, Hi : int ?v = Raise ?e' |- _ =>
            exists k, v, e'; simpl; auto 10
        end.
    + intros (key & v & e & Hin & Hv & Hi).
      simpl in Hin.
      destruct Hin as [<-|[<-|[<-|[<-|[]]]]]; rewrite ?Hv, ?Hi;
        repeat match goal with
               | |- context [match environ ?k with _ => _ end] =>
                   destruct (environ k)
               | |- context [match int ?x with _ => _ end] =>
                   destruct (int x)
               end; eauto; try discriminate.
  - intros cfg H. unfold Config_from_environment in H.
    destruct (getenv_int environ int "PORT" 8000); [|discriminate].
    destruct (getenv_int environ int "MAX_TOP_K" 20); [|discriminate].
    destruct (getenv_int environ int "DEFAULT_TOP_K" 5); [|discriminate].
    destruct (getenv_int environ int "STARTUP_TIMEOUT" 600);
      [|discriminate].
    injection H as <-. cbn [DEBUG AUTO_INITIALIZE]. split.
    + rewrite getenv_flag_spec. unfold getenv.
      destruct (environ "DEBUG") as [v|].
      * split; [eauto|]. now intros (v' & [= <-] & H).
      * split.
        -- intros (c1 & c2 & c3 & c4 & [= <- <- <- <-] & [H|H] & _);
             discriminate H.
        -- intros (v & Hv & _). discriminate Hv.
    + rewrite <- not_true_iff_false, getenv_flag_spec. unfold getenv.
      destruct (environ "AUTO_INITIALIZE") as [v|].
      * split; [eauto|]. now intros (v' & [= <-] & H).
      * split.
        -- intros H. exfalso. apply H. exists "T"%char, "r"%char,
             "u"%char, "e"%char. auto 10.
        -- intros (v & Hv & _). discriminate Hv.
  - split; [|split; [|split]].
    + intros (a & b & c & d & H & _). discriminate H.
    + intros (a & b & c & d & H & _). discriminate H.
    + intros (a & b & c & d & H & _). discriminate H.
    + exists "T"%char, "R"%char, "U"%char, "E"%char. auto 10.
Qed.
